(** * pg_timetable: scheduler runtime and database gateway

    A shallow embedding of the Go sources

      - [internal/scheduler/chain.go]   (getTimeoutContext, executeChain,
                                         executeСhainElement)
      - [internal/scheduler/shell.go]   (ExecuteProgramCommand,
                                         ExecuteProgramCommandWithOptions)
      - [internal/pgengine/access.go]   (FixSchedulerCrash, TryLockClientName)

    Effectful code is written in a state monad over an abstract world [W];
    every call that leaves the scheduler (database gateway, command runner,
    logger, deferred cancel functions) is appended to a trace together with
    the value it returned, so that statements about "which calls were made,
    in which order, on which context" are statements about lists. *)

From Stdlib Require Import ZArith List String Ascii Bool Lia.
Import ListNotations.

Set Implicit Arguments.
Local Open Scope Z_scope.

(** ** Go values *)

Module Go.

(** Go's [int64] (and [int] on 64-bit targets): a [Z] normalised into
    [-2^63, 2^63) after every arithmetic operation that may overflow. *)
Definition wrap64 (z : Z) : Z := (z + 2 ^ 63) mod 2 ^ 64 - 2 ^ 63.

Definition in_int64 (z : Z) : Prop := - 2 ^ 63 <= z < 2 ^ 63.

(** [time.Duration] is an [int64] count of nanoseconds. *)
Definition Duration := Z.
Definition time_Millisecond : Duration := 1000000.
Definition time_Second : Duration := 1000000000.

(** [time.Millisecond * time.Duration(n)] *)
Definition milliseconds (n : Z) : Duration := wrap64 (time_Millisecond * n).

(** [d.Microseconds()]: integer division truncated towards zero. *)
Definition Microseconds (d : Duration) : Z := Z.quot d 1000.

(** The [error] values the scheduler distinguishes: the only dynamic type
    test in the sources is the type assertion to exec.ExitError. Every error carries the
    text that [Error()] returns. *)
Inductive error : Type :=
| errorString (text : string)               (* errors.New(text) *)
| ExitError (exitCode : Z) (text : string)  (* an exec.ExitError *)
| otherError (text : string).               (* any other error value *)

Definition Error (e : error) : string :=
  match e with
  | errorString t => t
  | ExitError _ t => t
  | otherError t => t
  end.

Definition newline : string := String "010"%char EmptyString.

(** [strings.Join(elems, sep)] *)
Definition strings_Join (elems : list string) (sep : string) : string :=
  String.concat sep elems.

(** [fmt.Sprintf("%v", params)] for a [[]string]: [[a b c]]. *)
Definition fmt_v (params : list string) : string :=
  ("[" ++ String.concat " " params ++ "]")%string.

Lemma wrap64_small z : in_int64 z -> wrap64 z = z.
Proof.
  unfold in_int64, wrap64; intros H.
  rewrite Z.mod_small; lia.
Qed.

Lemma wrap64_range z : in_int64 (wrap64 z).
Proof.
  unfold in_int64, wrap64.
  pose proof (Z.mod_pos_bound (z + 2 ^ 63) (2 ^ 64) ltac:(lia)). lia.
Qed.

End Go.

Import Go.

(** ** Loggers and contexts *)

Inductive FieldValue : Type :=
| FInt (n : Z)
| FStr (s : string)
| FErr (e : error).

(** A logger entry is the list of fields attached so far. *)
Definition Logger : Type := list (string * FieldValue).

Definition WithField (l : Logger) (k : string) (v : FieldValue) : Logger :=
  l ++ [(k, v)].

Definition WithError (l : Logger) (e : error) : Logger :=
  WithField l "error" (FErr e).

Inductive Level : Type := LDebug | LInfo | LError.

Inductive LogArg : Type :=
| AStr (s : string)
| AInt (n : Z)
| AErr (e : error).

(** [context.Context]: the tree of derivations from [context.Background()].
    [log.WithLogger] attaches a value and keeps the parent's cancellation. *)
Inductive Context : Type :=
| Background
| WithCancel (parent : Context)
| WithTimeout (parent : Context) (d : Duration)
| WithLogger (parent : Context) (l : Logger).

(** A context can be cancelled when a cancel function or a deadline sits
    somewhere on the path to the root. *)
Fixpoint cancellable (c : Context) : bool :=
  match c with
  | Background => false
  | WithCancel _ => true
  | WithTimeout _ _ => true
  | WithLogger p _ => cancellable p
  end.

(** [context.CancelFunc]: the function that cancels the context it was
    returned with; [None] is Go's [nil]. *)
Inductive CancelFunc : Type :=
| cancelOf (c : Context).

(** Modelled from the spec: the helper [Max] of package scheduler is not
    among the sources; "effective timeout = max(config.TaskTimeout,
    task.Timeout)". *)
Definition Max (a b : Z) : Z := if a <? b then b else a.

(** chain.go, lines 150-156. *)
Definition getTimeoutContext (ctx : Context) (t1 t2 : Z)
  : Context * option CancelFunc :=
  let timeout := Max t1 t2 in
  if timeout >? 0 then
    let c := WithTimeout ctx (milliseconds timeout) in
    (c, Some (cancelOf c))
  else (ctx, None).

(** ** Data of package pgengine as the scheduler uses it

    The declarations of [pgengine.Chain] and [pgengine.ChainTask] are not among
    the sources; the records below hold the fields that chain.go reads and
    writes. *)

Module Chain.
Record t : Type := mk {
  ChainID : Z;
  MaxInstances : Z;
  Timeout : Z;
  ExclusiveExecution : bool;
  SelfDestruct : bool
}.
End Chain.

Module ChainTask.
Record t : Type := mk {
  ChainID : Z;
  TaskID : Z;
  Script : string;
  Kind : string;
  IgnoreError : bool;
  Timeout : Z;
  Txid : Z;
  StartedAt : Z;   (* time.Time, nanoseconds *)
  Duration : Z     (* microseconds *)
}.

Definition set_ChainID (x : t) (v : Z) : t :=
  mk v (TaskID x) (Script x) (Kind x) (IgnoreError x) (Timeout x) (Txid x)
     (StartedAt x) (Duration x).

Definition set_Txid (x : t) (v : Z) : t :=
  mk (ChainID x) (TaskID x) (Script x) (Kind x) (IgnoreError x) (Timeout x) v
     (StartedAt x) (Duration x).

Definition set_StartedAt (x : t) (v : Z) : t :=
  mk (ChainID x) (TaskID x) (Script x) (Kind x) (IgnoreError x) (Timeout x)
     (Txid x) v (Duration x).

Definition set_Duration (x : t) (v : Z) : t :=
  mk (ChainID x) (TaskID x) (Script x) (Kind x) (IgnoreError x) (Timeout x)
     (Txid x) (StartedAt x) v.
End ChainTask.

(** A [pgx.Tx] value: an opaque transaction handle. *)
Inductive Tx : Type :=
| txHandle (id : Z).

(** shell.go, lines 13-18 and 81-86. *)
Record CommanderOptions : Type := mkCommanderOptions {
  co_ChainId : Z;
  co_TaskId : Z;
  co_Command : string;
  co_Args : list string
}.

Record ExecuteProgramOptions : Type := mkExecuteProgramOptions {
  ChainId : Z;
  TaskId : Z;
  Command : string;
  ParamValue : list string
}.

(** [config.Resource] as far as chain.go reads it. *)
Record ResourceOpts : Type := mkResourceOpts {
  CronWorkers : Z;
  ChainTimeout : Z;
  TaskTimeout : Z
}.

(** ** Traces

    One event per call that leaves the scheduler, with the arguments it was
    made with and, where the scheduler looks at it, the value it returned. *)

Inductive Event : Type :=
| EvLog (l : Logger) (lvl : Level) (args : list LogArg)
| EvCancel (f : CancelFunc)
| EvStartTransaction (ctx : Context) (chainID : Z)
    (r : Tx * Z * option error)
| EvGetChainElements (ctx : Context) (tx : Tx) (chainID : Z)
    (r : list ChainTask.t * option error)
| EvRollbackTransaction (ctx : Context) (tx : Tx)
| EvCommitTransaction (ctx : Context) (tx : Tx)
| EvRemoveChainRunStatus (ctx : Context) (chainID : Z)
| EvDeleteChainConfig (ctx : Context) (chainID : Z)
| EvGetChainParamValues (ctx : Context) (tx : Tx) (task : ChainTask.t)
    (r : list string * option error)
| EvExecuteSQLTask (ctx : Context) (tx : Tx) (task : ChainTask.t)
    (paramValues : list string) (r : string * option error)
| EvExecuteTask (ctx : Context) (script : string)
    (paramValues : list string) (r : string * option error)
| EvLogChainElementExecution (ctx : Context) (task : ChainTask.t)
    (retCode : Z) (out : string)
| EvCombinedOutput (ctx : Context) (command : string) (args : list string)
    (r : string * option error)
| EvCombinedOutputWithOptions (ctx : Context) (o : CommanderOptions)
    (r : string * option error)
(* access.go *)
| EvLogToDB (level : string) (args : list LogArg)
| EvExecContext (ctx : Context) (client : string) (r : option error)
| EvTryAdvisoryLock (ctx : Context) (key1 key2 : Z)
    (r : option bool * option error)
| EvSelect (ctx : Context) (d : Duration) (done : bool).

Definition isLogChainElementExecution (e : Event) : bool :=
  match e with
  | EvLogChainElementExecution _ _ _ _ => true
  | _ => false
  end.

Definition isCommanderCall (e : Event) : bool :=
  match e with
  | EvCombinedOutput _ _ _ _ => true
  | EvCombinedOutputWithOptions _ _ _ => true
  | _ => false
  end.

Definition isRemoveChainRunStatus (e : Event) : bool :=
  match e with
  | EvRemoveChainRunStatus _ _ => true
  | _ => false
  end.

Definition isRollbackTransaction (e : Event) : bool :=
  match e with
  | EvRollbackTransaction _ _ => true
  | _ => false
  end.

(** The events by which a task shows that it ran: fetching its parameters is
    the first thing executeСhainElement does. *)
Definition isTaskEvent (e : Event) : bool :=
  match e with
  | EvGetChainParamValues _ _ _ _ => true
  | EvExecuteSQLTask _ _ _ _ _ => true
  | EvExecuteTask _ _ _ _ => true
  | EvLogChainElementExecution _ _ _ _ => true
  | EvCombinedOutput _ _ _ _ => true
  | EvCombinedOutputWithOptions _ _ _ => true
  | _ => false
  end.

(** ** The effect monad: a world transformer that also writes its events *)

Section Effects.

Variable W : Type.

Definition M (A : Type) : Type := W -> A * W * list Event.

Definition ret {A : Type} (a : A) : M A := fun w => (a, w, []).

Definition bind {A B : Type} (m : M A) (k : A -> M B) : M B :=
  fun w =>
    let '(a, w1, t1) := m w in
    let '(b, w2, t2) := k a w1 in
    (b, w2, t1 ++ t2).

(** A call whose result the caller reads. *)
Definition call {A : Type} (f : W -> A * W) (ev : A -> Event) : M A :=
  fun w => let '(a, w1) := f w in (a, w1, [ev a]).

(** A call made for its effect only. *)
Definition call_ (f : W -> W) (ev : Event) : M unit :=
  fun w => (tt, f w, [ev]).

(** A logger call: the world is not consulted. *)
Definition logf (l : Logger) (lvl : Level) (args : list LogArg) : M unit :=
  fun w => (tt, w, [EvLog l lvl args]).

(** [defer cancel()] registered under [if cancel != nil]. *)
Definition deferred (cancel : option CancelFunc) : M unit :=
  fun w =>
    match cancel with
    | Some f => (tt, w, [EvCancel f])
    | None => (tt, w, [])
    end.

End Effects.

Arguments ret {W A} a.
Arguments logf {W} l lvl args.
Arguments deferred {W} cancel.

Declare Scope go_scope.
Delimit Scope go_scope with go.

Notation "x <- c1 ;; c2" := (bind c1 (fun x => c2))
  (at level 61, c1 at next level, right associativity) : go_scope.
Notation "' pat <- c1 ;; c2" :=
  (bind c1 (fun x => match x with pat => c2 end))
  (at level 61, pat pattern, c1 at next level, right associativity) : go_scope.
Notation "c1 ;; c2" := (bind c1 (fun _ => c2))
  (at level 61, right associativity) : go_scope.

Local Open Scope go_scope.

(** Lists of events are compared with appends associated to the right. *)
Ltac listnorm := repeat (progress (cbn [app]; rewrite <- ?app_assoc)).

(** ** Package scheduler *)

Section Scheduler.

Variable W : Type.

(** The database gateway as chain.go calls it ([sch.pgengine]). Its methods
    are not among the sources: each is a transformer of the world. Methods
    that receive the task by pointer are taken not to write to it. *)
Record PgEngine : Type := mkPgEngine {
  NoProgramTasks : bool;
  StartTransaction : Context -> Z -> W -> (Tx * Z * option error) * W;
  GetChainElements :
    Context -> Tx -> Z -> W -> (list ChainTask.t * option error) * W;
  GetChainParamValues :
    Context -> Tx -> ChainTask.t -> W -> (list string * option error) * W;
  ExecuteSQLTask :
    Context -> Tx -> ChainTask.t -> list string -> W ->
    (string * option error) * W;
  LogChainElementExecution : Context -> ChainTask.t -> Z -> string -> W -> W;
  RemoveChainRunStatus : Context -> Z -> W -> W;
  RollbackTransaction : Context -> Tx -> W -> W;
  CommitTransaction : Context -> Tx -> W -> W;
  DeleteChainConfig : Context -> Z -> W -> W
}.

(** shell.go, lines 20-23: the [commander] interface. The byte slice it
    returns is kept as the string [string(out)]. *)
Record commander : Type := mkCommander {
  CombinedOutput :
    Context -> string -> list string -> W -> (string * option error) * W;
  CombinedOutputWithOptions :
    Context -> CommanderOptions -> W -> (string * option error) * W
}.

Record Scheduler : Type := mkScheduler {
  l : Logger;
  pgengine : PgEngine;
  Config : ResourceOpts;
  (* the method sch.executeTask (built-in tasks), not among the sources *)
  executeTask :
    Context -> string -> list string -> W -> (string * option error) * W
}.

(** The package variable [Cmd] (shell.go, line 43). *)
Variable Cmd : commander.

(** Library functions: [strings.TrimSpace], [json.Unmarshal] into a
    [[]string] (the error or the decoded slice), [log.GetLogger] and the
    clock read by [time.Now] and [time.Since]. *)
Variable strings_TrimSpace : string -> string.
Variable json_Unmarshal : string -> error + list string.
Variable log_GetLogger : Context -> Logger.
Variable time_Now : W -> Z.

Definition now : M W Z := fun w => (time_Now w, w, []).

(** [time.Since(t)]: [Time.Sub] saturates at the bounds of [Duration]. *)
Definition time_Since (t : Z) : M W Duration :=
  fun w => (Z.max (- 2 ^ 63) (Z.min (2 ^ 63 - 1) (time_Now w - t)), w, []).

(** *** shell.go *)

(** The exit code that the program loop reports for a failed invocation
    (shell.go, lines 111-118). *)
Definition exitCodeOf (e : error) : Z :=
  match e with
  | ExitError exitCode _ => exitCode
  | _ => -1
  end.

(** [fmt.Sprintf("%s %v: ", command, params)] *)
Definition cmdLineOf (command : string) (params : list string) : string :=
  (command ++ " " ++ fmt_v params ++ ": ")%string.

(** The decoding step at the head of the loop body (lines 56-61, 100-105):
    [params] starts as the empty slice and is only decoded into when
    [val > ""]. *)
Definition decodeParams (val : string) : error + list string :=
  if String.ltb "" val then json_Unmarshal val else inr [].

(** What follows a commander call in the loop body (lines 63-76, 107-120):
    [inl] is a [return] out of the function, [inr] the value of [stdout]
    with which the loop goes on. *)
Definition afterRun (sch : Scheduler) (command : string)
  (params : list string) (r : string * option error)
  : M W ((Z * string * option error) + string) :=
  let '(out, err) := r in
  let cmdLine := cmdLineOf command params in
  let stdout := strings_TrimSpace out in
  let lg := WithField (WithField (l sch) "command" (FStr cmdLine))
                      "output" (FStr out) in
  match err with
  | Some e =>
    match e with
    | ExitError exitCode _ =>
      logf (WithField lg "retcode" (FInt exitCode)) LDebug
           [AStr "Program run"; AStr cmdLine; AInt exitCode];;
      ret (inl (exitCode, stdout, Some e))
    | _ => ret (inl (-1, stdout, Some e))
    end
  | None =>
    logf (WithField lg "retcode" (FInt 0)) LDebug [AStr "Program run"];;
    ret (inr stdout)
  end.

(** The [for _, val := range paramValues] loop of ExecuteProgramCommand
    (lines 55-78). *)
Fixpoint programLoop (sch : Scheduler) (ctx : Context) (command : string)
  (paramValues : list string) (stdout : string)
  : M W (Z * string * option error) :=
  match paramValues with
  | [] => ret (0, stdout, None)
  | val :: rest =>
    match decodeParams val with
    | inl err => ret (-1, ""%string, Some err)
    | inr params =>
      r <- call (CombinedOutput Cmd ctx command params)
                (EvCombinedOutput ctx command params);;
      k <- afterRun sch command params r;;
      match k with
      | inl result => ret result
      | inr stdout' => programLoop sch ctx command rest stdout'
      end
    end
  end.

(** shell.go, lines 46-79. *)
Definition ExecuteProgramCommand (sch : Scheduler) (ctx : Context)
  (command : string) (paramValues : list string)
  : M W (Z * string * option error) :=
  let command := strings_TrimSpace command in
  if (command =? "")%string then
    ret (-1, ""%string, Some (errorString "Program command cannot be empty"))
  else
    let paramValues :=
      if (Z.of_nat (List.length paramValues) =? 0) then [""%string]
      else paramValues in
    programLoop sch ctx command paramValues ""%string.

(** The loop of ExecuteProgramCommandWithOptions (lines 99-122). *)
Fixpoint programLoopWithOptions (sch : Scheduler) (ctx : Context)
  (o : ExecuteProgramOptions) (command : string)
  (paramValues : list string) (stdout : string)
  : M W (Z * string * option error) :=
  match paramValues with
  | [] => ret (0, stdout, None)
  | val :: rest =>
    match decodeParams val with
    | inl err => ret (-1, ""%string, Some err)
    | inr params =>
      let co := mkCommanderOptions (ChainId o) (TaskId o) command params in
      r <- call (CombinedOutputWithOptions Cmd ctx co)
                (EvCombinedOutputWithOptions ctx co);;
      k <- afterRun sch command params r;;
      match k with
      | inl result => ret result
      | inr stdout' =>
        programLoopWithOptions sch ctx o command rest stdout'
      end
    end
  end.

(** shell.go, lines 89-123. *)
Definition ExecuteProgramCommandWithOptions (sch : Scheduler)
  (ctx : Context) (o : ExecuteProgramOptions)
  : M W (Z * string * option error) :=
  let command := strings_TrimSpace (Command o) in
  let paramValues := ParamValue o in
  if (command =? "")%string then
    ret (-1, ""%string, Some (errorString "Program command cannot be empty"))
  else
    let paramValues :=
      if (Z.of_nat (List.length paramValues) =? 0) then [""%string]
      else paramValues in
    programLoopWithOptions sch ctx o command paramValues ""%string.

(** *** chain.go *)

(** The [switch task.Kind] of executeСhainElement (lines 239-250). [None]
    is the [return -2] of a PROGRAM task while program tasks are disabled;
    otherwise the values of [retCode], [out] and [err] after the switch. *)
Definition dispatchTask (sch : Scheduler) (lg : Logger) (ctx : Context)
  (tx : Tx) (task : ChainTask.t) (paramValues : list string)
  : M W (option (Z * string * option error)) :=
  if (ChainTask.Kind task =? "SQL")%string then
    '(out, err) <-
      call (ExecuteSQLTask (pgengine sch) ctx tx task paramValues)
           (EvExecuteSQLTask ctx tx task paramValues);;
    ret (Some (0, out, err))
  else if (ChainTask.Kind task =? "PROGRAM")%string then
    if NoProgramTasks (pgengine sch) then
      logf lg LInfo [AStr "Program task execution skipped"];;
      ret None
    else
      r <- ExecuteProgramCommandWithOptions sch ctx
             (mkExecuteProgramOptions (ChainTask.ChainID task)
                (ChainTask.TaskID task) (ChainTask.Script task) paramValues);;
      ret (Some r)
  else if (ChainTask.Kind task =? "BUILTIN")%string then
    '(out, err) <-
      call (executeTask sch ctx (ChainTask.Script task) paramValues)
           (EvExecuteTask ctx (ChainTask.Script task) paramValues);;
    ret (Some (0, out, err))
  else ret (Some (0, ""%string, None)).

(** Lines 253-261: the values of [retCode] and [out] that are logged and
    returned. *)
Definition normalize (lg : Logger) (retCode : Z) (out : string)
  (err : option error) : M W (Z * string) :=
  match err with
  | Some e =>
    let retCode := if retCode =? 0 then -1 else retCode in
    let out := strings_Join [out; Error e] newline in
    logf (WithError lg e) LError [AStr "Task execution failed"];;
    ret (retCode, out)
  | None =>
    logf lg LInfo [AStr "Task executed successfully"];;
    ret (retCode, out)
  end.

(** chain.go, lines 216-264. *)
Definition executeChainElement (sch : Scheduler) (ctx : Context) (tx : Tx)
  (task : ChainTask.t) : M W Z :=
  let lg := log_GetLogger ctx in
  '(paramValues, err) <-
    call (GetChainParamValues (pgengine sch) ctx tx task)
         (EvGetChainParamValues ctx tx task);;
  match err with
  | Some e =>
    logf (WithError lg e) LError
         [AStr "cannot fetch parameters values for chain: "; AErr e];;
    ret (-1)
  | None =>
    let '(ctx, cancel) :=
      getTimeoutContext ctx (TaskTimeout (Config sch))
                        (ChainTask.Timeout task) in
    startedAt <- now;;
    let task := ChainTask.set_StartedAt task startedAt in
    r <- dispatchTask sch lg ctx tx task paramValues;;
    match r with
    | None => deferred cancel;; ret (-2)
    | Some (retCode, out, err) =>
      d <- time_Since (ChainTask.StartedAt task);;
      let task := ChainTask.set_Duration task (Microseconds d) in
      '(retCode, out) <- normalize lg retCode out err;;
      call_ (LogChainElementExecution (pgengine sch) Background task
                                      retCode out)
            (EvLogChainElementExecution Background task retCode out);;
      deferred cancel;;
      ret retCode
    end
  end.

(** The logger and the two contexts of one iteration of the task loop
    (lines 190, 192 and 196). *)
Definition taskLogger (chainL : Logger) (task : ChainTask.t) : Logger :=
  WithField chainL "task" (FInt (ChainTask.TaskID task)).

(** The task as the loop body sees it after lines 188-189. *)
Definition stampTask (chain : Chain.t) (txid : Z) (task : ChainTask.t)
  : ChainTask.t :=
  ChainTask.set_Txid (ChainTask.set_ChainID task (Chain.ChainID chain)) txid.

(** The loop over the chain's tasks (lines 187-206); [true] when the body
    returned from executeChain. The variable [ctx] is reassigned in every
    iteration, so each task runs on a context derived from the previous
    task's. *)
Fixpoint chainLoop (sch : Scheduler) (chain : Chain.t) (chainL : Logger)
  (tx : Tx) (txid : Z) (ctx : Context) (ChainTasks : list ChainTask.t)
  : M W bool :=
  match ChainTasks with
  | [] => ret false
  | task :: rest =>
    let task := stampTask chain txid task in
    let lg := taskLogger chainL task in
    logf lg LInfo [AStr "Starting task"];;
    let ctx := WithLogger ctx lg in
    retCode <- executeChainElement sch ctx tx task;;
    let bctx := WithLogger Background lg in
    if negb (retCode =? 0) then
      if negb (ChainTask.IgnoreError task) then
        logf chainL LError [AStr "Chain failed"];;
        call_ (RemoveChainRunStatus (pgengine sch) bctx
                                    (Chain.ChainID chain))
              (EvRemoveChainRunStatus bctx (Chain.ChainID chain));;
        call_ (RollbackTransaction (pgengine sch) bctx tx)
              (EvRollbackTransaction bctx tx);;
        ret true
      else
        logf lg LInfo [AStr "Ignoring task failure"];;
        chainLoop sch chain chainL tx txid ctx rest
    else chainLoop sch chain chainL tx txid ctx rest
  end.

(** Lines 207-213: what follows the loop when no task made it return. *)
Definition commitChain (sch : Scheduler) (chain : Chain.t) (chainL : Logger)
  (tx : Tx) : M W unit :=
  let bctx := WithLogger Background chainL in
  call_ (CommitTransaction (pgengine sch) bctx tx)
        (EvCommitTransaction bctx tx);;
  logf chainL LInfo [AStr "Chain executed successfully"];;
  call_ (RemoveChainRunStatus (pgengine sch) bctx (Chain.ChainID chain))
        (EvRemoveChainRunStatus bctx (Chain.ChainID chain));;
  if Chain.SelfDestruct chain then
    call_ (DeleteChainConfig (pgengine sch) bctx (Chain.ChainID chain))
          (EvDeleteChainConfig bctx (Chain.ChainID chain))
  else ret tt.

(** chain.go, lines 159-214. *)
Definition executeChain (sch : Scheduler) (ctx : Context) (chain : Chain.t)
  : M W unit :=
  let '(ctx, cancel) :=
    getTimeoutContext ctx (ChainTimeout (Config sch)) (Chain.Timeout chain) in
  let chainL := WithField (l sch) "chain" (FInt (Chain.ChainID chain)) in
  '(tx, txid, err) <-
    call (StartTransaction (pgengine sch) ctx (Chain.ChainID chain))
         (EvStartTransaction ctx (Chain.ChainID chain));;
  match err with
  | Some e =>
    logf (WithError chainL e) LError [AStr "Cannot start transaction"];;
    deferred cancel
  | None =>
    let chainL := WithField chainL "txid" (FInt txid) in
    '(ChainTasks, err) <-
      call (GetChainElements (pgengine sch) ctx tx (Chain.ChainID chain))
           (EvGetChainElements ctx tx (Chain.ChainID chain));;
    match err with
    | Some e =>
      logf (WithError chainL e) LError
           [AStr "Failed to retrieve chain elements"];;
      call_ (RollbackTransaction (pgengine sch) ctx tx)
            (EvRollbackTransaction ctx tx);;
      deferred cancel
    | None =>
      returned <- chainLoop sch chain chainL tx txid ctx ChainTasks;;
      (if returned : bool then ret tt else commitChain sch chain chainL tx);;
      deferred cancel
    end
  end.

(** *** Views of a trace *)

Definition logCalls (tr : list Event) : list Event :=
  filter isLogChainElementExecution tr.

Definition commanderCalls (tr : list Event) : list Event :=
  filter isCommanderCall tr.

(** The context on which a dispatched task body was run. *)
Definition dispatchContext (e : Event) : option Context :=
  match e with
  | EvExecuteSQLTask ctx _ _ _ _ => Some ctx
  | EvExecuteTask ctx _ _ _ => Some ctx
  | EvCombinedOutput ctx _ _ _ => Some ctx
  | EvCombinedOutputWithOptions ctx _ _ => Some ctx
  | _ => None
  end.

Definition isCancel (e : Event) : bool :=
  match e with
  | EvCancel _ => true
  | _ => false
  end.

(** *** The contract of the program loop

    The behaviour of the parameter loop, stated over the list of commander
    calls found in the trace. It is parametric in the type of entries and in
    the function [argv] that gives the argument vector of an entry (or the
    decoding error), so that the reading of the specification and the one of
    the code can both be written with it. *)

Section ProgramContract.

Variable Entry : Type.
Variable argv : Entry -> error + list string.
Variables (ctx : Context) (o : ExecuteProgramOptions) (command : string).

(** The call made for an entry: the commander is given the chain and task
    identifiers, the trimmed command and the entry's argument vector. *)
Definition invocationOf (params : list string) (r : string * option error)
  : Event :=
  EvCombinedOutputWithOptions ctx
    (mkCommanderOptions (ChainId o) (TaskId o) command params) r.

(** [ev] is the call for [entry], and it came back without error. *)
Definition succeeded (entry : Entry) (ev : Event) : Prop :=
  exists params out,
    argv entry = inr params /\ ev = invocationOf params (out, None).

(** The trimmed output of the last call, [stdout0] when there was none. *)
Fixpoint lastStdout (stdout0 : string) (calls : list Event) : string :=
  match calls with
  | [] => stdout0
  | EvCombinedOutputWithOptions _ _ (out, _) :: rest =>
    lastStdout (strings_TrimSpace out) rest
  | EvCombinedOutput _ _ _ (out, _) :: rest =>
    lastStdout (strings_TrimSpace out) rest
  | _ :: rest => lastStdout stdout0 rest
  end.

Definition programContract (stdout0 : string) (entries : list Entry)
  (result : Z * string * option error) (calls : list Event) : Prop :=
  (* one successful call per entry, in order *)
  (Forall2 succeeded entries calls /\
   result = (0, lastStdout stdout0 calls, None))
  \/
  (* an entry that does not decode: the entries before it were run, it is
     not, and neither is any entry after it *)
  (exists pre entry post err,
     entries = pre ++ entry :: post /\
     Forall2 succeeded pre calls /\
     argv entry = inl err /\
     result = (-1, ""%string, Some err))
  \/
  (* a call that fails: it is the last one *)
  (exists pre entry post calls0 params out e,
     entries = pre ++ entry :: post /\
     calls = calls0 ++ [invocationOf params (out, Some e)] /\
     Forall2 succeeded pre calls0 /\
     argv entry = inr params /\
     result = (exitCodeOf e, strings_TrimSpace out, Some e)).

End ProgramContract.

(** The entries of a parameter list: an empty list counts as one entry
    without arguments. *)
Definition entriesOf (paramValues : list string) : list (option string) :=
  match paramValues with
  | [] => [None]
  | _ => map Some paramValues
  end.

(** The argument vector of an entry as the claim words it: every entry of a
    non-empty list is JSON-decoded. *)
Definition argvAsStated (entry : option string) : error + list string :=
  match entry with
  | None => inr []
  | Some val => json_Unmarshal val
  end.

(** The argument vector of an entry as the code computes it: an entry that
    is the empty string is not decoded and stands for no arguments. *)
Definition argvOfEntry (entry : option string) : error + list string :=
  match entry with
  | None => inr []
  | Some val => if (val =? "")%string then inr [] else json_Unmarshal val
  end.

(** Forgetting the identifiers that the options variant hands to the
    commander. *)
Definition plainEvent (e : Event) : Event :=
  match e with
  | EvCombinedOutputWithOptions ctx co r =>
    EvCombinedOutput ctx (co_Command co) (co_Args co) r
  | _ => e
  end.

(** *** Events and values named in the statements *)

(** Events of the program loop run on [ctx]. *)
Definition programEvent (ctx : Context) (e : Event) : Prop :=
  match e with
  | EvLog _ _ _ => True
  | EvCombinedOutputWithOptions c _ _ => c = ctx
  | _ => False
  end.

(** Events of the [switch] run on [ctx]. *)
Definition dispatchEvent (ctx : Context) (e : Event) : Prop :=
  match e with
  | EvLog _ _ _ => True
  | EvExecuteSQLTask c _ _ _ _ => c = ctx
  | EvExecuteTask c _ _ _ => c = ctx
  | EvCombinedOutputWithOptions c _ _ => c = ctx
  | _ => False
  end.

Definition cancelEvents (cancel : option CancelFunc) : list Event :=
  match cancel with
  | Some f => [EvCancel f]
  | None => []
  end.

(** The duration stamped on the task: from the clock at [w1] (when
    [StartedAt] was set) to the clock at [w2]. *)
Definition elapsed (w1 w2 : W) : Z :=
  Microseconds (Z.max (- 2 ^ 63) (Z.min (2 ^ 63 - 1)
                                        (time_Now w2 - time_Now w1))).

Definition normalizedCode (retCode : Z) (err : option error) : Z :=
  match err with
  | Some _ => if retCode =? 0 then -1 else retCode
  | None => retCode
  end.

Definition normalizedOut (out : string) (err : option error) : string :=
  match err with
  | Some e => (out ++ newline ++ Error e)%string
  | None => out
  end.

Definition outcomeLog (lg : Logger) (err : option error) : Event :=
  match err with
  | Some e => EvLog (WithError lg e) LError [AStr "Task execution failed"]
  | None => EvLog lg LInfo [AStr "Task executed successfully"]
  end.

(** The context on which the task after [pre] is started: line 192
    reassigns [ctx] once per task. *)
Definition ctxAfter (chain : Chain.t) (chainL : Logger) (txid : Z)
  (ctx : Context) (pre : list ChainTask.t) : Context :=
  fold_left
    (fun c task => WithLogger c (taskLogger chainL (stampTask chain txid task)))
    pre ctx.

(** The events of lines 207-213. *)
Definition commitEvents (chain : Chain.t) (chainL : Logger) (tx : Tx)
  : list Event :=
  let bctx := WithLogger Background chainL in
  [EvCommitTransaction bctx tx;
   EvLog chainL LInfo [AStr "Chain executed successfully"];
   EvRemoveChainRunStatus bctx (Chain.ChainID chain)]
  ++ (if Chain.SelfDestruct chain
      then [EvDeleteChainConfig bctx (Chain.ChainID chain)] else []).

(** The commander's two methods agree up to [R]: from related worlds they
    return the same bytes and error, and leave related worlds. *)
Definition methodsAgree (R : W -> W -> Prop) : Prop :=
  forall c cmd args chain task u1 u2,
    R u1 u2 ->
    fst (CombinedOutput Cmd c cmd args u1)
    = fst (CombinedOutputWithOptions Cmd c
             (mkCommanderOptions chain task cmd args) u2) /\
    R (snd (CombinedOutput Cmd c cmd args u1))
      (snd (CombinedOutputWithOptions Cmd c
              (mkCommanderOptions chain task cmd args) u2)).

(** *** More views of a trace *)

(** The tasks for which executeСhainElement was entered, in order. *)
Definition taskRuns (tr : list Event) : list ChainTask.t :=
  flat_map (fun e => match e with
                     | EvGetChainParamValues _ _ task _ => [task]
                     | _ => []
                     end) tr.

(** The contexts on which executeСhainElement was entered, in order. *)
Definition taskContexts (tr : list Event) : list Context :=
  flat_map (fun e => match e with
                     | EvGetChainParamValues c _ _ _ => [c]
                     | _ => []
                     end) tr.

(** A context without the loggers attached on top of it. *)
Fixpoint unlogged (c : Context) : Context :=
  match c with
  | WithLogger parent _ => unlogged parent
  | _ => c
  end.

(** The calls that end a transaction. *)
Definition isTxEnd (e : Event) : bool :=
  match e with
  | EvCommitTransaction _ _ => true
  | EvRollbackTransaction _ _ => true
  | _ => false
  end.

(** What executeСhainElement can emit: the audit call only on
    [context.Background()], and no call that ends the transaction or
    touches the run status. *)
Definition elementEvent (e : Event) : Prop :=
  match e with
  | EvLog _ _ _ => True
  | EvCancel _ => True
  | EvGetChainParamValues _ _ _ _ => True
  | EvExecuteSQLTask _ _ _ _ _ => True
  | EvExecuteTask _ _ _ _ => True
  | EvCombinedOutputWithOptions _ _ _ => True
  | EvLogChainElementExecution c _ _ _ => c = Background
  | _ => False
  end.

(** The contexts on which executeChain writes what must outlive the chain
    context: the audit call on [context.Background()] itself, commit, run
    status removal and self-destruction on contexts that cannot be
    cancelled. *)
Definition durableContext (e : Event) : Prop :=
  match e with
  | EvLogChainElementExecution c _ _ _ => c = Background
  | EvCommitTransaction c _ => cancellable c = false
  | EvRemoveChainRunStatus c _ => cancellable c = false
  | EvDeleteChainConfig c _ => cancellable c = false
  | _ => True
  end.

(** The commander calls of the program functions: on the given context,
    with the given command, which is not empty. *)
Definition commanderCallOf (ctx : Context) (command : string) (e : Event)
  : Prop :=
  match e with
  | EvCombinedOutput c cmd _ _ => c = ctx /\ cmd = command
  | EvCombinedOutputWithOptions c co _ =>
    c = ctx /\ co_Command co = command
  | _ => True
  end.

Definition isDeleteChainConfig (e : Event) : bool :=
  match e with
  | EvDeleteChainConfig _ _ => true
  | _ => false
  end.

(** What the task loop can emit besides the events of the tasks. *)
Definition loopEvent (e : Event) : Prop :=
  match e with
  | EvRemoveChainRunStatus _ _ => True
  | EvRollbackTransaction _ _ => True
  | _ => elementEvent e
  end.

Ltac step :=
  unfold bind, call, call_, logf, ret, deferred, now, time_Since in *;
  cbn [fst snd] in *.

(** *** Basic facts about the monad *)

Lemma bind_eq {A B : Type} (m : M W A) (k : A -> M W B) w a w1 t1 b w2 t2 :
  m w = (a, w1, t1) -> k a w1 = (b, w2, t2) ->
  bind m k w = (b, w2, t1 ++ t2).
Proof. intros Hm Hk. unfold bind. rewrite Hm, Hk. reflexivity. Qed.

Lemma bind_inv {A B : Type} (m : M W A) (k : A -> M W B) w b w2 t :
  bind m k w = (b, w2, t) ->
  exists a w1 t1 t2,
    m w = (a, w1, t1) /\ k a w1 = (b, w2, t2) /\ t = t1 ++ t2.
Proof.
  unfold bind. destruct (m w) as [[a w1] t1].
  destruct (k a w1) as [[b' w2'] t2] eqn:Hk.
  intros H; inversion H; subst. eauto 10.
Qed.

(** *** shell.go: the parameter loop *)

Lemma ltb_empty (val : string) :
  String.ltb "" val = negb (val =? "")%string.
Proof. destruct val; reflexivity. Qed.

Lemma decodeParams_entry (val : string) :
  decodeParams val = argvOfEntry (Some val).
Proof.
  unfold decodeParams, argvOfEntry. rewrite ltb_empty.
  destruct (val =? "")%string; reflexivity.
Qed.

Lemma afterRun_commanderCalls sch command params r w k w' tr :
  afterRun sch command params r w = (k, w', tr) ->
  w' = w /\ commanderCalls tr = [] /\ map plainEvent tr = tr.
Proof.
  unfold afterRun. destruct r as [out [e|]]; [destruct e|]; step;
    intros H; inversion H; subst; repeat split; reflexivity.
Qed.

Lemma programContract_cons (Entry : Type) (argv : Entry -> error + list string)
  ctx o command stdout0 entry entries params out result calls :
  argv entry = inr params ->
  programContract argv ctx o command (strings_TrimSpace out) entries
                  result calls ->
  programContract argv ctx o command stdout0 (entry :: entries) result
                  (invocationOf ctx o command params (out, None) :: calls).
Proof.
  intros Harg [[HF Hres] | [(pre & e & post & err & He & HF & Ha & Hres)
                          | (pre & e & post & calls0 & ps & out' & er & He
                             & Hc & HF & Ha & Hres)]].
  - left. split.
    + constructor; [exists params, out; split; [assumption|reflexivity]
                   | assumption].
    + cbn. assumption.
  - right; left. exists (entry :: pre), e, post, err. subst entries.
    repeat split; try assumption.
    constructor; [exists params, out; split; [assumption|reflexivity]
                 | assumption].
  - right; right.
    exists (entry :: pre), e, post,
           (invocationOf ctx o command params (out, None) :: calls0),
           ps, out', er.
    subst entries calls. repeat split; try assumption.
    constructor; [exists params, out; split; [assumption|reflexivity]
                 | assumption].
Qed.

Lemma programLoopWithOptions_contract sch ctx o command vals :
  forall stdout0 w result w' tr,
    programLoopWithOptions sch ctx o command vals stdout0 w
      = (result, w', tr) ->
    programContract decodeParams ctx o command stdout0 vals result
                    (commanderCalls tr).
Proof.
  induction vals as [|val rest IH]; intros stdout0 w result w' tr H.
  - cbn in H. inversion H; subst. left. split; [constructor|reflexivity].
  - cbn [programLoopWithOptions] in H.
    destruct (decodeParams val) as [err|params] eqn:Hd.
    + inversion H; subst. right; left. exists [], val, rest, err.
      repeat split; [constructor | assumption].
    + apply bind_inv in H. destruct H as (r & w1 & t1 & t2 & Hc & H & ->).
      unfold call in Hc.
      destruct (CombinedOutputWithOptions Cmd ctx _ w) as [r' w1'] eqn:Hcmd.
      inversion Hc; subst r' w1' t1; clear Hc.
      apply bind_inv in H. destruct H as (k & w2 & t3 & t4 & Ha & H & ->).
      pose proof (afterRun_commanderCalls _ _ _ _ _ Ha) as (-> & Hnone & _).
      unfold commanderCalls in *. cbn [app filter isCommanderCall].
      rewrite filter_app, Hnone. cbn [app].
      destruct r as [out [e|]].
      * (* the call failed: afterRun returns *)
        assert (Hk : k = inl (exitCodeOf e, strings_TrimSpace out, Some e)).
        { unfold afterRun in Ha. destruct e; step; inversion Ha; reflexivity. }
        subst k. inversion H; subst. cbn.
        right; right. exists [], val, rest, [], params, out, e.
        repeat split; [constructor | assumption].
      * assert (Hk : k = inr (strings_TrimSpace out)).
        { unfold afterRun in Ha. step. inversion Ha; reflexivity. }
        subst k. apply IH in H.
        apply programContract_cons; assumption.
Qed.

(** The contract is insensitive to how entries are named. *)
Lemma programContract_map (A B : Type) (f : A -> B)
  (argvA : A -> error + list string) (argvB : B -> error + list string)
  ctx o command stdout0 entries result calls :
  (forall a, In a entries -> argvB (f a) = argvA a) ->
  programContract argvA ctx o command stdout0 entries result calls ->
  programContract argvB ctx o command stdout0 (map f entries) result calls.
Proof.
  intros Hf.
  assert (HF2 : forall es cs, (forall a, In a es -> argvB (f a) = argvA a) ->
             Forall2 (succeeded argvA ctx o command) es cs ->
             Forall2 (succeeded argvB ctx o command) (map f es) cs).
  { intros es cs Hes HF. induction HF as [|a c es cs (ps & out & Ha & Hc) HF IH].
    - constructor.
    - cbn. constructor.
      + exists ps, out. split; [rewrite Hes; [assumption|now left]|assumption].
      + apply IH. intros a' Hin. apply Hes. now right. }
  intros [[HF Hres] | [(pre & e & post & err & He & HF & Ha & Hres)
                     | (pre & e & post & calls0 & ps & out' & er & He
                        & Hc & HF & Ha & Hres)]].
  - left. split; [apply HF2; assumption | assumption].
  - right; left. exists (map f pre), (f e), (map f post), err. subst entries.
    rewrite map_app. cbn. repeat split; try assumption.
    + apply HF2; [|assumption]. intros a Hin. apply Hf.
      apply in_or_app. now left.
    + rewrite Hf; [assumption|]. apply in_or_app. right. now left.
  - right; right.
    exists (map f pre), (f e), (map f post), calls0, ps, out', er.
    subst entries. rewrite map_app. cbn. repeat split; try assumption.
    + apply HF2; [|assumption]. intros a Hin. apply Hf.
      apply in_or_app. now left.
    + rewrite Hf; [assumption|]. apply in_or_app. right. now left.
Qed.

(** C3 (as amended). For a command that is not empty after trimming and any
    parameter list, ExecuteProgramCommandWithOptions calls the commander once
    per entry, in order (an empty list counts as one entry without
    arguments), with the trimmed command and the entry's argument vector: the
    JSON-decoded array, or no arguments when the entry is the empty string,
    which is not decoded. An entry that fails to decode ends the loop with
    (-1, "", the decoding error) and is not run; the first call that returns
    an error is the last one and its exit code (-1 when the error is not an
    exit error), its trimmed output and the error are returned; when every
    call succeeds, 0, the trimmed output of the last call and no error are
    returned. *)
Theorem ExecuteProgramCommandWithOptions_contract
  (sch : Scheduler) (ctx : Context) (o : ExecuteProgramOptions) (w : W) :
  strings_TrimSpace (Command o) <> ""%string ->
  forall result w' tr,
    ExecuteProgramCommandWithOptions sch ctx o w = (result, w', tr) ->
    programContract argvOfEntry ctx o (strings_TrimSpace (Command o))
                    ""%string (entriesOf (ParamValue o)) result
                    (commanderCalls tr).
Proof.
  intros Hcmd result w' tr H.
  unfold ExecuteProgramCommandWithOptions in H.
  destruct (String.eqb_spec (strings_TrimSpace (Command o)) "") as [E|_];
    [contradiction|].
  apply programLoopWithOptions_contract in H.
  destruct (ParamValue o) as [|v vs] eqn:Hpv.
  - cbn in H |- *.
    apply programContract_map
      with (f := fun _ : string => @None string) (argvB := argvOfEntry) in H;
      [exact H|].
    intros a [<-|[]]. reflexivity.
  - cbn [List.length Z.of_nat] in H.
    change (Z.pos (Pos.of_succ_nat (List.length vs)) =? 0) with false in H.
    cbn iota in H. unfold entriesOf.
    apply programContract_map
      with (f := @Some string) (argvB := argvOfEntry) in H; [exact H|].
    intros a _. symmetry. apply decodeParams_entry.
Qed.

(** *** shell.go: the empty command *)

(** C10. When the command is empty after [strings.TrimSpace] (so: empty or
    white space only), ExecuteProgramCommandWithOptions returns exit code -1,
    empty output and the non-nil error "Program command cannot be empty"; it
    emits no event at all, in particular it never calls the commander, and
    leaves the world as it was. *)
Theorem ExecuteProgramCommandWithOptions_empty_command
  (sch : Scheduler) (ctx : Context) (o : ExecuteProgramOptions) (w : W) :
  strings_TrimSpace (Command o) = ""%string ->
  ExecuteProgramCommandWithOptions sch ctx o w =
    ((-1, ""%string, Some (errorString "Program command cannot be empty")),
     w, [])
  /\ commanderCalls (snd (ExecuteProgramCommandWithOptions sch ctx o w)) = [].
Proof.
  intros Hempty. unfold ExecuteProgramCommandWithOptions.
  rewrite Hempty. cbn. split; reflexivity.
Qed.

(** *** shell.go: the two entry points *)

Lemma afterRun_pure sch command params r w k w' tr :
  afterRun sch command params r w = (k, w', tr) ->
  forall u, afterRun sch command params r u = (k, u, tr).
Proof.
  unfold afterRun. destruct r as [out [e|]]; [destruct e|]; step;
    intros H u; inversion H; subst; reflexivity.
Qed.

Lemma programLoop_plain sch ctx o command (R : W -> W -> Prop) :
  methodsAgree R ->
  forall vals stdout0 w1 w2,
    R w1 w2 ->
    fst (fst (programLoop sch ctx command vals stdout0 w1))
    = fst (fst (programLoopWithOptions sch ctx o command vals stdout0 w2)) /\
    R (snd (fst (programLoop sch ctx command vals stdout0 w1)))
      (snd (fst (programLoopWithOptions sch ctx o command vals stdout0 w2)))
    /\
    snd (programLoop sch ctx command vals stdout0 w1)
    = map plainEvent
          (snd (programLoopWithOptions sch ctx o command vals stdout0 w2)).
Proof.
  intros Hsame. induction vals as [|val rest IH]; intros stdout0 w1 w2 HR.
  - cbn. auto.
  - cbn [programLoop programLoopWithOptions].
    destruct (decodeParams val) as [err|params]; [cbn; auto|].
    unfold bind, call.
    destruct (Hsame ctx command params (ChainId o) (TaskId o) w1 w2 HR)
      as [Hr HR'].
    destruct (CombinedOutput Cmd ctx command params w1) as [r u1].
    destruct (CombinedOutputWithOptions Cmd ctx _ w2) as [r' u2].
    cbn [fst snd] in Hr, HR'. subst r'.
    destruct (afterRun sch command params r u1) as [[k v1] t1] eqn:Ha.
    pose proof (afterRun_commanderCalls _ _ _ _ _ Ha) as (-> & _ & Hplain).
    rewrite (afterRun_pure _ _ _ _ _ Ha u2).
    destruct k as [result|stdout'].
    + cbn. rewrite app_nil_r, Hplain. auto.
    + specialize (IH stdout' u1 u2 HR').
      destruct (programLoop sch ctx command rest stdout' u1)
        as [[r3 v3] t3].
      destruct (programLoopWithOptions sch ctx o command rest stdout' u2)
        as [[r4 v4] t4].
      cbn [fst snd] in *. destruct IH as (-> & HR4 & ->).
      rewrite !map_app, Hplain. auto.
Qed.

(** C9. If the commander's [CombinedOutput] and [CombinedOutputWithOptions]
    return the same bytes and error for the same context, command and
    arguments, whatever the chain and task identifiers (from worlds related
    by [R], leaving worlds related by [R]; equality of worlds is one such
    relation), then for every context, command and parameter list
    ExecuteProgramCommand and ExecuteProgramCommandWithOptions return the
    same exit code, output and error, and make the same calls in the same
    order. *)
Theorem ExecuteProgramCommand_equiv_WithOptions
  (sch : Scheduler) (ctx : Context) (o : ExecuteProgramOptions)
  (R : W -> W -> Prop) (w1 w2 : W) :
  methodsAgree R ->
  R w1 w2 ->
  fst (fst (ExecuteProgramCommand sch ctx (Command o) (ParamValue o) w1))
  = fst (fst (ExecuteProgramCommandWithOptions sch ctx o w2))
  /\ R (snd (fst (ExecuteProgramCommand sch ctx (Command o) (ParamValue o)
                    w1)))
       (snd (fst (ExecuteProgramCommandWithOptions sch ctx o w2)))
  /\ snd (ExecuteProgramCommand sch ctx (Command o) (ParamValue o) w1)
     = map plainEvent (snd (ExecuteProgramCommandWithOptions sch ctx o w2)).
Proof.
  intros Hsame HR.
  unfold ExecuteProgramCommand, ExecuteProgramCommandWithOptions.
  destruct (strings_TrimSpace (Command o) =? "")%string.
  - cbn. auto.
  - apply programLoop_plain; assumption.
Qed.

(** *** chain.go: which events a task body can emit *)

Lemma programLoopWithOptions_events sch ctx o command vals :
  forall stdout0 w result w' tr,
    programLoopWithOptions sch ctx o command vals stdout0 w
      = (result, w', tr) ->
    Forall (programEvent ctx) tr.
Proof.
  induction vals as [|val rest IH]; intros stdout0 w result w' tr H.
  - inversion H; subst. constructor.
  - cbn [programLoopWithOptions] in H.
    destruct (decodeParams val) as [err|params].
    + inversion H; subst. constructor.
    + apply bind_inv in H. destruct H as (r & w1 & t1 & t2 & Hc & H & ->).
      unfold call in Hc.
      destruct (CombinedOutputWithOptions Cmd ctx _ w) as [r' w1'].
      inversion Hc; subst r' w1' t1; clear Hc.
      apply bind_inv in H. destruct H as (k & w2 & t3 & t4 & Ha & H & ->).
      constructor; [reflexivity|]. apply Forall_app. split.
      * unfold afterRun in Ha. destruct r as [out [e|]]; [destruct e|];
          step; inversion Ha; subst; repeat constructor.
      * destruct k as [res|stdout'].
        -- inversion H; subst. constructor.
        -- eapply IH; eassumption.
Qed.

Lemma ExecuteProgramCommandWithOptions_events sch ctx o w result w' tr :
  ExecuteProgramCommandWithOptions sch ctx o w = (result, w', tr) ->
  Forall (programEvent ctx) tr.
Proof.
  unfold ExecuteProgramCommandWithOptions.
  destruct (strings_TrimSpace (Command o) =? "")%string.
  - intros H; inversion H; subst. constructor.
  - apply programLoopWithOptions_events.
Qed.

Lemma dispatchTask_events sch lg ctx tx task params w r w' tr :
  dispatchTask sch lg ctx tx task params w = (r, w', tr) ->
  Forall (dispatchEvent ctx) tr.
Proof.
  unfold dispatchTask.
  destruct (ChainTask.Kind task =? "SQL")%string.
  { step. destruct (ExecuteSQLTask _ _ _ _ _ _) as [[out err] w1].
    intros H; inversion H; subst. repeat constructor. }
  destruct (ChainTask.Kind task =? "PROGRAM")%string.
  { destruct (NoProgramTasks (pgengine sch)).
    - step. intros H; inversion H; subst. repeat constructor.
    - intros H. apply bind_inv in H.
      destruct H as (a & w1 & t1 & t2 & Hp & H & ->).
      inversion H; subst. rewrite app_nil_r.
      apply ExecuteProgramCommandWithOptions_events in Hp.
      eapply Forall_impl; [|exact Hp].
      intros e He. destruct e; cbn in *; auto; contradiction. }
  destruct (ChainTask.Kind task =? "BUILTIN")%string.
  { step. destruct (executeTask _ _ _ _ _) as [[out err] w1].
    intros H; inversion H; subst. repeat constructor. }
  intros H; inversion H; subst. constructor.
Qed.

Lemma dispatchEvent_logCalls ctx tr :
  Forall (dispatchEvent ctx) tr ->
  logCalls tr = [] /\ filter isCancel tr = [].
Proof.
  induction 1 as [|e tr He _ [IH1 IH2]]; [split; reflexivity|].
  unfold logCalls in *. destruct e; cbn in *; try contradiction; auto.
Qed.

(** *** chain.go: executeСhainElement, path by path *)

Lemma executeChainElement_fetch_failed sch ctx tx task w params e w1 :
  GetChainParamValues (pgengine sch) ctx tx task w
    = ((params, Some e), w1) ->
  executeChainElement sch ctx tx task w =
    (-1, w1,
     [EvGetChainParamValues ctx tx task (params, Some e);
      EvLog (WithError (log_GetLogger ctx) e) LError
            [AStr "cannot fetch parameters values for chain: "; AErr e]]).
Proof.
  intros H. unfold executeChainElement. step. rewrite H. reflexivity.
Qed.

Lemma executeChainElement_fetched sch ctx tx task w params w1 r w2 t2 :
  GetChainParamValues (pgengine sch) ctx tx task w = ((params, None), w1) ->
  let tc := getTimeoutContext ctx (TaskTimeout (Config sch))
                              (ChainTask.Timeout task) in
  let task1 := ChainTask.set_StartedAt task (time_Now w1) in
  dispatchTask sch (log_GetLogger ctx) (fst tc) tx task1 params w1
    = (r, w2, t2) ->
  executeChainElement sch ctx tx task w =
    match r with
    | None =>
      (-2, w2,
       EvGetChainParamValues ctx tx task (params, None)
         :: t2 ++ cancelEvents (snd tc))
    | Some (retCode, out, err) =>
      let task2 := ChainTask.set_Duration task1 (elapsed w1 w2) in
      let retCode' := normalizedCode retCode err in
      let out' := normalizedOut out err in
      (retCode',
       LogChainElementExecution (pgengine sch) Background task2 retCode'
                                out' w2,
       EvGetChainParamValues ctx tx task (params, None)
         :: t2
         ++ [outcomeLog (log_GetLogger ctx) err;
             EvLogChainElementExecution Background task2 retCode' out']
         ++ cancelEvents (snd tc))
    end.
Proof.
  intros Hfetch tc task1 Hd. unfold executeChainElement.
  unfold bind at 1. unfold call at 1. rewrite Hfetch.
  subst tc. destruct (getTimeoutContext _ _ _) as [ctx' cancel].
  cbn [fst snd] in *. unfold bind at 1. unfold now at 1.
  unfold bind at 1. subst task1. rewrite Hd.
  destruct r as [[[retCode out] err]|].
  - unfold elapsed, normalizedCode, normalizedOut, outcomeLog.
    destruct err as [e|]; destruct cancel as [f|]; cbn;
      rewrite ?app_nil_r, <- ?app_assoc; reflexivity.
  - destruct cancel as [f|]; cbn; rewrite ?app_nil_r; reflexivity.
Qed.

Lemma dispatchTask_skipped sch lg ctx tx task params w w' tr :
  dispatchTask sch lg ctx tx task params w = (None, w', tr) ->
  ChainTask.Kind task = "PROGRAM"%string /\
  NoProgramTasks (pgengine sch) = true.
Proof.
  unfold dispatchTask.
  destruct (ChainTask.Kind task =? "SQL")%string.
  { step. destruct (ExecuteSQLTask _ _ _ _ _ _) as [[out err] w1].
    discriminate. }
  destruct (String.eqb_spec (ChainTask.Kind task) "PROGRAM") as [HK|_].
  { destruct (NoProgramTasks (pgengine sch)); [auto|].
    unfold bind. destruct (ExecuteProgramCommandWithOptions _ _ _ _)
      as [[r w1] t1]. discriminate. }
  destruct (ChainTask.Kind task =? "BUILTIN")%string.
  { step. destruct (executeTask _ _ _ _ _) as [[out err] w1].
    discriminate. }
  discriminate.
Qed.

(** C1 (as amended). Whenever executeСhainElement gets as far as running the
    task, that is: the parameter values were fetched and the task is not a
    PROGRAM task while program tasks are disabled, LogChainElementExecution is
    called exactly once before the function returns, with the returned exit
    code, on [context.Background()], which cannot be cancelled. This holds on
    every context the function is given (a cancelled chain context included)
    and whatever the task and the gateway answer. *)
Theorem executeChainElement_logs_once
  (sch : Scheduler) (ctx : Context) (tx : Tx) (task : ChainTask.t) (w : W)
  (params : list string) (w1 : W) :
  GetChainParamValues (pgengine sch) ctx tx task w = ((params, None), w1) ->
  (ChainTask.Kind task = "PROGRAM"%string ->
   NoProgramTasks (pgengine sch) = false) ->
  exists retCode w' tr task' out,
    executeChainElement sch ctx tx task w = (retCode, w', tr) /\
    logCalls tr = [EvLogChainElementExecution Background task' retCode out] /\
    cancellable Background = false.
Proof.
  intros Hfetch Hgate.
  destruct (dispatchTask sch (log_GetLogger ctx)
              (fst (getTimeoutContext ctx (TaskTimeout (Config sch))
                                      (ChainTask.Timeout task)))
              tx (ChainTask.set_StartedAt task (time_Now w1)) params w1)
    as [[r w2] t2] eqn:Hd.
  rewrite (executeChainElement_fetched _ _ _ _ _ Hfetch Hd).
  pose proof (dispatchTask_events _ _ _ _ _ _ _ Hd) as Hev.
  apply dispatchEvent_logCalls in Hev. destruct Hev as [Hlog _].
  destruct r as [[[retCode out] err]|].
  - do 5 eexists. split; [reflexivity|]. split; [|reflexivity].
    unfold logCalls in *. cbn [filter isLogChainElementExecution].
    rewrite !filter_app, Hlog.
    destruct err; destruct (snd (getTimeoutContext _ _ _)); reflexivity.
  - apply dispatchTask_skipped in Hd. destruct Hd as [HK HN].
    cbn in HK. rewrite (Hgate HK) in HN. discriminate.
Qed.

(** The two early returns: the call is not made on either. *)
Lemma executeChainElement_early_returns sch ctx tx task w retCode w' tr :
  executeChainElement sch ctx tx task w = (retCode, w', tr) ->
  (forall params e w1,
      GetChainParamValues (pgengine sch) ctx tx task w
        = ((params, Some e), w1) ->
      retCode = -1 /\ logCalls tr = []) /\
  (forall params w1,
      GetChainParamValues (pgengine sch) ctx tx task w
        = ((params, None), w1) ->
      ChainTask.Kind task = "PROGRAM"%string ->
      NoProgramTasks (pgengine sch) = true ->
      retCode = -2 /\ logCalls tr = []).
Proof.
  intros Hrun. split.
  - intros params e w1 Hfetch.
    rewrite (executeChainElement_fetch_failed _ _ _ _ _ Hfetch) in Hrun.
    inversion Hrun; subst. split; reflexivity.
  - intros params w1 Hfetch HK HN.
    destruct (dispatchTask sch (log_GetLogger ctx)
                (fst (getTimeoutContext ctx (TaskTimeout (Config sch))
                                        (ChainTask.Timeout task)))
                tx (ChainTask.set_StartedAt task (time_Now w1)) params w1)
      as [[r w2] t2] eqn:Hd.
    rewrite (executeChainElement_fetched _ _ _ _ _ Hfetch Hd) in Hrun.
    assert (r = None /\ t2 = [EvLog (log_GetLogger ctx) LInfo
                                [AStr "Program task execution skipped"]])
      as [-> ->].
    { unfold dispatchTask in Hd. cbn [ChainTask.Kind ChainTask.set_StartedAt]
        in Hd. rewrite HK, HN in Hd. cbn in Hd. inversion Hd. auto. }
    inversion Hrun; subst. split; [reflexivity|].
    destruct (snd (getTimeoutContext _ _ _)); reflexivity.
Qed.

(** C8. When the parameters were fetched and the task body comes back with
    exit code 0 and a non-nil error, executeСhainElement returns -1, and the
    one call of LogChainElementExecution it makes carries -1 and the output
    followed by a newline and the error's text. *)
Theorem executeChainElement_normalizes_error
  (sch : Scheduler) (ctx : Context) (tx : Tx) (task : ChainTask.t) (w : W)
  (params : list string) (w1 : W) (out : string) (e : error) (w2 : W)
  (t2 : list Event) :
  GetChainParamValues (pgengine sch) ctx tx task w = ((params, None), w1) ->
  dispatchTask sch (log_GetLogger ctx)
    (fst (getTimeoutContext ctx (TaskTimeout (Config sch))
                            (ChainTask.Timeout task)))
    tx (ChainTask.set_StartedAt task (time_Now w1)) params w1
    = (Some (0, out, Some e), w2, t2) ->
  exists w' tr task',
    executeChainElement sch ctx tx task w = (-1, w', tr) /\
    logCalls tr =
      [EvLogChainElementExecution Background task' (-1)
         (out ++ newline ++ Error e)%string].
Proof.
  intros Hfetch Hd.
  rewrite (executeChainElement_fetched _ _ _ _ _ Hfetch Hd).
  pose proof (dispatchTask_events _ _ _ _ _ _ _ Hd) as Hev.
  apply dispatchEvent_logCalls in Hev. destruct Hev as [Hlog _].
  do 3 eexists. split; [reflexivity|].
  unfold logCalls in *. cbn [filter isLogChainElementExecution].
  rewrite !filter_app, Hlog.
  destruct (snd (getTimeoutContext _ _ _)); reflexivity.
Qed.

(** *** chain.go: timeouts *)

Lemma Max_spec a b : Max a b = Z.max a b.
Proof. unfold Max. destruct (Z.ltb_spec a b); lia. Qed.

Lemma milliseconds_exact (n : Z) :
  0 <= n <= 9223372036854 -> milliseconds n = 1000000 * n.
Proof.
  intros H. unfold milliseconds, time_Millisecond.
  apply wrap64_small. unfold in_int64. lia.
Qed.

Lemma dispatchEvent_context ctx e c :
  dispatchEvent ctx e -> dispatchContext e = Some c -> c = ctx.
Proof.
  destruct e; cbn; intros H1 H2; try discriminate; try contradiction;
    congruence.
Qed.

(** C6 (as amended). [getTimeoutContext ctx t1 t2] returns, when
    max(t1, t2) > 0, the context derived from [ctx] with the timeout
    [time.Millisecond * time.Duration(max(t1, t2))] and the non-nil cancel
    function of that context; that timeout is max(t1, t2) milliseconds as
    long as max(t1, t2) <= 9223372036854, the largest count of milliseconds
    whose nanoseconds fit [time.Duration]. When max(t1, t2) <= 0 it returns
    [ctx] itself and a nil cancel function. executeСhainElement applies it to
    [config.TaskTimeout] and [task.Timeout]: every task body it dispatches
    runs on the context so obtained and the only cancel function it calls is
    the one so obtained; when both timeouts are 0 that context is the given
    one and no cancel function is called. *)
Theorem getTimeoutContext_spec (ctx : Context) (t1 t2 : Z) :
  (0 < Z.max t1 t2 ->
   getTimeoutContext ctx t1 t2 =
     (WithTimeout ctx (milliseconds (Z.max t1 t2)),
      Some (cancelOf (WithTimeout ctx (milliseconds (Z.max t1 t2))))) /\
   (Z.max t1 t2 <= 9223372036854 ->
    milliseconds (Z.max t1 t2) = 1000000 * Z.max t1 t2)) /\
  (Z.max t1 t2 <= 0 -> getTimeoutContext ctx t1 t2 = (ctx, None)) /\
  (forall (sch : Scheduler) tx task w retCode w' tr,
      executeChainElement sch ctx tx task w = (retCode, w', tr) ->
      let tc := getTimeoutContext ctx (TaskTimeout (Config sch))
                                  (ChainTask.Timeout task) in
      (forall e c, In e tr -> dispatchContext e = Some c -> c = fst tc) /\
      (forall f, In (EvCancel f) tr -> snd tc = Some f) /\
      (TaskTimeout (Config sch) = 0 -> ChainTask.Timeout task = 0 ->
       tc = (ctx, None) /\ filter isCancel tr = [])).
Proof.
  split; [|split].
  - intros Hpos. split.
    + unfold getTimeoutContext. rewrite Max_spec.
      destruct (Z.gtb_spec (Z.max t1 t2) 0); [reflexivity|lia].
    + intros Hle. apply milliseconds_exact. lia.
  - intros Hle. unfold getTimeoutContext. rewrite Max_spec.
    destruct (Z.gtb_spec (Z.max t1 t2) 0); [lia|reflexivity].
  - intros sch tx task w retCode w' tr Hrun tc.
    destruct (GetChainParamValues (pgengine sch) ctx tx task w)
      as [[params [e|]] w1] eqn:Hfetch.
    + rewrite (executeChainElement_fetch_failed _ _ _ _ _ Hfetch) in Hrun.
      inversion Hrun; subst retCode w' tr. split; [|split].
      * intros ev c [<-|[<-|[]]]; discriminate.
      * intros f [H|[H|[]]]; discriminate.
      * subst tc. intros -> ->. split; reflexivity.
    + destruct (dispatchTask sch (log_GetLogger ctx) (fst tc) tx
                  (ChainTask.set_StartedAt task (time_Now w1)) params w1)
        as [[r w2] tb] eqn:Hd.
      subst tc. rewrite (executeChainElement_fetched _ _ _ _ _ Hfetch Hd)
        in Hrun.
      pose proof (dispatchTask_events _ _ _ _ _ _ _ Hd) as Hev.
      pose proof (dispatchEvent_logCalls Hev) as [_ Hnc].
      rewrite Forall_forall in Hev.
      set (tc := getTimeoutContext ctx (TaskTimeout (Config sch))
                                   (ChainTask.Timeout task)) in *.
      assert (Htr : exists mid,
                 tr = EvGetChainParamValues ctx tx task (params, None)
                        :: tb ++ mid ++ cancelEvents (snd tc) /\
                 (forall e c, In e mid -> dispatchContext e = Some c ->
                              False) /\
                 filter isCancel mid = []).
      { destruct r as [[[rc out] err]|]; inversion Hrun; subst.
        - exists [outcomeLog (log_GetLogger ctx) err;
                  EvLogChainElementExecution Background
                    (ChainTask.set_Duration
                       (ChainTask.set_StartedAt task (time_Now w1))
                       (elapsed w1 w2))
                    (normalizedCode rc err) (normalizedOut out err)].
          split; [reflexivity|]. split.
          + intros ev c [<-|[<-|[]]]; destruct err; discriminate.
          + destruct err; reflexivity.
        - exists []. split; [reflexivity|]. split; [intros ? ? []|reflexivity].
      }
      destruct Htr as (mid & -> & Hmid & Hmc). split; [|split].
      * intros ev c [<-|Hin] Hc; [discriminate|].
        apply in_app_or in Hin. destruct Hin as [Hin|Hin].
        { eapply dispatchEvent_context; [apply Hev; exact Hin|exact Hc]. }
        apply in_app_or in Hin. destruct Hin as [Hin|Hin].
        { exfalso. eapply Hmid; eassumption. }
        destruct (snd tc); [destruct Hin as [<-|[]]; discriminate|destruct Hin].
      * intros f [H|Hin]; [discriminate|].
        apply in_app_or in Hin. destruct Hin as [Hin|Hin].
        { exfalso. assert (Hf : In (EvCancel f) (filter isCancel tb)).
          { apply filter_In. split; [assumption|reflexivity]. }
          rewrite Hnc in Hf. destruct Hf. }
        apply in_app_or in Hin. destruct Hin as [Hin|Hin].
        { exfalso. assert (Hf : In (EvCancel f) (filter isCancel mid)).
          { apply filter_In. split; [assumption|reflexivity]. }
          rewrite Hmc in Hf. destruct Hf. }
        destruct (snd tc) as [g|]; [|destruct Hin].
        destruct Hin as [H|[]]. inversion H. reflexivity.
      * intros H0 H1. split.
        { subst tc. rewrite H0, H1. reflexivity. }
        cbn [filter isCancel]. rewrite !filter_app, Hnc, Hmc.
        subst tc. rewrite H0, H1. reflexivity.
Qed.

(** *** chain.go: executeChain *)

Lemma chainLoop_app sch chain chainL tx txid pre :
  forall ctx w w1 t1 rest,
    chainLoop sch chain chainL tx txid ctx pre w = (false, w1, t1) ->
    chainLoop sch chain chainL tx txid ctx (pre ++ rest) w =
    let '(b, w2, t2) :=
      chainLoop sch chain chainL tx txid
                (ctxAfter chain chainL txid ctx pre) rest w1 in
    (b, w2, t1 ++ t2).
Proof.
  induction pre as [|task pre IH]; intros ctx w w1 t1 rest H.
  - inversion H; subst. cbn.
    destruct (chainLoop _ _ _ _ _ _ rest w1) as [[b w2] t2]. reflexivity.
  - cbn [app chainLoop ctxAfter fold_left] in *.
    unfold bind at 1 in H. unfold bind at 1. unfold logf at 1 in H.
    unfold logf at 1.
    unfold bind at 1 in H. unfold bind at 1.
    destruct (executeChainElement sch _ tx _ w) as [[rc w2] t2].
    destruct (negb (rc =? 0)).
    + destruct (negb (ChainTask.IgnoreError (stampTask chain txid task))).
      * step. inversion H.
      * unfold bind at 1 in H. unfold bind at 1. unfold logf at 1 in H.
        unfold logf at 1.
        destruct (chainLoop sch chain chainL tx txid _ pre w2)
          as [[b3 w3] t3] eqn:Hrec.
        inversion H; subst b3 w3 t1; clear H.
        rewrite (IH _ _ _ _ rest Hrec). fold (ctxAfter chain chainL txid).
        destruct (chainLoop _ _ _ _ _ _ rest w1) as [[b4 w4] t4].
        cbn. rewrite <- !app_assoc. reflexivity.
    + destruct (chainLoop sch chain chainL tx txid _ pre w2)
        as [[b3 w3] t3] eqn:Hrec.
      inversion H; subst b3 w3 t1; clear H.
      rewrite (IH _ _ _ _ rest Hrec). fold (ctxAfter chain chainL txid).
      destruct (chainLoop _ _ _ _ _ _ rest w1) as [[b4 w4] t4].
      cbn. rewrite <- !app_assoc. reflexivity.
Qed.

Lemma executeChainElement_first_event sch ctx tx task w retCode w' tr :
  executeChainElement sch ctx tx task w = (retCode, w', tr) ->
  exists r tr', tr = EvGetChainParamValues ctx tx task r :: tr'.
Proof.
  unfold executeChainElement. intros H. apply bind_inv in H.
  destruct H as (a & w1 & t1 & t2 & Hc & _ & ->).
  unfold call in Hc. destruct (GetChainParamValues _ _ _ _ _) as [r w0].
  inversion Hc; subst. do 2 eexists. reflexivity.
Qed.

Lemma chainLoop_first_events sch chain chainL tx txid ctx next post w b w' tr :
  chainLoop sch chain chainL tx txid ctx (next :: post) w = (b, w', tr) ->
  exists r tr',
    tr = EvLog (taskLogger chainL (stampTask chain txid next)) LInfo
               [AStr "Starting task"]
         :: EvGetChainParamValues
              (WithLogger ctx (taskLogger chainL (stampTask chain txid next)))
              tx (stampTask chain txid next) r
         :: tr'.
Proof.
  cbn [chainLoop]. intros H. apply bind_inv in H.
  destruct H as (a & w1 & t1 & t2 & Hl & H & ->).
  unfold logf in Hl. inversion Hl; subst a w1 t1; clear Hl.
  apply bind_inv in H. destruct H as (rc & w2 & t3 & t4 & He & _ & ->).
  apply executeChainElement_first_event in He.
  destruct He as (r & tr' & ->). do 2 eexists. reflexivity.
Qed.

(** C7. When StartTransaction fails, executeChain logs "Cannot start
    transaction" and returns: its whole trace is that call, the log line and
    the deferred cancel of the chain's timeout context, so no task is run and
    neither RemoveChainRunStatus nor RollbackTransaction is called; the world
    is left as StartTransaction left it (the run-status row stays). *)
Theorem executeChain_StartTransaction_failed
  (sch : Scheduler) (ctx : Context) (chain : Chain.t) (w : W)
  (tx : Tx) (txid : Z) (e : error) (w1 : W) :
  let tc := getTimeoutContext ctx (ChainTimeout (Config sch))
                              (Chain.Timeout chain) in
  let chainL := WithField (l sch) "chain" (FInt (Chain.ChainID chain)) in
  StartTransaction (pgengine sch) (fst tc) (Chain.ChainID chain) w
    = ((tx, txid, Some e), w1) ->
  executeChain sch ctx chain w =
    (tt, w1,
     [EvStartTransaction (fst tc) (Chain.ChainID chain) (tx, txid, Some e);
      EvLog (WithError chainL e) LError [AStr "Cannot start transaction"]]
     ++ cancelEvents (snd tc))
  /\ filter isTaskEvent (snd (executeChain sch ctx chain w)) = []
  /\ filter isRemoveChainRunStatus (snd (executeChain sch ctx chain w)) = []
  /\ filter isRollbackTransaction (snd (executeChain sch ctx chain w)) = [].
Proof.
  intros tc chainL Hstart.
  assert (Hrun : executeChain sch ctx chain w =
    (tt, w1,
     [EvStartTransaction (fst tc) (Chain.ChainID chain) (tx, txid, Some e);
      EvLog (WithError chainL e) LError [AStr "Cannot start transaction"]]
     ++ cancelEvents (snd tc))).
  { unfold executeChain. subst tc chainL.
    destruct (getTimeoutContext _ _ _) as [ctx' cancel]. cbn [fst snd] in *.
    unfold bind at 1. unfold call at 1. rewrite Hstart.
    destruct cancel; reflexivity. }
  rewrite Hrun. cbn [snd]. repeat split;
    destruct (snd tc); reflexivity.
Qed.

(** C2. Suppose executeChain has started its transaction, fetched the tasks
    [pre ++ task :: post], run [pre] without leaving the loop, and [task]
    returns a non-zero exit code. If [task.IgnoreError] is false, the rest
    of the run is exactly: the log line "Chain failed", RemoveChainRunStatus
    and RollbackTransaction, both on a context derived from
    [context.Background()] (not cancellable), and the deferred cancel; no
    task of [post] is run and executeChain returns. If [task.IgnoreError] is
    true, the run goes on after the log line "Ignoring task failure": with
    the first task of [post], started on the context derived from [task]'s,
    or with the commit when [post] is empty. *)
Theorem executeChain_task_failure
  (sch : Scheduler) (ctx : Context) (chain : Chain.t) (w : W)
  (tx : Tx) (txid : Z) (w1 : W) (pre : list ChainTask.t)
  (task : ChainTask.t) (post : list ChainTask.t) (w2 w3 : W)
  (t3 : list Event) (retCode : Z) (w4 : W) (t4 : list Event) :
  let id := Chain.ChainID chain in
  let tc := getTimeoutContext ctx (ChainTimeout (Config sch))
                              (Chain.Timeout chain) in
  let chainL := WithField (WithField (l sch) "chain" (FInt id))
                          "txid" (FInt txid) in
  let task' := stampTask chain txid task in
  let lg := taskLogger chainL task' in
  let tctx := WithLogger (ctxAfter chain chainL txid (fst tc) pre) lg in
  let bctx := WithLogger Background lg in
  let before :=
    [EvStartTransaction (fst tc) id (tx, txid, None);
     EvGetChainElements (fst tc) tx id (pre ++ task :: post, None)]
    ++ t3 ++ [EvLog lg LInfo [AStr "Starting task"]] ++ t4 in
  StartTransaction (pgengine sch) (fst tc) id w = ((tx, txid, None), w1) ->
  GetChainElements (pgengine sch) (fst tc) tx id w1
    = ((pre ++ task :: post, None), w2) ->
  chainLoop sch chain chainL tx txid (fst tc) pre w2 = (false, w3, t3) ->
  executeChainElement sch tctx tx task' w3 = (retCode, w4, t4) ->
  retCode <> 0 ->
  (ChainTask.IgnoreError task = false ->
   cancellable bctx = false /\
   executeChain sch ctx chain w =
     (tt,
      RollbackTransaction (pgengine sch) bctx tx
        (RemoveChainRunStatus (pgengine sch) bctx id w4),
      before
      ++ [EvLog chainL LError [AStr "Chain failed"];
          EvRemoveChainRunStatus bctx id;
          EvRollbackTransaction bctx tx]
      ++ cancelEvents (snd tc)))
  /\
  (ChainTask.IgnoreError task = true ->
   exists w' rest,
     executeChain sch ctx chain w =
       (tt, w',
        before ++ [EvLog lg LInfo [AStr "Ignoring task failure"]] ++ rest) /\
     match post with
     | [] => rest = commitEvents chain chainL tx ++ cancelEvents (snd tc)
     | next :: _ =>
       let next' := stampTask chain txid next in
       exists r rest',
         rest = EvLog (taskLogger chainL next') LInfo [AStr "Starting task"]
                :: EvGetChainParamValues
                     (WithLogger tctx (taskLogger chainL next')) tx next' r
                :: rest'
     end).
Proof.
  intros id tc chainL task' lg tctx bctx before Hstart Hget Hpre Hel Hrc.
  assert (Hne : negb (retCode =? 0) = true).
  { destruct (Z.eqb_spec retCode 0); [contradiction|reflexivity]. }
  assert (Hloop : chainLoop sch chain chainL tx txid (fst tc)
                            (pre ++ task :: post) w2 =
    let '(b, w5, t5) :=
      (if negb (ChainTask.IgnoreError task) then
         (true,
          RollbackTransaction (pgengine sch) bctx tx
            (RemoveChainRunStatus (pgengine sch) bctx id w4),
          [EvLog chainL LError [AStr "Chain failed"];
           EvRemoveChainRunStatus bctx id;
           EvRollbackTransaction bctx tx])
       else
         let '(b6, w6, t6) :=
           chainLoop sch chain chainL tx txid tctx post w4 in
         (b6, w6, EvLog lg LInfo [AStr "Ignoring task failure"] :: t6)) in
    (b, w5, t3 ++ [EvLog lg LInfo [AStr "Starting task"]] ++ t4 ++ t5)).
  { erewrite chainLoop_app by exact Hpre.
    cbn [chainLoop]. fold task' lg tctx bctx.
    unfold bind at 1. unfold logf at 1. unfold bind at 1.
    rewrite Hel, Hne.
    change (ChainTask.IgnoreError task') with (ChainTask.IgnoreError task).
    destruct (ChainTask.IgnoreError task); cbn [negb].
    - unfold bind at 1. unfold logf at 1.
      destruct (chainLoop sch chain chainL tx txid tctx post w4)
        as [[b6 w6] t6].
      cbn. reflexivity.
    - step. cbn. reflexivity. }
  assert (Hexec : forall b w5 t5,
    chainLoop sch chain chainL tx txid (fst tc) (pre ++ task :: post) w2
      = (b, w5, t5) ->
    executeChain sch ctx chain w =
      let '(_, w6, t6) :=
        (if b then ret tt else commitChain sch chain chainL tx) w5 in
      (tt, w6,
       [EvStartTransaction (fst tc) id (tx, txid, None);
        EvGetChainElements (fst tc) tx id (pre ++ task :: post, None)]
       ++ t5 ++ t6 ++ cancelEvents (snd tc))).
  { intros b w5 t5 Hl. unfold executeChain. subst tc chainL id.
    destruct (getTimeoutContext _ _ _) as [ctx' cancel]. cbn [fst snd] in *.
    unfold bind at 1. unfold call at 1. rewrite Hstart.
    unfold bind at 1. unfold call at 1. rewrite Hget.
    unfold bind at 1. rewrite Hl. unfold bind at 1.
    destruct ((if b then ret tt else commitChain sch chain _ tx) w5)
      as [[u w6] t6].
    destruct cancel; cbn; rewrite ?app_nil_r; reflexivity. }
  split.
  - intros Hign. split; [reflexivity|].
    rewrite Hign in Hloop. cbn [negb] in Hloop.
    rewrite (Hexec _ _ _ Hloop). cbn. subst before.
    listnorm. reflexivity.
  - intros Hign. rewrite Hign in Hloop. cbn [negb] in Hloop.
    destruct (chainLoop sch chain chainL tx txid tctx post w4)
      as [[b6 w6] t6] eqn:Hpost.
    rewrite (Hexec _ _ _ Hloop).
    destruct ((if b6 then ret tt else commitChain sch chain chainL tx) w6)
      as [[u w7] t7] eqn:Hfin.
    exists w7, (t6 ++ t7 ++ cancelEvents (snd tc)). split.
    + subst before. listnorm. reflexivity.
    + destruct post as [|next post'].
      * inversion Hpost; subst b6 w6 t6. cbn [app].
        f_equal. unfold commitChain in Hfin. step.
        unfold commitEvents. destruct (Chain.SelfDestruct chain);
          inversion Hfin; reflexivity.
      * apply chainLoop_first_events in Hpost.
        destruct Hpost as (r & tr' & ->). do 2 eexists. reflexivity.
Qed.

(** *** chain.go: what every run of executeChain keeps *)

Lemma dispatchEvent_element ctx e : dispatchEvent ctx e -> elementEvent e.
Proof. destruct e; cbn; intros H; try exact I; contradiction. Qed.

Lemma dispatchEvent_taskRuns ctx tr :
  Forall (dispatchEvent ctx) tr -> taskRuns tr = [].
Proof.
  induction 1 as [|e tr He _ IH]; [reflexivity|].
  destruct e; cbn in *; try contradiction; exact IH.
Qed.

Lemma taskRuns_app t1 t2 : taskRuns (t1 ++ t2) = taskRuns t1 ++ taskRuns t2.
Proof. unfold taskRuns. apply flat_map_app. Qed.

(** The shape of every trace of executeСhainElement. *)
Lemma executeChainElement_shape sch ctx tx task w retCode w' tr :
  executeChainElement sch ctx tx task w = (retCode, w', tr) ->
  exists r body tail,
    tr = EvGetChainParamValues ctx tx task r :: body ++ tail /\
    Forall (dispatchEvent
              (fst (getTimeoutContext ctx (TaskTimeout (Config sch))
                                      (ChainTask.Timeout task)))) body /\
    Forall elementEvent tail /\ taskRuns tail = [] /\
    filter isTxEnd tail = [] /\ filter isRemoveChainRunStatus tail = [].
Proof.
  intros Hrun.
  destruct (GetChainParamValues (pgengine sch) ctx tx task w)
    as [[params [e|]] w1] eqn:Hfetch.
  - rewrite (executeChainElement_fetch_failed _ _ _ _ _ Hfetch) in Hrun.
    inversion Hrun; subst.
    exists (params, Some e), [],
           [EvLog (WithError (log_GetLogger ctx) e) LError
              [AStr "cannot fetch parameters values for chain: "; AErr e]].
    repeat split; repeat constructor.
  - destruct (dispatchTask sch (log_GetLogger ctx)
                (fst (getTimeoutContext ctx (TaskTimeout (Config sch))
                                        (ChainTask.Timeout task)))
                tx (ChainTask.set_StartedAt task (time_Now w1)) params w1)
      as [[r w2] t2] eqn:Hd.
    rewrite (executeChainElement_fetched _ _ _ _ _ Hfetch Hd) in Hrun.
    pose proof (dispatchTask_events _ _ _ _ _ _ _ Hd) as Hev.
    destruct r as [[[rc out] err]|]; inversion Hrun; subst.
    + eexists (params, None), t2, _. split; [reflexivity|].
      split; [exact Hev|].
      destruct err; destruct (snd (getTimeoutContext _ _ _));
        repeat split; repeat constructor.
    + eexists (params, None), t2, _. split; [reflexivity|].
      split; [exact Hev|].
      destruct (snd (getTimeoutContext _ _ _));
        repeat split; repeat constructor.
Qed.

Lemma dispatchEvent_no_end ctx tr :
  Forall (dispatchEvent ctx) tr ->
  filter isTxEnd tr = [] /\ filter isRemoveChainRunStatus tr = [].
Proof.
  induction 1 as [|e tr He _ [IH1 IH2]]; [split; reflexivity|].
  destruct e; cbn in *; try contradiction; auto.
Qed.

Lemma executeChainElement_summary sch ctx tx task w retCode w' tr :
  executeChainElement sch ctx tx task w = (retCode, w', tr) ->
  Forall elementEvent tr /\ taskRuns tr = [task] /\
  filter isTxEnd tr = [] /\ filter isRemoveChainRunStatus tr = [].
Proof.
  intros Hrun. apply executeChainElement_shape in Hrun.
  destruct Hrun as (r & body & tail & -> & Hbody & Htail & Htr & Hte & Hrm).
  pose proof (dispatchEvent_taskRuns Hbody) as Hbt.
  pose proof (dispatchEvent_no_end Hbody) as [Hbe Hbr].
  repeat split.
  - constructor; [exact I|]. apply Forall_app. split; [|exact Htail].
    eapply Forall_impl; [|exact Hbody].
    intros e. apply dispatchEvent_element.
  - change (taskRuns (?e :: ?t)) with (task :: taskRuns t).
    rewrite taskRuns_app, Hbt, Htr. reflexivity.
  - cbn [filter isTxEnd]. rewrite filter_app, Hbe, Hte. reflexivity.
  - cbn [filter isRemoveChainRunStatus]. rewrite filter_app, Hbr, Hrm.
    reflexivity.
Qed.

Lemma elementEvent_durable e : elementEvent e -> durableContext e.
Proof. destruct e; cbn; intros H; try exact I; try exact H; contradiction. Qed.

(** What the task loop adds to the trace, whatever the gateway answers. *)
Lemma chainLoop_summary sch chain chainL tx txid tasks :
  forall ctx w b w' tr,
    chainLoop sch chain chainL tx txid ctx tasks w = (b, w', tr) ->
    Forall durableContext tr /\
    (exists n, (n <= List.length tasks)%nat /\
               (b = false -> n = List.length tasks) /\
               taskRuns tr = firstn n (map (stampTask chain txid) tasks)) /\
    (if b
     then exists c, cancellable c = false /\
                    filter isTxEnd tr = [EvRollbackTransaction c tx] /\
                    filter isRemoveChainRunStatus tr
                    = [EvRemoveChainRunStatus c (Chain.ChainID chain)]
     else filter isTxEnd tr = [] /\ filter isRemoveChainRunStatus tr = []).
Proof.
  induction tasks as [|task rest IH]; intros ctx w b w' tr H.
  - inversion H; subst. repeat split; try constructor.
    exists 0%nat. repeat split; auto.
  - cbn [chainLoop] in H.
    apply bind_inv in H. destruct H as (u & w1 & t1 & t2 & Hl & H & ->).
    unfold logf in Hl. inversion Hl; subst u w1 t1; clear Hl.
    apply bind_inv in H. destruct H as (rc & w2 & t3 & t4 & He & H & ->).
    apply executeChainElement_summary in He.
    destruct He as (Hev & Htr & Hte & Hrm).
    assert (Hd3 : Forall durableContext t3).
    { eapply Forall_impl; [|exact Hev]. intros e. apply elementEvent_durable. }
    assert (Hrest : forall b5 w5 t5,
      chainLoop sch chain chainL tx txid
        (WithLogger ctx (taskLogger chainL (stampTask chain txid task)))
        rest w2 = (b5, w5, t5) ->
      forall pre, Forall durableContext pre -> taskRuns pre = [] ->
                  filter isTxEnd pre = [] ->
                  filter isRemoveChainRunStatus pre = [] ->
      Forall durableContext
        ([EvLog (taskLogger chainL (stampTask chain txid task)) LInfo
            [AStr "Starting task"]] ++ t3 ++ pre ++ t5) /\
      (exists n, (n <= List.length (task :: rest))%nat /\
                 (b5 = false -> n = List.length (task :: rest)) /\
                 taskRuns ([EvLog (taskLogger chainL
                                     (stampTask chain txid task)) LInfo
                              [AStr "Starting task"]] ++ t3 ++ pre ++ t5)
                 = firstn n (map (stampTask chain txid) (task :: rest))) /\
      (if b5
       then exists c, cancellable c = false /\
              filter isTxEnd
                ([EvLog (taskLogger chainL (stampTask chain txid task))
                    LInfo [AStr "Starting task"]] ++ t3 ++ pre ++ t5)
              = [EvRollbackTransaction c tx] /\
              filter isRemoveChainRunStatus
                ([EvLog (taskLogger chainL (stampTask chain txid task))
                    LInfo [AStr "Starting task"]] ++ t3 ++ pre ++ t5)
              = [EvRemoveChainRunStatus c (Chain.ChainID chain)]
       else filter isTxEnd
              ([EvLog (taskLogger chainL (stampTask chain txid task))
                  LInfo [AStr "Starting task"]] ++ t3 ++ pre ++ t5) = [] /\
            filter isRemoveChainRunStatus
              ([EvLog (taskLogger chainL (stampTask chain txid task))
                  LInfo [AStr "Starting task"]] ++ t3 ++ pre ++ t5) = [])).
    { intros b5 w5 t5 H5 pre Hp1 Hp2 Hp3 Hp4.
      apply IH in H5. destruct H5 as (Hd5 & (n & Hn & Hfull & Hruns) & Hb5).
      split; [|split].
      - constructor; [exact I|]. repeat (apply Forall_app; split); assumption.
      - exists (S n). split; [cbn; lia|]. split.
        + intros E. cbn. rewrite (Hfull E). reflexivity.
        + cbn [app]. change (taskRuns (EvLog ?a ?b0 ?c :: ?t))
            with (taskRuns t).
          rewrite !taskRuns_app, Htr, Hp2, Hruns. reflexivity.
      - cbn [app filter isTxEnd isRemoveChainRunStatus].
        rewrite !filter_app, Hte, Hrm, Hp3, Hp4. cbn [app].
        exact Hb5. }
    destruct (negb (rc =? 0)).
    + destruct (negb (ChainTask.IgnoreError (stampTask chain txid task))).
      * step. inversion H; subst b w' t4; clear H.
        split; [|split].
        -- constructor; [exact I|]. apply Forall_app. split; [exact Hd3|].
           repeat constructor.
        -- exists 1%nat. split; [cbn; lia|]. split; [discriminate|].
           cbn [app]. change (taskRuns (EvLog ?a ?b0 ?c :: ?t))
             with (taskRuns t).
           rewrite taskRuns_app, Htr. reflexivity.
        -- exists (WithLogger Background
                     (taskLogger chainL (stampTask chain txid task))).
           split; [reflexivity|].
           cbn [app filter isTxEnd isRemoveChainRunStatus].
           rewrite !filter_app, Hte, Hrm. split; reflexivity.
      * apply bind_inv in H. destruct H as (u & w3 & t5 & t6 & Hl & H & ->).
        unfold logf in Hl. inversion Hl; subst u w3 t5; clear Hl.
        apply (Hrest _ _ _ H
                 [EvLog (taskLogger chainL (stampTask chain txid task))
                    LInfo [AStr "Ignoring task failure"]]);
          repeat constructor.
    + pose proof (Hrest _ _ _ H [] (Forall_nil _) eq_refl eq_refl eq_refl)
        as Hr.
      cbn [app] in Hr. exact Hr.
Qed.

Lemma commitChain_run sch chain chainL tx w :
  exists w', commitChain sch chain chainL tx w
             = (tt, w', commitEvents chain chainL tx).
Proof.
  unfold commitChain, commitEvents. step.
  destruct (Chain.SelfDestruct chain); eexists; reflexivity.
Qed.

(** executeChain once the elements are fetched: the loop, then the commit
    unless the loop returned, then the deferred cancel. *)
Lemma executeChain_fetched sch ctx chain w tx txid w1 tasks w2 b w3 t3 :
  let id := Chain.ChainID chain in
  let tc := getTimeoutContext ctx (ChainTimeout (Config sch))
                              (Chain.Timeout chain) in
  let chainL := WithField (WithField (l sch) "chain" (FInt id))
                          "txid" (FInt txid) in
  StartTransaction (pgengine sch) (fst tc) id w = ((tx, txid, None), w1) ->
  GetChainElements (pgengine sch) (fst tc) tx id w1 = ((tasks, None), w2) ->
  chainLoop sch chain chainL tx txid (fst tc) tasks w2 = (b, w3, t3) ->
  exists w',
    executeChain sch ctx chain w =
      (tt, w',
       [EvStartTransaction (fst tc) id (tx, txid, None);
        EvGetChainElements (fst tc) tx id (tasks, None)]
       ++ t3
       ++ (if b then [] else commitEvents chain chainL tx)
       ++ cancelEvents (snd tc)).
Proof.
  intros id tc chainL Hstart Hget Hloop.
  unfold executeChain. subst tc chainL id.
  destruct (getTimeoutContext _ _ _) as [ctx' cancel]. cbn [fst snd] in *.
  unfold bind at 1. unfold call at 1. rewrite Hstart.
  unfold bind at 1. unfold call at 1. rewrite Hget.
  unfold bind at 1. rewrite Hloop. unfold bind at 1.
  destruct b.
  - destruct cancel; eexists; cbn; rewrite ?app_nil_r; reflexivity.
  - destruct (commitChain_run sch chain
                (WithField (WithField (l sch) "chain"
                              (FInt (Chain.ChainID chain)))
                           "txid" (FInt txid)) tx w3) as [w4 ->].
    destruct cancel; eexists; cbn; rewrite ?app_nil_r; reflexivity.
Qed.

Lemma taskRuns_none tr :
  Forall (fun e => match e with
                   | EvGetChainParamValues _ _ _ _ => False
                   | _ => True
                   end) tr ->
  taskRuns tr = [].
Proof.
  induction 1 as [|e tr He _ IH]; [reflexivity|].
  destruct e; try contradiction; exact IH.
Qed.

Lemma commitEvents_facts chain chainL tx :
  taskRuns (commitEvents chain chainL tx) = [] /\
  filter isTxEnd (commitEvents chain chainL tx)
  = [EvCommitTransaction (WithLogger Background chainL) tx] /\
  filter isRemoveChainRunStatus (commitEvents chain chainL tx)
  = [EvRemoveChainRunStatus (WithLogger Background chainL)
       (Chain.ChainID chain)] /\
  filter isDeleteChainConfig (commitEvents chain chainL tx)
  = (if Chain.SelfDestruct chain
     then [EvDeleteChainConfig (WithLogger Background chainL)
             (Chain.ChainID chain)]
     else []) /\
  Forall durableContext (commitEvents chain chainL tx).
Proof.
  unfold commitEvents. destruct (Chain.SelfDestruct chain);
    repeat split; repeat constructor.
Qed.

Lemma cancelEvents_facts cancel :
  taskRuns (cancelEvents cancel) = [] /\
  filter isTxEnd (cancelEvents cancel) = [] /\
  filter isRemoveChainRunStatus (cancelEvents cancel) = [] /\
  filter isDeleteChainConfig (cancelEvents cancel) = [] /\
  Forall durableContext (cancelEvents cancel).
Proof. destruct cancel; repeat split; repeat constructor. Qed.

Lemma chainLoop_events sch chain chainL tx txid tasks :
  forall ctx w b w' tr,
    chainLoop sch chain chainL tx txid ctx tasks w = (b, w', tr) ->
    Forall loopEvent tr.
Proof.
  induction tasks as [|task rest IH]; intros ctx w b w' tr H.
  - inversion H; subst. constructor.
  - cbn [chainLoop] in H.
    apply bind_inv in H. destruct H as (u & w1 & t1 & t2 & Hl & H & ->).
    unfold logf in Hl. inversion Hl; subst u w1 t1; clear Hl.
    apply bind_inv in H. destruct H as (rc & w2 & t3 & t4 & He & H & ->).
    apply executeChainElement_summary in He. destruct He as (Hev & _).
    constructor; [exact I|]. apply Forall_app. split.
    { eapply Forall_impl; [|exact Hev]. intros e He. destruct e; cbn in *;
        auto. }
    destruct (negb (rc =? 0)).
    + destruct (negb (ChainTask.IgnoreError (stampTask chain txid task))).
      * step. inversion H; subst. repeat constructor.
      * apply bind_inv in H. destruct H as (u & w3 & t5 & t6 & Hl & H & ->).
        unfold logf in Hl. inversion Hl; subst u w3 t5; clear Hl.
        constructor; [exact I|]. eapply IH; eassumption.
    + eapply IH; eassumption.
Qed.

Lemma loopEvent_no_delete tr :
  Forall loopEvent tr -> filter isDeleteChainConfig tr = [].
Proof.
  induction 1 as [|e tr He _ IH]; [reflexivity|].
  destruct e; cbn in *; try contradiction; exact IH.
Qed.

Ltac cancel_facts :=
  match goal with
  | |- context [cancelEvents ?c] =>
    let H1 := fresh in let H2 := fresh in let H3 := fresh in
    let H4 := fresh in let H5 := fresh in
    destruct (cancelEvents_facts c) as (H1 & H2 & H3 & H4 & H5);
    rewrite ?H1, ?H2, ?H3, ?H4
  end.

Ltac commit_facts :=
  match goal with
  | |- context [commitEvents ?c ?l ?t] =>
    let H1 := fresh in let H2 := fresh in let H3 := fresh in
    let H4 := fresh in let H5 := fresh in
    destruct (commitEvents_facts c l t) as (H1 & H2 & H3 & H4 & H5);
    rewrite ?H1, ?H2, ?H3, ?H4
  end.

(** The trace of executeChain when the tasks cannot be fetched. *)
Lemma executeChain_not_fetched sch ctx chain w tx txid w1 tasks e w2 :
  let id := Chain.ChainID chain in
  let tc := getTimeoutContext ctx (ChainTimeout (Config sch))
                              (Chain.Timeout chain) in
  let chainL := WithField (WithField (l sch) "chain" (FInt id))
                          "txid" (FInt txid) in
  StartTransaction (pgengine sch) (fst tc) id w = ((tx, txid, None), w1) ->
  GetChainElements (pgengine sch) (fst tc) tx id w1
    = ((tasks, Some e), w2) ->
  executeChain sch ctx chain w =
    (tt, RollbackTransaction (pgengine sch) (fst tc) tx w2,
     [EvStartTransaction (fst tc) id (tx, txid, None);
      EvGetChainElements (fst tc) tx id (tasks, Some e);
      EvLog (WithError chainL e) LError
            [AStr "Failed to retrieve chain elements"];
      EvRollbackTransaction (fst tc) tx]
     ++ cancelEvents (snd tc)).
Proof.
  intros id tc chainL Hstart Hget.
  unfold executeChain. subst tc chainL id.
  destruct (getTimeoutContext _ _ _) as [ctx' cancel]. cbn [fst snd] in *.
  unfold bind at 1. unfold call at 1. rewrite Hstart.
  unfold bind at 1. unfold call at 1. rewrite Hget.
  destruct cancel; reflexivity.
Qed.

(** X1. Once the transaction is started and the tasks are fetched,
    executeChain enters executeСhainElement for a prefix of the fetched
    tasks, in the fetched order, each one once, and each stamped with the
    chain's identifier and the transaction identifier. *)
Theorem executeChain_runs_prefix_in_order
  (sch : Scheduler) (ctx : Context) (chain : Chain.t) (w : W)
  (tx : Tx) (txid : Z) (w1 : W) (tasks : list ChainTask.t) (w2 : W) :
  let id := Chain.ChainID chain in
  let tc := getTimeoutContext ctx (ChainTimeout (Config sch))
                              (Chain.Timeout chain) in
  StartTransaction (pgengine sch) (fst tc) id w = ((tx, txid, None), w1) ->
  GetChainElements (pgengine sch) (fst tc) tx id w1 = ((tasks, None), w2) ->
  exists n,
    (n <= List.length tasks)%nat /\
    taskRuns (snd (executeChain sch ctx chain w))
    = firstn n (map (stampTask chain txid) tasks).
Proof.
  intros id tc Hstart Hget. subst id tc.
  destruct (chainLoop sch chain
              (WithField (WithField (l sch) "chain"
                            (FInt (Chain.ChainID chain)))
                         "txid" (FInt txid))
              tx txid
              (fst (getTimeoutContext ctx (ChainTimeout (Config sch))
                                      (Chain.Timeout chain)))
              tasks w2) as [[b w3] t3] eqn:Hloop.
  destruct (executeChain_fetched _ _ _ _ Hstart Hget Hloop) as [w' ->].
  apply chainLoop_summary in Hloop.
  destruct Hloop as (_ & (n & Hn & _ & Hruns) & _).
  exists n. split; [exact Hn|]. cbn [snd app].
  change (taskRuns (?a :: ?b0 :: ?t)) with (taskRuns t).
  rewrite !taskRuns_app, Hruns. cancel_facts.
  destruct b; [|commit_facts]; cbn; rewrite app_nil_r; reflexivity.
Qed.

(** X2. Every transaction that executeChain starts is ended exactly once, by
    one commit or one rollback of that transaction, whatever happens in
    between; and the run status is removed at most once. *)
Theorem executeChain_ends_transaction_once
  (sch : Scheduler) (ctx : Context) (chain : Chain.t) (w : W)
  (tx : Tx) (txid : Z) (w1 : W) :
  let id := Chain.ChainID chain in
  let tc := getTimeoutContext ctx (ChainTimeout (Config sch))
                              (Chain.Timeout chain) in
  StartTransaction (pgengine sch) (fst tc) id w = ((tx, txid, None), w1) ->
  (exists c,
      filter isTxEnd (snd (executeChain sch ctx chain w))
      = [EvCommitTransaction c tx] \/
      filter isTxEnd (snd (executeChain sch ctx chain w))
      = [EvRollbackTransaction c tx]) /\
  (List.length (filter isRemoveChainRunStatus
                       (snd (executeChain sch ctx chain w))) <= 1)%nat.
Proof.
  intros id tc Hstart. subst id tc.
  destruct (GetChainElements (pgengine sch)
              (fst (getTimeoutContext ctx (ChainTimeout (Config sch))
                                      (Chain.Timeout chain)))
              tx (Chain.ChainID chain) w1)
    as [[tasks [e|]] w2] eqn:Hget.
  - rewrite (executeChain_not_fetched _ _ _ _ Hstart Hget).
    cbn [snd app filter isTxEnd isRemoveChainRunStatus]. cancel_facts.
    split; [|cbn; lia]. eexists. right. reflexivity.
  - destruct (chainLoop sch chain
                (WithField (WithField (l sch) "chain"
                              (FInt (Chain.ChainID chain)))
                           "txid" (FInt txid))
                tx txid
              (fst (getTimeoutContext ctx (ChainTimeout (Config sch))
                                      (Chain.Timeout chain)))
              tasks w2) as [[b w3] t3] eqn:Hloop.
    destruct (executeChain_fetched _ _ _ _ Hstart Hget Hloop) as [w' ->].
    apply chainLoop_summary in Hloop. destruct Hloop as (_ & _ & Hb).
    cbn [snd app filter isTxEnd isRemoveChainRunStatus].
    rewrite !filter_app. cancel_facts.
    destruct b.
    + destruct Hb as (c & _ & -> & ->). split; [|cbn; lia].
      exists c. right. reflexivity.
    + destruct Hb as [-> ->]. commit_facts.
      split; [|cbn; lia]. eexists. left. reflexivity.
Qed.

(** X3. Once the tasks are fetched, a run of executeChain ends in one of two
    ways. Either every fetched task was run, the transaction is committed
    and the chain configuration is deleted exactly when [chain.SelfDestruct]
    is set; or the transaction is rolled back on a context that cannot be
    cancelled and the chain configuration is not deleted. *)
Theorem executeChain_commits_or_rolls_back
  (sch : Scheduler) (ctx : Context) (chain : Chain.t) (w : W)
  (tx : Tx) (txid : Z) (w1 : W) (tasks : list ChainTask.t) (w2 : W) :
  let id := Chain.ChainID chain in
  let tc := getTimeoutContext ctx (ChainTimeout (Config sch))
                              (Chain.Timeout chain) in
  let chainL := WithField (WithField (l sch) "chain" (FInt id))
                          "txid" (FInt txid) in
  let tr := snd (executeChain sch ctx chain w) in
  StartTransaction (pgengine sch) (fst tc) id w = ((tx, txid, None), w1) ->
  GetChainElements (pgengine sch) (fst tc) tx id w1 = ((tasks, None), w2) ->
  (taskRuns tr = map (stampTask chain txid) tasks /\
   filter isTxEnd tr = [EvCommitTransaction (WithLogger Background chainL) tx]
   /\
   filter isDeleteChainConfig tr
   = (if Chain.SelfDestruct chain
      then [EvDeleteChainConfig (WithLogger Background chainL) id]
      else []))
  \/
  (exists c, cancellable c = false /\
             filter isTxEnd tr = [EvRollbackTransaction c tx] /\
             filter isDeleteChainConfig tr = []).
Proof.
  intros id tc chainL tr Hstart Hget. subst tr id tc chainL.
  destruct (chainLoop sch chain
              (WithField (WithField (l sch) "chain"
                            (FInt (Chain.ChainID chain)))
                         "txid" (FInt txid))
              tx txid
              (fst (getTimeoutContext ctx (ChainTimeout (Config sch))
                                      (Chain.Timeout chain)))
              tasks w2) as [[b w3] t3] eqn:Hloop.
  destruct (executeChain_fetched _ _ _ _ Hstart Hget Hloop) as [w' ->].
  pose proof (loopEvent_no_delete (chainLoop_events _ _ _ _ _ _ _ _ Hloop))
    as Hnd.
  apply chainLoop_summary in Hloop.
  destruct Hloop as (_ & (n & Hn & Hfull & Hruns) & Hb).
  cbn [snd app filter isTxEnd isDeleteChainConfig].
  change (taskRuns (?a :: ?b0 :: ?t)) with (taskRuns t).
  rewrite !filter_app, !taskRuns_app, Hnd. cancel_facts.
  destruct b.
  - right. destruct Hb as (c & Hc & -> & _). exists c.
    repeat split; exact Hc.
  - left. destruct Hb as [-> _]. commit_facts.
    rewrite Hruns, (Hfull eq_refl), firstn_all2 by (rewrite length_map; lia).
    rewrite !app_nil_r. repeat split.
Qed.

(** X4. When the chain's tasks cannot be fetched, executeChain rolls the
    transaction back on the chain's own context (the one that carries the
    chain timeout, not a background one), does not remove the run status,
    runs no task and returns. *)
Theorem executeChain_GetChainElements_failed
  (sch : Scheduler) (ctx : Context) (chain : Chain.t) (w : W)
  (tx : Tx) (txid : Z) (w1 : W) (tasks : list ChainTask.t) (e : error)
  (w2 : W) :
  let id := Chain.ChainID chain in
  let tc := getTimeoutContext ctx (ChainTimeout (Config sch))
                              (Chain.Timeout chain) in
  StartTransaction (pgengine sch) (fst tc) id w = ((tx, txid, None), w1) ->
  GetChainElements (pgengine sch) (fst tc) tx id w1
    = ((tasks, Some e), w2) ->
  filter isTxEnd (snd (executeChain sch ctx chain w))
  = [EvRollbackTransaction (fst tc) tx] /\
  filter isRemoveChainRunStatus (snd (executeChain sch ctx chain w)) = [] /\
  taskRuns (snd (executeChain sch ctx chain w)) = [] /\
  snd (fst (executeChain sch ctx chain w))
  = RollbackTransaction (pgengine sch) (fst tc) tx w2.
Proof.
  intros id tc Hstart Hget. subst id tc.
  rewrite (executeChain_not_fetched _ _ _ _ Hstart Hget).
  cbn [fst snd app filter isTxEnd isRemoveChainRunStatus].
  change (taskRuns (?a :: ?b0 :: ?c :: ?d :: ?t)) with (taskRuns t).
  cancel_facts. repeat split.
Qed.

(** X5. In every run of executeChain, whatever the gateway and the tasks
    answer, LogChainElementExecution is only ever called on
    [context.Background()], and CommitTransaction, RemoveChainRunStatus and
    DeleteChainConfig only on contexts that cannot be cancelled. *)
Theorem executeChain_durable_contexts
  (sch : Scheduler) (ctx : Context) (chain : Chain.t) (w : W) :
  Forall durableContext (snd (executeChain sch ctx chain w)).
Proof.
  destruct (StartTransaction (pgengine sch)
              (fst (getTimeoutContext ctx (ChainTimeout (Config sch))
                                      (Chain.Timeout chain)))
              (Chain.ChainID chain) w)
    as [[[tx txid] [e|]] w1] eqn:Hstart.
  - assert (Hrun : exists tr0,
      snd (executeChain sch ctx chain w) =
      [EvStartTransaction
         (fst (getTimeoutContext ctx (ChainTimeout (Config sch))
                                 (Chain.Timeout chain)))
         (Chain.ChainID chain) (tx, txid, Some e);
       EvLog (WithError (WithField (l sch) "chain"
                           (FInt (Chain.ChainID chain))) e) LError
             [AStr "Cannot start transaction"]] ++ cancelEvents tr0).
    { unfold executeChain.
      destruct (getTimeoutContext _ _ _) as [ctx' cancel].
      cbn [fst snd] in *.
      unfold bind at 1. unfold call at 1. rewrite Hstart.
      exists cancel. destruct cancel; reflexivity. }
    destruct Hrun as [c ->]. destruct c; repeat constructor.
  - destruct (GetChainElements (pgengine sch)
              (fst (getTimeoutContext ctx (ChainTimeout (Config sch))
                                      (Chain.Timeout chain)))
              tx (Chain.ChainID chain) w1)
      as [[tasks [e|]] w2] eqn:Hget.
    + rewrite (executeChain_not_fetched _ _ _ _ Hstart Hget).
      cbn [snd]. destruct (snd _); repeat constructor.
    + destruct (chainLoop sch chain
                  (WithField (WithField (l sch) "chain"
                                (FInt (Chain.ChainID chain)))
                             "txid" (FInt txid))
                  tx txid
              (fst (getTimeoutContext ctx (ChainTimeout (Config sch))
                                      (Chain.Timeout chain)))
              tasks w2) as [[b w3] t3] eqn:Hloop.
      destruct (executeChain_fetched _ _ _ _ Hstart Hget Hloop) as [w' ->].
      apply chainLoop_summary in Hloop. destruct Hloop as (Hd & _).
      cbn [snd app]. do 2 (constructor; [exact I|]).
      apply Forall_app. split; [exact Hd|].
      apply Forall_app. split.
      * destruct b; [constructor|]. apply commitEvents_facts.
      * apply cancelEvents_facts.
Qed.

(** *** chain.go: exit codes of tasks that are not programs *)

Lemma taskContexts_app t1 t2 :
  taskContexts (t1 ++ t2) = taskContexts t1 ++ taskContexts t2.
Proof. apply flat_map_app. Qed.

Lemma taskContexts_none tr : taskRuns tr = [] -> taskContexts tr = [].
Proof.
  induction tr as [|e tr IH]; [reflexivity|].
  destruct e; cbn; try exact IH. discriminate.
Qed.

Lemma executeChainElement_context sch ctx tx task w retCode w' tr :
  executeChainElement sch ctx tx task w = (retCode, w', tr) ->
  taskContexts tr = [ctx].
Proof.
  intros H. apply executeChainElement_shape in H.
  destruct H as (r & body & tail & -> & Hb & _ & Ht & _).
  change (taskContexts (EvGetChainParamValues ctx tx task r :: ?t))
    with (ctx :: taskContexts t).
  rewrite taskContexts_app, (taskContexts_none _ Ht),
    (taskContexts_none _ (dispatchEvent_taskRuns Hb)).
  reflexivity.
Qed.

Lemma chainLoop_contexts sch chain chainL tx txid tasks :
  forall ctx w b w' tr,
    chainLoop sch chain chainL tx txid ctx tasks w = (b, w', tr) ->
    Forall (fun c => unlogged c = unlogged ctx) (taskContexts tr).
Proof.
  induction tasks as [|task rest IH]; intros ctx w b w' tr H.
  - inversion H; subst. constructor.
  - cbn [chainLoop] in H.
    apply bind_inv in H. destruct H as (u & w1 & t1 & t2 & Hl & H & ->).
    unfold logf in Hl. inversion Hl; subst u w1 t1; clear Hl.
    apply bind_inv in H. destruct H as (rc & w2 & t3 & t4 & He & H & ->).
    apply executeChainElement_context in He.
    cbn [app]. change (taskContexts (EvLog ?a ?b0 ?c :: ?t))
      with (taskContexts t).
    rewrite taskContexts_app, He. cbn [app].
    constructor; [reflexivity|].
    destruct (negb (rc =? 0)).
    + destruct (negb (ChainTask.IgnoreError (stampTask chain txid task))).
      * step. inversion H; subst. constructor.
      * apply bind_inv in H. destruct H as (u & w3 & t5 & t6 & Hl & H & ->).
        unfold logf in Hl. inversion Hl; subst u w3 t5; clear Hl.
        cbn [app]. change (taskContexts (EvLog ?a ?b0 ?c :: ?t))
          with (taskContexts t).
        exact (IH _ _ _ _ _ H).
    + exact (IH _ _ _ _ _ H).
Qed.

(** X25. Task timeouts do not accumulate: although executeChain reassigns
    its context in every iteration, each task is entered on the chain's
    timeout context with loggers attached and nothing else, so the timeout
    and the cancel function that executeСhainElement derives for one task
    are never inherited by a later task. *)
Theorem executeChain_task_timeouts_do_not_accumulate
  (sch : Scheduler) (ctx : Context) (chain : Chain.t) (w : W) :
  let tc := getTimeoutContext ctx (ChainTimeout (Config sch))
                              (Chain.Timeout chain) in
  Forall (fun c => unlogged c = unlogged (fst tc))
         (taskContexts (snd (executeChain sch ctx chain w))).
Proof.
  cbv zeta.
  destruct (StartTransaction (pgengine sch)
              (fst (getTimeoutContext ctx (ChainTimeout (Config sch))
                                      (Chain.Timeout chain)))
              (Chain.ChainID chain) w)
    as [[[tx txid] [e|]] w1] eqn:Hstart.
  - assert (Hrun : exists tr0,
      snd (executeChain sch ctx chain w) =
      [EvStartTransaction
         (fst (getTimeoutContext ctx (ChainTimeout (Config sch))
                                 (Chain.Timeout chain)))
         (Chain.ChainID chain) (tx, txid, Some e);
       EvLog (WithError (WithField (l sch) "chain"
                           (FInt (Chain.ChainID chain))) e) LError
             [AStr "Cannot start transaction"]] ++ cancelEvents tr0).
    { unfold executeChain.
      destruct (getTimeoutContext _ _ _) as [ctx' cancel].
      cbn [fst snd] in *.
      unfold bind at 1. unfold call at 1. rewrite Hstart.
      exists cancel. destruct cancel; reflexivity. }
    destruct Hrun as [c ->]. destruct c; constructor.
  - destruct (GetChainElements (pgengine sch)
              (fst (getTimeoutContext ctx (ChainTimeout (Config sch))
                                      (Chain.Timeout chain)))
              tx (Chain.ChainID chain) w1)
      as [[tasks [e|]] w2] eqn:Hget.
    + rewrite (executeChain_not_fetched _ _ _ _ Hstart Hget).
      cbn [snd]. destruct (snd _); constructor.
    + destruct (chainLoop sch chain
                  (WithField (WithField (l sch) "chain"
                                (FInt (Chain.ChainID chain)))
                             "txid" (FInt txid))
                  tx txid
              (fst (getTimeoutContext ctx (ChainTimeout (Config sch))
                                      (Chain.Timeout chain)))
              tasks w2) as [[b w3] t3] eqn:Hloop.
      destruct (executeChain_fetched _ _ _ _ Hstart Hget Hloop) as [w' ->].
      apply chainLoop_contexts in Hloop.
      cbn [snd app].
      change (taskContexts (EvStartTransaction ?a ?b0 ?c
                            :: EvGetChainElements ?d ?e ?f ?g :: ?t))
        with (taskContexts t).
      rewrite !taskContexts_app.
      rewrite (taskContexts_none (cancelEvents _))
        by apply cancelEvents_facts.
      assert (Hc : taskContexts
                     (if b then []
                      else commitEvents chain
                             (WithField (WithField (l sch) "chain"
                                           (FInt (Chain.ChainID chain)))
                                        "txid" (FInt txid)) tx) = []).
      { destruct b; [reflexivity|].
        apply taskContexts_none, commitEvents_facts. }
      rewrite Hc, !app_nil_r. exact Hloop.
Qed.

Lemma dispatchTask_not_program sch lg ctx tx task params w r w' tr :
  ChainTask.Kind task <> "PROGRAM"%string ->
  dispatchTask sch lg ctx tx task params w = (r, w', tr) ->
  exists out err, r = Some (0, out, err).
Proof.
  intros HK. unfold dispatchTask.
  destruct (ChainTask.Kind task =? "SQL")%string.
  { step. destruct (ExecuteSQLTask _ _ _ _ _ _) as [[out err] w1].
    intros H; inversion H; eauto. }
  destruct (String.eqb_spec (ChainTask.Kind task) "PROGRAM") as [E|_];
    [contradiction|].
  destruct (ChainTask.Kind task =? "BUILTIN")%string.
  { step. destruct (executeTask _ _ _ _ _) as [[out err] w1].
    intros H; inversion H; eauto. }
  intros H; inversion H; eauto.
Qed.

(** X6. A task whose kind is none of SQL, PROGRAM and BUILTIN is not an
    error: once its parameters are fetched nothing is run for it, and
    executeСhainElement logs "Task executed successfully", records exit code
    0 with empty output through LogChainElementExecution and returns 0. *)
Theorem executeChainElement_unknown_kind
  (sch : Scheduler) (ctx : Context) (tx : Tx) (task : ChainTask.t) (w : W)
  (params : list string) (w1 : W) :
  ChainTask.Kind task <> "SQL"%string ->
  ChainTask.Kind task <> "PROGRAM"%string ->
  ChainTask.Kind task <> "BUILTIN"%string ->
  GetChainParamValues (pgengine sch) ctx tx task w = ((params, None), w1) ->
  let task2 :=
    ChainTask.set_Duration (ChainTask.set_StartedAt task (time_Now w1))
                           (elapsed w1 w1) in
  executeChainElement sch ctx tx task w =
    (0, LogChainElementExecution (pgengine sch) Background task2 0 ""%string
                                 w1,
     [EvGetChainParamValues ctx tx task (params, None);
      EvLog (log_GetLogger ctx) LInfo [AStr "Task executed successfully"];
      EvLogChainElementExecution Background task2 0 ""%string]
     ++ cancelEvents
          (snd (getTimeoutContext ctx (TaskTimeout (Config sch))
                                  (ChainTask.Timeout task)))).
Proof.
  intros H1 H2 H3 Hfetch task2.
  assert (Hd : dispatchTask sch (log_GetLogger ctx)
                 (fst (getTimeoutContext ctx (TaskTimeout (Config sch))
                                         (ChainTask.Timeout task)))
                 tx (ChainTask.set_StartedAt task (time_Now w1)) params w1
               = (Some (0, ""%string, None), w1, [])).
  { unfold dispatchTask. cbn [ChainTask.Kind ChainTask.set_StartedAt].
    destruct (String.eqb_spec (ChainTask.Kind task) "SQL");
      [contradiction|].
    destruct (String.eqb_spec (ChainTask.Kind task) "PROGRAM");
      [contradiction|].
    destruct (String.eqb_spec (ChainTask.Kind task) "BUILTIN");
      [contradiction|].
    reflexivity. }
  rewrite (executeChainElement_fetched _ _ _ _ _ Hfetch Hd).
  reflexivity.
Qed.

(** X7. A task that is not a PROGRAM task only ever makes
    executeСhainElement return 0 or -1: the "skipped" code -2 and the exit
    codes of programs are never returned for it. *)
Theorem executeChainElement_code_of_non_program
  (sch : Scheduler) (ctx : Context) (tx : Tx) (task : ChainTask.t) (w : W) :
  ChainTask.Kind task <> "PROGRAM"%string ->
  fst (fst (executeChainElement sch ctx tx task w)) = 0 \/
  fst (fst (executeChainElement sch ctx tx task w)) = -1.
Proof.
  intros HK.
  destruct (GetChainParamValues (pgengine sch) ctx tx task w)
    as [[params [e|]] w1] eqn:Hfetch.
  - rewrite (executeChainElement_fetch_failed _ _ _ _ _ Hfetch). now right.
  - destruct (dispatchTask sch (log_GetLogger ctx)
                (fst (getTimeoutContext ctx (TaskTimeout (Config sch))
                                        (ChainTask.Timeout task)))
                tx (ChainTask.set_StartedAt task (time_Now w1)) params w1)
      as [[r w2] t2] eqn:Hd.
    rewrite (executeChainElement_fetched _ _ _ _ _ Hfetch Hd).
    apply dispatchTask_not_program in Hd; [|exact HK].
    destruct Hd as (out & err & ->). cbn [fst].
    destruct err; cbn; auto.
Qed.

(** *** shell.go: the command that the commander is given *)

Lemma afterRun_logs sch command params r w k w' tr :
  afterRun sch command params r w = (k, w', tr) ->
  forall ctx c, Forall (commanderCallOf ctx c) tr.
Proof.
  unfold afterRun. destruct r as [out [e|]]; [destruct e|]; step;
    intros H ctx c; inversion H; subst; repeat constructor.
Qed.

Lemma programLoopWithOptions_command sch ctx o command vals :
  forall stdout0 w result w' tr,
    programLoopWithOptions sch ctx o command vals stdout0 w
      = (result, w', tr) ->
    Forall (commanderCallOf ctx command) tr.
Proof.
  induction vals as [|val rest IH]; intros stdout0 w result w' tr H.
  - inversion H; subst. constructor.
  - cbn [programLoopWithOptions] in H.
    destruct (decodeParams val) as [err|params].
    + inversion H; subst. constructor.
    + apply bind_inv in H. destruct H as (r & w1 & t1 & t2 & Hc & H & ->).
      unfold call in Hc.
      destruct (CombinedOutputWithOptions Cmd ctx _ w) as [r' w1'].
      inversion Hc; subst r' w1' t1; clear Hc.
      apply bind_inv in H. destruct H as (k & w2 & t3 & t4 & Ha & H & ->).
      constructor; [split; reflexivity|]. apply Forall_app. split.
      * eapply afterRun_logs; eassumption.
      * destruct k as [res|stdout'].
        -- inversion H; subst. constructor.
        -- eapply IH; eassumption.
Qed.

Lemma programLoop_command sch ctx command vals :
  forall stdout0 w result w' tr,
    programLoop sch ctx command vals stdout0 w = (result, w', tr) ->
    Forall (commanderCallOf ctx command) tr.
Proof.
  induction vals as [|val rest IH]; intros stdout0 w result w' tr H.
  - inversion H; subst. constructor.
  - cbn [programLoop] in H.
    destruct (decodeParams val) as [err|params].
    + inversion H; subst. constructor.
    + apply bind_inv in H. destruct H as (r & w1 & t1 & t2 & Hc & H & ->).
      unfold call in Hc.
      destruct (CombinedOutput Cmd ctx command params w) as [r' w1'].
      inversion Hc; subst r' w1' t1; clear Hc.
      apply bind_inv in H. destruct H as (k & w2 & t3 & t4 & Ha & H & ->).
      constructor; [split; reflexivity|]. apply Forall_app. split.
      * eapply afterRun_logs; eassumption.
      * destruct k as [res|stdout'].
        -- inversion H; subst. constructor.
        -- eapply IH; eassumption.
Qed.

(** X8. Both program functions hand the commander the command with its
    surrounding white space trimmed, on the context they were given, in
    every call they make; and they make no call at all when the trimmed
    command is empty. *)
Theorem program_functions_pass_trimmed_command
  (sch : Scheduler) (ctx : Context) (o : ExecuteProgramOptions)
  (command : string) (paramValues : list string) (w : W) :
  (Forall (commanderCallOf ctx (strings_TrimSpace (Command o)))
          (snd (ExecuteProgramCommandWithOptions sch ctx o w)) /\
   (commanderCalls (snd (ExecuteProgramCommandWithOptions sch ctx o w))
    <> [] -> strings_TrimSpace (Command o) <> ""%string)) /\
  (Forall (commanderCallOf ctx (strings_TrimSpace command))
          (snd (ExecuteProgramCommand sch ctx command paramValues w)) /\
   (commanderCalls (snd (ExecuteProgramCommand sch ctx command paramValues
                           w))
    <> [] -> strings_TrimSpace command <> ""%string)).
Proof.
  split.
  - unfold ExecuteProgramCommandWithOptions.
    destruct (String.eqb_spec (strings_TrimSpace (Command o)) "") as [E|NE].
    + split; [constructor|]. intros H. exfalso. apply H. reflexivity.
    + split; [|intros _; exact NE].
      destruct (programLoopWithOptions sch ctx o _ _ _ w)
        as [[r w'] tr] eqn:H.
      eapply programLoopWithOptions_command. exact H.
  - unfold ExecuteProgramCommand.
    destruct (String.eqb_spec (strings_TrimSpace command) "") as [E|NE].
    + split; [constructor|]. intros H. exfalso. apply H. reflexivity.
    + split; [|intros _; exact NE].
      destruct (programLoop sch ctx _ _ _ w) as [[r w'] tr] eqn:H.
      eapply programLoop_command. exact H.
Qed.

Lemma programLoopWithOptions_ids sch ctx o o' command vals :
  ChainId o = ChainId o' -> TaskId o = TaskId o' ->
  forall stdout0 w,
    programLoopWithOptions sch ctx o command vals stdout0 w
    = programLoopWithOptions sch ctx o' command vals stdout0 w.
Proof.
  intros H1 H2. induction vals as [|val rest IH]; intros stdout0 w.
  - reflexivity.
  - cbn [programLoopWithOptions]. rewrite H1, H2.
    destruct (decodeParams val) as [err|params]; [reflexivity|].
    unfold bind, call.
    destruct (CombinedOutputWithOptions Cmd ctx _ w) as [r w1].
    destruct (afterRun sch command params r w1) as [[k w2] t2].
    destruct k as [res|stdout']; [reflexivity|]. rewrite IH. reflexivity.
Qed.

(** X9. White space around the command does not matter: provided
    [strings.TrimSpace] leaves the trimmed command as it is,
    ExecuteProgramCommandWithOptions behaves on the options with the command
    already trimmed exactly as on the given options (same result, same
    effects, same calls). *)
Theorem ExecuteProgramCommandWithOptions_ignores_blanks
  (sch : Scheduler) (ctx : Context) (o : ExecuteProgramOptions) (w : W) :
  strings_TrimSpace (strings_TrimSpace (Command o))
  = strings_TrimSpace (Command o) ->
  ExecuteProgramCommandWithOptions sch ctx
    (mkExecuteProgramOptions (ChainId o) (TaskId o)
       (strings_TrimSpace (Command o)) (ParamValue o)) w
  = ExecuteProgramCommandWithOptions sch ctx o w.
Proof.
  intros Hidem. unfold ExecuteProgramCommandWithOptions.
  cbn [Command ParamValue]. rewrite Hidem.
  destruct (strings_TrimSpace (Command o) =? "")%string; [reflexivity|].
  apply programLoopWithOptions_ids; reflexivity.
Qed.

End Scheduler.

(** ** Package scheduler: intake and workers (chain.go, lines 15-148)

    SendChain, Lock, Unlock, retrieveAsyncChainsAndRun, retrieveChainsAndRun,
    addActiveChain, deleteActiveChain and the body that chainWorker runs for
    a chain it received, as one goroutine executes them: the registry of
    active chains is the Go map, what other goroutines do to it or to the
    channel in the meantime is not modelled (the channel and the mutex are
    part of the world). *)

Module ChainSignal.
Record t : Type := mk {
  ConfigID : Z;
  Command : string
}.
End ChainSignal.

Module Intake.

Declare Scope rt_scope.

(** The events of the intake loops and of the workers; [Core] carries an
    event of the chain executor. *)
Inductive IEvent : Type :=
| Core (e : Event)
| EvChanSend (c : Chain.t) (sent : bool)
| EvSleep (d : Duration)
| EvSelectChains (ctx : Context) (r : list Chain.t * option error)
| EvSelectRebootChains (ctx : Context) (r : list Chain.t * option error)
| EvSelectChain (ctx : Context) (configID : Z) (r : Chain.t * option error)
| EvWaitForChainSignal (ctx : Context) (sig : ChainSignal.t)
| EvInsertChainRunStatus (ctx : Context) (chainID maxInstances : Z)
    (ok : bool)
| EvMutexLock
| EvMutexRLock
| EvMutexUnlock
| EvMutexRUnlock.

(** The chains offered to the channel, in order. *)
Definition offered (tr : list IEvent) : list Chain.t :=
  flat_map (fun e => match e with EvChanSend c _ => [c] | _ => [] end) tr.

(** The chains that SelectChain returned without error, in order. *)
Definition selectedChains (tr : list IEvent) : list Chain.t :=
  flat_map (fun e => match e with
                     | EvSelectChain _ _ (c, None) => [c]
                     | _ => []
                     end) tr.

Definition sleeps (tr : list IEvent) : list Duration :=
  flat_map (fun e => match e with EvSleep d => [d] | _ => [] end) tr.

Definition signals (tr : list IEvent) : list ChainSignal.t :=
  flat_map (fun e => match e with
                     | EvWaitForChainSignal _ sig => [sig]
                     | _ => []
                     end) tr.

Definition cancelled (tr : list IEvent) : list CancelFunc :=
  flat_map (fun e => match e with Core (EvCancel f) => [f] | _ => [] end) tr.

Definition total (ds : list Duration) : Z := fold_right Z.add 0 ds.

Definition isQuery (e : IEvent) : bool :=
  match e with
  | EvSelectChains _ _ | EvSelectRebootChains _ _ => true
  | _ => false
  end.

(** The configurations that SelectChain was asked for, in order. *)
Definition selectCalls (tr : list IEvent) : list Z :=
  flat_map (fun e => match e with
                     | EvSelectChain _ configID _ => [configID]
                     | _ => []
                     end) tr.

(** [sch.activeChains]: a Go map from chain identifiers to cancel
    functions. *)
Definition Registry : Type := Z -> option CancelFunc.

Definition registryPut (m : Registry) (id : Z) (f : CancelFunc) : Registry :=
  fun k => if k =? id then Some f else m k.

Definition registryDelete (m : Registry) (id : Z) : Registry :=
  fun k => if k =? id then None else m k.

Section Runtime.

Variable W : Type.

(** What the goroutine works on: the world and the registry. *)
Record RT : Type := mkRT {
  world : W;
  activeChains : Registry
}.

Definition MI (A : Type) : Type := RT -> A * RT * list IEvent.

Definition retI {A : Type} (a : A) : MI A := fun s => (a, s, []).

Definition bindI {A B : Type} (m : MI A) (k : A -> MI B) : MI B :=
  fun s =>
    let '(a, s1, t1) := m s in
    let '(b, s2, t2) := k a s1 in
    (b, s2, t1 ++ t2).

Definition callW {A : Type} (f : W -> A * W) (ev : A -> IEvent) : MI A :=
  fun s =>
    let '(a, w1) := f (world s) in (a, mkRT w1 (activeChains s), [ev a]).

Definition callW_ (f : W -> W) (ev : IEvent) : MI unit :=
  fun s => (tt, mkRT (f (world s)) (activeChains s), [ev]).

Definition emitI (ev : IEvent) : MI unit := fun s => (tt, s, [ev]).

Definition logI (lg : Logger) (lvl : Level) (args : list LogArg) : MI unit :=
  emitI (Core (EvLog lg lvl args)).

(** A function of the chain executor, run by this goroutine. *)
Definition liftM {A : Type} (m : M W A) : MI A :=
  fun s =>
    let '(a, w1, tr) := m (world s) in
    (a, mkRT w1 (activeChains s), map Core tr).

(** The methods of the gateway that the intake and the workers call; they
    are not among the sources. *)
Record IntakeGateway : Type := mkIntakeGateway {
  SelectChains : Context -> W -> (list Chain.t * option error) * W;
  SelectRebootChains : Context -> W -> (list Chain.t * option error) * W;
  SelectChain : Context -> Z -> W -> (Chain.t * option error) * W;
  WaitForChainSignal : Context -> W -> ChainSignal.t * W;
  InsertChainRunStatus : Context -> Z -> Z -> W -> bool * W
}.

Variable gw : IntakeGateway.

(** The non-blocking send [select { case sch.chainsChan <- c: ... default:
    ... }]: whether the channel took the chain. *)
Variable chanSend : Chain.t -> W -> bool * W.

(** [time.Sleep]. *)
Variable sleep : Duration -> W -> W.

(** The constant [refetchTimeout], declared outside chain.go. *)
Variable refetchTimeout : Z.

Variable Cmd : commander W.
Variable strings_TrimSpace : string -> string.
Variable json_Unmarshal : string -> error + list string.
Variable log_GetLogger : Context -> Logger.
Variable time_Now : W -> Z.


Notation "x <- c1 ;; c2" := (bindI c1 (fun x => c2))
  (at level 61, c1 at next level, right associativity) : rt_scope.
Notation "' pat <- c1 ;; c2" :=
  (bindI c1 (fun x => match x with pat => c2 end))
  (at level 61, pat pattern, c1 at next level, right associativity)
  : rt_scope.
Notation "c1 ;; c2" := (bindI c1 (fun _ => c2))
  (at level 61, right associativity) : rt_scope.

Local Open Scope rt_scope.

(** chain.go, lines 16-23. *)
Definition SendChain (sch : Scheduler W) (c : Chain.t) : MI unit :=
  sent <- callW (chanSend c) (EvChanSend c);;
  if sent : bool then
    logI (WithField (l sch) "chain" (FInt (Chain.ChainID c))) LDebug
         [AStr "Sent chain to the execution channel"]
  else
    logI (WithField (l sch) "chain" (FInt (Chain.ChainID c))) LError
         [AStr "Failed to send chain to the execution channel"].

(** chain.go, lines 26-32 and 35-41: [sch.exclusiveMutex] taken for
    writing by an exclusive chain, for reading otherwise. *)
Definition Lock (exclusiveExecution : bool) : MI unit :=
  if exclusiveExecution then emitI EvMutexLock else emitI EvMutexRLock.

Definition Unlock (exclusiveExecution : bool) : MI unit :=
  if exclusiveExecution then emitI EvMutexUnlock else emitI EvMutexRUnlock.

(** The [switch chainSignal.Command] of retrieveAsyncChainsAndRun (lines
    49-62). *)
Definition handleSignal (sch : Scheduler W) (ctx : Context)
  (chainSignal : ChainSignal.t) : MI unit :=
  if (ChainSignal.Command chainSignal =? "START")%string then
    '(c, err) <-
      callW (SelectChain gw ctx (ChainSignal.ConfigID chainSignal))
            (EvSelectChain ctx (ChainSignal.ConfigID chainSignal));;
    match err with
    | Some e =>
      logI (WithError (l sch) e) LError
           [AStr "Could not query pending tasks"]
    | None => SendChain sch c
    end
  else if (ChainSignal.Command chainSignal =? "STOP")%string then
    fun s =>
      match activeChains s (ChainSignal.ConfigID chainSignal) with
      | Some cancel => (tt, s, [Core (EvCancel cancel)])
      | None => (tt, s, [])
      end
  else retI tt.

(** chain.go, lines 43-64: the [for] loop, iterated at most [fuel] times;
    [None] when the fuel runs out before the function returns. *)
Fixpoint retrieveAsyncChainsAndRun (fuel : nat) (sch : Scheduler W)
  (ctx : Context) : MI (option unit) :=
  match fuel with
  | O => retI None
  | S fuel' =>
    chainSignal <- callW (WaitForChainSignal gw ctx)
                         (EvWaitForChainSignal ctx);;
    if ChainSignal.ConfigID chainSignal =? 0 then retI (Some tt)
    else
      handleSignal sch ctx chainSignal;;
      retrieveAsyncChainsAndRun fuel' sch ctx
  end.

(** The pause of line 88:
    [time.Duration(refetchTimeout*1000/headChainsCount) * time.Millisecond];
    Go's integer division truncates. *)
Definition spreadPause (headChainsCount : Z) : Duration :=
  milliseconds (wrap64 (Z.quot (wrap64 (refetchTimeout * 1000))
                               headChainsCount)).

(** Line 87. *)
Definition spreading (sch : Scheduler W) (headChainsCount : Z) : bool :=
  headChainsCount >? wrap64 (CronWorkers (Config sch) * refetchTimeout).

(** The loop of lines 85-91. *)
Fixpoint sendAll (sch : Scheduler W) (headChainsCount : Z)
  (headChains : list Chain.t) : MI unit :=
  match headChains with
  | [] => retI tt
  | c :: rest =>
    (if spreading sch headChainsCount then
       callW_ (sleep (spreadPause headChainsCount))
              (EvSleep (spreadPause headChainsCount))
     else retI tt);;
    SendChain sch c;;
    sendAll sch headChainsCount rest
  end.

(** chain.go, lines 66-92. *)
Definition retrieveChainsAndRun (sch : Scheduler W) (ctx : Context)
  (reboot : bool) : MI unit :=
  let msg := "Retrieve scheduled chains to run"%string in
  let msg := if reboot then (msg ++ " @reboot")%string else msg in
  '(headChains, err) <-
    (if reboot then
       callW (SelectRebootChains gw ctx) (EvSelectRebootChains ctx)
     else callW (SelectChains gw ctx) (EvSelectChains ctx));;
  match err with
  | Some e =>
    logI (WithError (l sch) e) LError [AStr "Could not query pending tasks"]
  | None =>
    let headChainsCount := Z.of_nat (List.length headChains) in
    logI (WithField (l sch) "count" (FInt headChainsCount)) LInfo
         [AStr msg];;
    sendAll sch headChainsCount headChains
  end.

(** chain.go, lines 94-98 and 100-104 (the mutex that guards the map is
    taken and released within each). *)
Definition addActiveChain (id : Z) (cancel : CancelFunc) : MI unit :=
  fun s =>
    (tt, mkRT (world s) (registryPut (activeChains s) id cancel), []).

Definition deleteActiveChain (id : Z) : MI unit :=
  fun s => (tt, mkRT (world s) (registryDelete (activeChains s) id), []).

(** What chainWorker does with a chain it received (lines 128-141). *)
Definition workOnChain (sch : Scheduler W) (ctx : Context)
  (chain : Chain.t) : MI unit :=
  let chainL := WithField (l sch) "chain" (FInt (Chain.ChainID chain)) in
  let chainContext := WithLogger ctx chainL in
  ok <- callW (InsertChainRunStatus gw ctx (Chain.ChainID chain)
                                    (Chain.MaxInstances chain))
              (EvInsertChainRunStatus ctx (Chain.ChainID chain)
                                      (Chain.MaxInstances chain));;
  if negb ok then logI chainL LInfo [AStr "Cannot proceed. Sleeping"]
  else
    logI chainL LInfo [AStr "Starting chain"];;
    Lock (Chain.ExclusiveExecution chain);;
    let chainContext := WithCancel chainContext in
    let cancel := cancelOf chainContext in
    addActiveChain (Chain.ChainID chain) cancel;;
    liftM (executeChain Cmd strings_TrimSpace json_Unmarshal log_GetLogger
                        time_Now sch chainContext chain);;
    deleteActiveChain (Chain.ChainID chain);;
    emitI (Core (EvCancel cancel));;
    Unlock (Chain.ExclusiveExecution chain).

(** The configurations of the START signals among [sigs]; a signal with
    [ConfigID] 0 ends the loop and starts nothing. *)
Definition startTargets (sigs : list ChainSignal.t) : list Z :=
  flat_map
    (fun sig =>
       if ChainSignal.ConfigID sig =? 0 then []
       else if (ChainSignal.Command sig =? "START")%string then
         [ChainSignal.ConfigID sig]
       else [])
    sigs.

(** The cancel functions that the STOP signals among [sigs] select in the
    registry [reg]; a signal with [ConfigID] 0 ends the loop and selects
    nothing. *)
Definition stopTargets (reg : Registry) (sigs : list ChainSignal.t)
  : list CancelFunc :=
  flat_map
    (fun sig =>
       if ChainSignal.ConfigID sig =? 0 then []
       else if (ChainSignal.Command sig =? "START")%string then []
       else if (ChainSignal.Command sig =? "STOP")%string then
         match reg (ChainSignal.ConfigID sig) with
         | Some f => [f]
         | None => []
         end
       else [])
    sigs.


(** *** The intake of chains *)

Lemma offered_app t1 t2 : offered (t1 ++ t2) = offered t1 ++ offered t2.
Proof. apply flat_map_app. Qed.

Lemma sleeps_app t1 t2 : sleeps (t1 ++ t2) = sleeps t1 ++ sleeps t2.
Proof. apply flat_map_app. Qed.

Lemma signals_app t1 t2 : signals (t1 ++ t2) = signals t1 ++ signals t2.
Proof. apply flat_map_app. Qed.

Lemma cancelled_app t1 t2 :
  cancelled (t1 ++ t2) = cancelled t1 ++ cancelled t2.
Proof. apply flat_map_app. Qed.

Lemma selectedChains_app t1 t2 :
  selectedChains (t1 ++ t2) = selectedChains t1 ++ selectedChains t2.
Proof. apply flat_map_app. Qed.

Lemma selectCalls_app t1 t2 :
  selectCalls (t1 ++ t2) = selectCalls t1 ++ selectCalls t2.
Proof. apply flat_map_app. Qed.

Lemma total_repeat d k : total (repeat d k) = Z.of_nat k * d.
Proof.
  induction k as [|k IH]; [reflexivity|].
  cbn [repeat total fold_right]. fold (total (repeat d k)). rewrite IH. lia.
Qed.

(** A send is one attempt on the channel and one log line. *)
Lemma SendChain_run sch c s :
  exists sent w1 lvl msg,
    SendChain sch c s =
    (tt, mkRT w1 (activeChains s),
     [EvChanSend c sent;
      Core (EvLog (WithField (l sch) "chain" (FInt (Chain.ChainID c))) lvl
                  [AStr msg])]).
Proof.
  unfold SendChain, bindI, callW, logI, emitI.
  destruct (chanSend c (world s)) as [[|] w1]; cbn;
    eexists _, _, _, _; reflexivity.
Qed.

Lemma sendAll_facts sch n chains :
  forall s,
    let r := sendAll sch n chains s in
    offered (snd r) = chains /\
    sleeps (snd r) =
      (if spreading sch n
       then repeat (spreadPause n) (List.length chains) else []) /\
    filter isQuery (snd r) = [] /\
    activeChains (snd (fst r)) = activeChains s.
Proof.
  induction chains as [|c rest IH]; intros s.
  - cbn. destruct (spreading sch n); auto.
  - cbv zeta. cbn [sendAll]. unfold bindI.
    destruct ((if spreading sch n
               then callW_ (sleep (spreadPause n)) (EvSleep (spreadPause n))
               else retI tt) s) as [[u1 s1] t1] eqn:H1.
    destruct (SendChain_run sch c s1) as (sent & w1 & lvl & msg & Hs).
    rewrite Hs.
    specialize (IH (mkRT w1 (activeChains s1))).
    destruct (sendAll sch n rest (mkRT w1 (activeChains s1)))
      as [[u3 s3] t3].
    cbn [fst snd activeChains] in IH |- *.
    destruct IH as (Ho & Hsl & Hq & Ha).
    rewrite offered_app, sleeps_app, filter_app.
    cbn [app]. 
    change (offered (EvChanSend c sent :: ?x :: t3)) with (c :: offered t3).
    change (sleeps (EvChanSend c sent :: ?x :: t3)) with (sleeps t3).
    change (filter isQuery (EvChanSend c sent :: ?x :: t3))
      with (filter isQuery t3).
    rewrite Ho, Hsl, Hq, Ha.
    destruct (spreading sch n); unfold callW_, retI in H1;
      inversion H1; subst; cbn; auto.
Qed.

(** X10. retrieveChainsAndRun asks the gateway once, with the query of its
    mode (SelectRebootChains when [reboot], SelectChains otherwise), and
    offers to the channel exactly the chains that the query returned, in the
    order returned, each once; when the query fails nothing is offered. The
    registry of running chains is left as it was. *)
Theorem retrieveChainsAndRun_offers_fetched
  (sch : Scheduler W) (ctx : Context) (reboot : bool) (s : RT)
  (chains : list Chain.t) (err : option error) (w1 : W) :
  (if reboot then SelectRebootChains gw ctx (world s)
   else SelectChains gw ctx (world s)) = ((chains, err), w1) ->
  let r := retrieveChainsAndRun sch ctx reboot s in
  filter isQuery (snd r) =
    [if reboot then EvSelectRebootChains ctx (chains, err)
     else EvSelectChains ctx (chains, err)] /\
  offered (snd r) = match err with Some _ => [] | None => chains end /\
  activeChains (snd (fst r)) = activeChains s.
Proof.
  intros Hq r. subst r. unfold retrieveChainsAndRun. unfold bindI.
  assert (Hrun :
    (if reboot
     then callW (SelectRebootChains gw ctx) (EvSelectRebootChains ctx)
     else callW (SelectChains gw ctx) (EvSelectChains ctx)) s =
    ((chains, err), mkRT w1 (activeChains s),
     [if reboot then EvSelectRebootChains ctx (chains, err)
      else EvSelectChains ctx (chains, err)])).
  { destruct reboot; unfold callW; rewrite Hq; reflexivity. }
  rewrite Hrun. destruct err as [e|].
  - unfold logI, emitI. cbn. destruct reboot; cbn; auto.
  - unfold logI, emitI.
    pose proof (sendAll_facts sch (Z.of_nat (List.length chains)) chains
                  (mkRT w1 (activeChains s))) as H.
    destruct (sendAll sch (Z.of_nat (List.length chains)) chains
                (mkRT w1 (activeChains s))) as [[u3 s3] t3].
    cbn [fst snd activeChains] in H |- *.
    destruct H as (Ho & _ & Hf & Ha).
    cbn [app]. split; [|split].
    + destruct reboot; cbn [filter isQuery]; rewrite Hf; reflexivity.
    + destruct reboot; cbn; exact Ho.
    + exact Ha.
Qed.

(** X11. When more chains were fetched than CronWorkers * refetchTimeout,
    retrieveChainsAndRun sleeps before every send, each time
    refetchTimeout * 1000 / count milliseconds (integer division), so that
    all the pauses together never exceed refetchTimeout seconds; otherwise
    it does not sleep at all. *)
Theorem retrieveChainsAndRun_spreads_within_refetch
  (sch : Scheduler W) (ctx : Context) (reboot : bool) (s : RT)
  (chains : list Chain.t) (w1 : W) :
  0 <= refetchTimeout <= 9000000000 ->
  (if reboot then SelectRebootChains gw ctx (world s)
   else SelectChains gw ctx (world s)) = ((chains, None), w1) ->
  let count := Z.of_nat (List.length chains) in
  let tr := snd (retrieveChainsAndRun sch ctx reboot s) in
  sleeps tr =
    (if count >? wrap64 (CronWorkers (Config sch) * refetchTimeout)
     then repeat (time_Millisecond * (refetchTimeout * 1000 / count))
                 (List.length chains)
     else []) /\
  0 <= total (sleeps tr) <= refetchTimeout * time_Second.
Proof.
  intros Hrt Hq count tr. subst tr. unfold retrieveChainsAndRun.
  unfold bindI.
  assert (Hrun :
    (if reboot
     then callW (SelectRebootChains gw ctx) (EvSelectRebootChains ctx)
     else callW (SelectChains gw ctx) (EvSelectChains ctx)) s =
    ((chains, None), mkRT w1 (activeChains s),
     [if reboot then EvSelectRebootChains ctx (chains, None)
      else EvSelectChains ctx (chains, None)])).
  { destruct reboot; unfold callW; rewrite Hq; reflexivity. }
  rewrite Hrun. unfold logI, emitI.
  pose proof (sendAll_facts sch count chains (mkRT w1 (activeChains s)))
    as H.
  fold count.
  destruct (sendAll sch count chains (mkRT w1 (activeChains s)))
    as [[u3 s3] t3].
  cbn [fst snd] in H |- *. destruct H as (_ & Hsl & _ & _).
  assert (Hall :
    sleeps (((if reboot then EvSelectRebootChains ctx (chains, None)
              else EvSelectChains ctx (chains, None)) :: nil) ++
            Core (EvLog (WithField (l sch) "count" (FInt count)) LInfo
                        [AStr (if reboot
                               then ("Retrieve scheduled chains to run" ++
                                     " @reboot")%string
                               else "Retrieve scheduled chains to run"
                                    %string)])
            :: nil ++ t3) = sleeps t3).
  { destruct reboot; reflexivity. }
  cbn [app] in Hall |- *. rewrite Hall, Hsl. unfold spreading.
  destruct (count >? wrap64 (CronWorkers (Config sch) * refetchTimeout));
    [|cbn; split; [reflexivity|unfold time_Second; lia]].
  destruct chains as [|c rest];
    [cbn; split; [reflexivity|unfold time_Second; lia]|].
  assert (Hc : 0 < count) by (subst count; cbn [List.length]; lia).
  assert (Hpause :
    spreadPause count = time_Millisecond * (refetchTimeout * 1000 / count)).
  { unfold spreadPause, milliseconds.
    rewrite (@wrap64_small (refetchTimeout * 1000))
      by (unfold in_int64; lia).
    rewrite Z.quot_div_nonneg by lia.
    assert (0 <= refetchTimeout * 1000 / count <= refetchTimeout * 1000).
    { split; [apply Z.div_pos; lia|].
      apply Z.div_le_upper_bound; nia. }
    rewrite (@wrap64_small (refetchTimeout * 1000 / count))
      by (unfold in_int64; lia).
    apply wrap64_small. unfold in_int64, time_Millisecond. lia. }
  rewrite Hpause. split; [reflexivity|].
  rewrite total_repeat. fold count.
  pose proof (Z.mul_div_le (refetchTimeout * 1000) count Hc) as Hle.
  assert (0 <= refetchTimeout * 1000 / count) by (apply Z.div_pos; lia).
  unfold time_Millisecond, time_Second. nia.
Qed.

(** What the loop does with one signal that does not end it. *)
Lemma handleSignal_facts sch ctx sig s :
  ChainSignal.ConfigID sig <> 0 ->
  let r := handleSignal sch ctx sig s in
  signals (snd r) = [] /\
  activeChains (snd (fst r)) = activeChains s /\
  offered (snd r) = selectedChains (snd r) /\
  selectCalls (snd r) = startTargets [sig] /\
  cancelled (snd r) = stopTargets (activeChains s) [sig].
Proof.
  intros Hid r. subst r. unfold handleSignal, startTargets, stopTargets.
  cbn [flat_map]. rewrite !app_nil_r.
  destruct (Z.eqb_spec (ChainSignal.ConfigID sig) 0) as [E|_];
    [contradiction|].
  destruct (ChainSignal.Command sig =? "START")%string.
  - unfold bindI, callW.
    destruct (SelectChain gw ctx (ChainSignal.ConfigID sig) (world s))
      as [[c [e|]] w1].
    + unfold logI, emitI. cbn. repeat split; reflexivity.
    + destruct (SendChain_run sch c (mkRT w1 (activeChains s)))
        as (sent & w2 & lvl & msg & Hs).
      rewrite Hs. cbn. repeat split; reflexivity.
  - destruct (ChainSignal.Command sig =? "STOP")%string.
    + destruct (activeChains s (ChainSignal.ConfigID sig)); cbn;
        repeat split; reflexivity.
    + cbn. repeat split; reflexivity.
Qed.

Lemma retrieveAsyncChainsAndRun_step fuel sch ctx s :
  exists sig w1,
    WaitForChainSignal gw ctx (world s) = (sig, w1) /\
    (ChainSignal.ConfigID sig = 0 ->
     retrieveAsyncChainsAndRun (S fuel) sch ctx s =
     (Some tt, mkRT w1 (activeChains s), [EvWaitForChainSignal ctx sig])) /\
    (ChainSignal.ConfigID sig <> 0 ->
     let h := handleSignal sch ctx sig (mkRT w1 (activeChains s)) in
     let r := retrieveAsyncChainsAndRun fuel sch ctx (snd (fst h)) in
     retrieveAsyncChainsAndRun (S fuel) sch ctx s =
     (fst (fst r), snd (fst r),
      EvWaitForChainSignal ctx sig :: snd h ++ snd r)).
Proof.
  destruct (WaitForChainSignal gw ctx (world s)) as [sig w1] eqn:Hw.
  exists sig, w1. split; [reflexivity|].
  cbn [retrieveAsyncChainsAndRun]. unfold bindI, callW.
  rewrite Hw. split; intros Hid.
  - rewrite Hid. reflexivity.
  - destruct (Z.eqb_spec (ChainSignal.ConfigID sig) 0) as [E|_];
      [contradiction|].
    destruct (handleSignal sch ctx sig (mkRT w1 (activeChains s)))
      as [[u2 s2] t2].
    cbn [fst snd].
    destruct (retrieveAsyncChainsAndRun fuel sch ctx s2) as [[r3 s3] t3].
    reflexivity.
Qed.

(** X12. retrieveAsyncChainsAndRun returns only when WaitForChainSignal
    delivers a signal whose ConfigID is 0: all the signals read before it
    have another ConfigID, and nothing is read after it. The loop leaves the
    registry of running chains as it was. (A run of [fuel] iterations that
    has not returned has read [fuel] signals, none with ConfigID 0.) *)
Theorem retrieveAsyncChainsAndRun_returns_on_zero_signal
  (sch : Scheduler W) (ctx : Context) (fuel : nat) (s : RT) :
  let r := retrieveAsyncChainsAndRun fuel sch ctx s in
  activeChains (snd (fst r)) = activeChains s /\
  match fst (fst r) with
  | Some _ =>
    exists pre last,
      signals (snd r) = pre ++ [last] /\
      ChainSignal.ConfigID last = 0 /\
      Forall (fun sig => ChainSignal.ConfigID sig <> 0) pre
  | None =>
    List.length (signals (snd r)) = fuel /\
    Forall (fun sig => ChainSignal.ConfigID sig <> 0) (signals (snd r))
  end.
Proof.
  revert s. induction fuel as [|fuel IH]; intros s r; subst r.
  - cbn. auto.
  - destruct (retrieveAsyncChainsAndRun_step fuel sch ctx s)
      as (sig & w1 & Hw & Hz & Hnz).
    destruct (Z.eq_dec (ChainSignal.ConfigID sig) 0) as [E|E].
    + rewrite (Hz E). cbn. split; [reflexivity|].
      exists [], sig. auto.
    + rewrite (Hnz E). cbn [fst snd].
      pose proof (@handleSignal_facts sch ctx sig (mkRT w1 (activeChains s)) E)
        as (Hs & Ha & _).
      cbn [activeChains] in Ha.
      specialize (IH (snd (fst (handleSignal sch ctx sig
                                  (mkRT w1 (activeChains s)))))).
      cbn zeta in IH. destruct IH as (Ha' & Hr).
      split; [congruence|].
      change (signals (EvWaitForChainSignal ctx sig :: ?t))
        with (sig :: signals t).
      rewrite signals_app, Hs. cbn [app].
      destruct (fst (fst (retrieveAsyncChainsAndRun fuel sch ctx _))).
      * destruct Hr as (pre & last & Heq & Hl & Hpre).
        exists (sig :: pre), last. rewrite Heq. auto.
      * destruct Hr as (Hlen & Hall). cbn [List.length]. auto.
Qed.

(** X13. In a run of retrieveAsyncChainsAndRun, SelectChain is called for
    the configurations of the START signals, in order, and the chains
    offered to the channel are those it returned without error; the cancel
    functions called are those registered under the configurations of the
    STOP signals, in order, in the registry as the loop found it (the loop
    does not change it; what the workers do to it meanwhile is outside this
    run). A STOP for a configuration that is not registered and a signal
    with any other command do nothing. *)
Theorem retrieveAsyncChainsAndRun_reactions
  (sch : Scheduler W) (ctx : Context) (fuel : nat) (s : RT) :
  let tr := snd (retrieveAsyncChainsAndRun fuel sch ctx s) in
  selectCalls tr = startTargets (signals tr) /\
  offered tr = selectedChains tr /\
  cancelled tr = stopTargets (activeChains s) (signals tr).
Proof.
  revert s. induction fuel as [|fuel IH]; intros s tr; subst tr.
  - cbn. auto.
  - destruct (retrieveAsyncChainsAndRun_step fuel sch ctx s)
      as (sig & w1 & Hw & Hz & Hnz).
    destruct (Z.eq_dec (ChainSignal.ConfigID sig) 0) as [E|E].
    + rewrite (Hz E). cbn. rewrite E. cbn. auto.
    + rewrite (Hnz E). cbn [fst snd].
      pose proof (@handleSignal_facts sch ctx sig (mkRT w1 (activeChains s)) E)
        as (Hs & Ha & Ho & Hc & Hx).
      cbn [activeChains] in Ha, Hx.
      specialize (IH (snd (fst (handleSignal sch ctx sig
                                  (mkRT w1 (activeChains s)))))).
      cbn zeta in IH. destruct IH as (Hc' & Ho' & Hx').
      rewrite Ha in Hx'.
      change (signals (EvWaitForChainSignal ctx sig :: ?t))
        with (sig :: signals t).
      change (selectCalls (EvWaitForChainSignal ctx sig :: ?t))
        with (selectCalls t).
      change (offered (EvWaitForChainSignal ctx sig :: ?t))
        with (offered t).
      change (selectedChains (EvWaitForChainSignal ctx sig :: ?t))
        with (selectedChains t).
      change (cancelled (EvWaitForChainSignal ctx sig :: ?t))
        with (cancelled t).
      rewrite signals_app, Hs. cbn [app].
      rewrite selectCalls_app, offered_app, selectedChains_app,
        cancelled_app, Hc, Ho, Hx, Hc', Ho', Hx'.
      unfold startTargets, stopTargets. cbn [flat_map].
      rewrite !app_nil_r. auto.
Qed.

(** *** The worker *)

(** X14. A chain that InsertChainRunStatus does not admit is not run: the
    worker logs "Cannot proceed. Sleeping" and goes on to the next chain
    without taking the mutex, without registering a cancel function and
    without calling executeChain. *)
Theorem workOnChain_refused
  (sch : Scheduler W) (ctx : Context) (chain : Chain.t) (s : RT) (w1 : W) :
  InsertChainRunStatus gw ctx (Chain.ChainID chain)
                       (Chain.MaxInstances chain) (world s) = (false, w1) ->
  workOnChain sch ctx chain s =
  (tt, mkRT w1 (activeChains s),
   [EvInsertChainRunStatus ctx (Chain.ChainID chain)
                           (Chain.MaxInstances chain) false;
    Core (EvLog (WithField (l sch) "chain" (FInt (Chain.ChainID chain)))
                LInfo [AStr "Cannot proceed. Sleeping"])]).
Proof.
  intros H. unfold workOnChain, bindI, callW. rewrite H. reflexivity.
Qed.

(** X15. A chain that is admitted is run once, between taking and
    releasing the mutex in the chain's mode (exclusive or shared), by
    executeChain on a cancellable context derived from the worker's context
    with the chain's logger; the derived cancel function is called once
    executeChain has returned. Afterwards the registry has no entry for the
    chain and every other entry is as before. *)
Theorem workOnChain_admitted
  (sch : Scheduler W) (ctx : Context) (chain : Chain.t) (s : RT) (w1 : W) :
  InsertChainRunStatus gw ctx (Chain.ChainID chain)
                       (Chain.MaxInstances chain) (world s) = (true, w1) ->
  let chainL := WithField (l sch) "chain" (FInt (Chain.ChainID chain)) in
  let chainContext := WithCancel (WithLogger ctx chainL) in
  let run := executeChain Cmd strings_TrimSpace json_Unmarshal log_GetLogger
                          time_Now sch chainContext chain w1 in
  let r := workOnChain sch ctx chain s in
  world (snd (fst r)) = snd (fst run) /\
  snd r =
    [EvInsertChainRunStatus ctx (Chain.ChainID chain)
                            (Chain.MaxInstances chain) true;
     Core (EvLog chainL LInfo [AStr "Starting chain"]);
     if Chain.ExclusiveExecution chain then EvMutexLock else EvMutexRLock]
    ++ map Core (snd run)
    ++ [Core (EvCancel (cancelOf chainContext));
        if Chain.ExclusiveExecution chain
        then EvMutexUnlock else EvMutexRUnlock] /\
  activeChains (snd (fst r)) (Chain.ChainID chain) = None /\
  forall id, id <> Chain.ChainID chain ->
             activeChains (snd (fst r)) id = activeChains s id.
Proof.
  intros H chainL chainContext run r. subst r run.
  unfold workOnChain. fold chainL. fold chainContext.
  unfold bindI, callW. rewrite H. cbn [negb].
  destruct (Chain.ExclusiveExecution chain);
    cbv beta iota zeta
        delta [logI emitI Lock Unlock addActiveChain deleteActiveChain liftM
               world activeChains];
    destruct (executeChain Cmd strings_TrimSpace json_Unmarshal
                           log_GetLogger time_Now sch chainContext chain w1)
      as [[u w2] tr];
    cbn [fst snd world activeChains];
    (split; [reflexivity|]); (split; [listnorm; reflexivity|]);
    unfold registryDelete, registryPut;
    (split; [rewrite Z.eqb_refl; reflexivity|]);
    intros id Hid; destruct (Z.eqb_spec id (Chain.ChainID chain));
    congruence.
Qed.

End Runtime.

End Intake.

(** ** Package pgengine: access.go *)

Module Access.

(** [InvalidOid] and [AppID] (lines 15 and 18). *)
Definition InvalidOid : Z := 0.
Definition AppID : Z := 0x204F04EE.

(** [adler32.Checksum]: two sums modulo 65521 over the bytes, packed as
    [b << 16 | a]. *)
Definition adler32_step (ab : Z * Z) (c : ascii) : Z * Z :=
  let a := (fst ab + Z.of_nat (nat_of_ascii c)) mod 65521 in
  (a, (snd ab + a) mod 65521).

Fixpoint adler32_fold (s : string) (ab : Z * Z) : Z * Z :=
  match s with
  | EmptyString => ab
  | String c rest => adler32_fold rest (adler32_step ab c)
  end.

Definition adler32_Checksum (s : string) : Z :=
  let ab := adler32_fold s (1, 0) in
  Z.lor (Z.shiftl (snd ab) 16) (fst ab).

(** A row of [timetable.run_status], with the columns that the INSERT
    statements of access.go and transaction.go name. The table's definition
    is not among the sources: [run_status] is the serial key (it is what
    [RETURNING run_status] returns), every other column is nullable, and a
    column that an INSERT does not name is left NULL. *)
Record RunStatus : Type := mkRunStatus {
  run_status : Z;
  chain_id : option Z;
  execution_status : string;
  current_execution_element : option Z;
  started : option Z;
  last_status_update : option Z;
  start_status : option Z;
  chain_execution_config : option Z;
  client_name : option string
}.

(** The part of the configuration database that access.go touches, and the
    log that LogToDB writes. *)
Record World : Type := mkWorld {
  rows : list RunStatus;          (* timetable.run_status *)
  run_status_seq : Z;             (* last value of the serial sequence *)
  logged : list (string * list LogArg)
}.

Definition OZ_dec (a b : option Z) : {a = b} + {a <> b}.
Proof. decide equality. apply Z.eq_dec. Defined.

Definition eqbOZ (a b : option Z) : bool :=
  if OZ_dec a b then true else false.

(** [execution_status IN ('STARTED', 'CHAIN_FAILED', 'CHAIN_DONE', 'DEAD')
     AND client_name = $1]; a NULL client name does not compare equal. *)
Definition selected (client : string) (r : RunStatus) : bool :=
  existsb (String.eqb (execution_status r))
          ["STARTED"; "CHAIN_FAILED"; "CHAIN_DONE"; "DEAD"]%string
  && match client_name r with
     | Some c => (c =? client)%string
     | None => false
     end.

(** [GROUP BY 1]: one group per distinct [start_status] (NULLs together),
    with its number of rows. *)
Definition groupKeys (sel : list RunStatus) : list (option Z) :=
  nodup OZ_dec (map start_status sel).

Definition groupCount (sel : list RunStatus) (g : option Z) : nat :=
  count_occ OZ_dec (map start_status sel) g.

(** The sub-select [abc]: the groups [HAVING count( * ) < 2]. *)
Definition abc (client : string) (table : list RunStatus)
  : list (option Z) :=
  let sel := filter (selected client) table in
  filter (fun g => Z.of_nat (groupCount sel g) <? 2) (groupKeys sel).

(** The rows that the INSERT adds, one per row of [abc], keyed from the
    sequence. *)
Fixpoint deadRows (client : string) (now : Z) (seq : Z)
  (gs : list (option Z)) : list RunStatus :=
  match gs with
  | [] => []
  | g :: rest =>
    mkRunStatus (seq + 1) None "DEAD" None (Some now) (Some now) g (Some 0)
                (Some client)
    :: deadRows client now (seq + 1) rest
  end.

(** The statement of FixSchedulerCrash (lines 24-30) run to completion. *)
Definition fixStatement (client : string) (now : Z) (w : World) : World :=
  let new := deadRows client now (run_status_seq w) (abc client (rows w)) in
  mkWorld (rows w ++ new)
          (run_status_seq w + Z.of_nat (List.length new))
          (logged w).

(** The number of rows of [client] whose status is one of the four and whose
    [start_status] is [g]. *)
Definition openCount (client : string) (table : list RunStatus)
  (g : option Z) : nat :=
  List.length
    (filter (fun r => selected client r && eqbOZ (start_status r) g) table).

(** The number of rows among [new] that close group [g]. *)
Definition closingCount (new : list RunStatus) (g : option Z) : nat :=
  List.length (filter (fun r => eqbOZ (start_status r) g) new).

Section Gateway.

(** The package variables [ClientName], [WaitTime] and [maxWaitTime]; the
    latter two are declared outside access.go. *)
Variable ClientName : string.
Variable WaitTime : Z.
Variable maxWaitTime : Z.

(** What the database server decides: whether a statement fails (and with
    which error), the transaction timestamp [now()], the answer to
    [SELECT pg_try_advisory_lock($1, $2)] as scanned into [res] ([None] when
    [res] is not written), and which case of the [select] (lines 79-85) is
    taken: [true] for [<-ctx.Done()]. *)
Variable execFailure : Context -> World -> option error.
Variable now : World -> Z.
Variable tryAdvisoryLock :
  Context -> Z -> Z -> World -> (option bool * option error) * World.
Variable selectDone : Context -> Duration -> World -> bool * World.

(** LogToDB is not among the sources: it is taken to append to the log and
    to leave [run_status] alone. Formatted messages are kept as the list of
    their pieces. *)
Definition LogToDB (level : string) (args : list LogArg) : M World unit :=
  fun w =>
    (tt, mkWorld (rows w) (run_status_seq w) (logged w ++ [(level, args)]),
     [EvLogToDB level args]).

(** access.go, lines 22-34. A statement that fails changes nothing. *)
Definition FixSchedulerCrash (ctx : Context) : M World unit :=
  (err <- call (fun w =>
                 match execFailure ctx w with
                 | Some e => (Some e, w)
                 | None => (None, fixStatement ClientName (now w) w)
                 end)
              (EvExecContext ctx ClientName);;
   match err with
   | Some e =>
     LogToDB "ERROR"
       [AStr "Error occurred during reverting from the scheduler crash: ";
        AErr e]
   | None => ret tt
   end)%go.

(** Lines 86-88: the wait is doubled while it is below [maxWaitTime]. *)
Definition nextWait (wt : Z) : Z :=
  if wt <? maxWaitTime then wrap64 (wt * 2) else wt.

(** [time.Duration(wt) * time.Second] *)
Definition seconds (wt : Z) : Duration := wrap64 (wrap64 wt * time_Second).

(** The body of the [for !res] loop of TryLockClientName (lines 70-89),
    iterated at most [fuel] times; [None] when the fuel runs out before the
    function returns. *)
Fixpoint tryLockLoop (fuel : nat) (ctx : Context) (adler32Int : Z)
  (wt : Z) (res : bool) : M World (option bool) :=
  (if res then ret (Some res)
   else
     match fuel with
     | O => ret None
     | S fuel' =>
       LogToDB "DEBUG"
         [AStr "Trying to get advisory lock for"; AStr ClientName;
          AStr "with hash"; AInt adler32Int];;
       '(scanned, err) <-
         call (tryAdvisoryLock ctx AppID adler32Int)
              (EvTryAdvisoryLock ctx AppID adler32Int);;
       let res := match scanned with Some b => b | None => res end in
       match err with
       | Some e =>
         LogToDB "ERROR"
           [AStr "Error occurred during client name locking: "; AErr e]
       | None => ret tt
       end;;
       (if negb res then
          LogToDB "ERROR"
            [AStr "Another client is already connected to server with name: ";
             AStr ClientName]
        else ret tt);;
       done <- call (selectDone ctx (seconds wt))
                    (EvSelect ctx (seconds wt));;
       if done : bool then
         LogToDB "ERROR" [AStr ("request cancelled" ++ newline)];;
         ret (Some false)
       else tryLockLoop fuel' ctx adler32Int (nextWait wt) res
     end)%go.

(** access.go, lines 66-91. *)
Definition TryLockClientName (fuel : nat) (ctx : Context)
  : M World (option bool) :=
  let wt := WaitTime in
  let adler32Int := adler32_Checksum ClientName in
  tryLockLoop fuel ctx adler32Int wt false.

(** The wait after the [k]-th attempt (counted from 0), in seconds, when
    the first wait is [wt]. *)
Definition backoffFrom (wt : Z) (k : nat) : Z := Nat.iter k nextWait wt.

Definition backoff (k : nat) : Z := backoffFrom WaitTime k.

(** The durations of the waits found in a trace, in order. *)
Definition waits (tr : list Event) : list Duration :=
  flat_map (fun e => match e with EvSelect _ d _ => [d] | _ => [] end) tr.

Definition isLogToDB (e : Event) : bool :=
  match e with
  | EvLogToDB _ _ => true
  | _ => false
  end.

Definition isSelect (e : Event) : bool :=
  match e with
  | EvSelect _ _ _ => true
  | _ => false
  end.

Definition isTryAdvisoryLock (e : Event) : bool :=
  match e with
  | EvTryAdvisoryLock _ _ _ _ => true
  | _ => false
  end.

(** *** FixSchedulerCrash *)

Lemma deadRows_start_status client n s gs :
  map start_status (deadRows client n s gs) = gs.
Proof.
  revert s. induction gs as [|g gs IH]; intros s; [reflexivity|].
  cbn. rewrite IH. reflexivity.
Qed.

Lemma deadRows_length client n s gs :
  List.length (deadRows client n s gs) = List.length gs.
Proof.
  revert s. induction gs as [|g gs IH]; intros s; [reflexivity|].
  cbn. rewrite IH. reflexivity.
Qed.

Lemma deadRows_shape client n s gs :
  Forall (fun r => execution_status r = "DEAD"%string /\
                   client_name r = Some client /\
                   chain_execution_config r = Some 0 /\
                   selected client r = true)
         (deadRows client n s gs).
Proof.
  revert s. induction gs as [|g gs IH]; intros s; constructor.
  - cbn. repeat split. unfold selected. cbn.
    rewrite String.eqb_refl. reflexivity.
  - apply IH.
Qed.

Lemma filter_selected_deadRows client n s gs :
  filter (selected client) (deadRows client n s gs) = deadRows client n s gs.
Proof.
  pose proof (deadRows_shape client n s gs) as H.
  induction H as [|r rs (_ & _ & _ & Hr) _ IH]; [reflexivity|].
  cbn [filter]. rewrite Hr, IH. reflexivity.
Qed.

Lemma openCount_groupCount client table g :
  openCount client table g = groupCount (filter (selected client) table) g.
Proof.
  unfold openCount, groupCount.
  induction table as [|r table IH]; [reflexivity|].
  cbn [filter]. destruct (selected client r); cbn [andb map]; [|exact IH].
  unfold eqbOZ in *. cbn [count_occ].
  destruct (OZ_dec (start_status r) g); cbn [List.length]; rewrite IH;
    reflexivity.
Qed.

Lemma closingCount_count_occ new g :
  closingCount new g = count_occ OZ_dec (map start_status new) g.
Proof.
  unfold closingCount. induction new as [|r new IH]; [reflexivity|].
  cbn [filter map count_occ]. unfold eqbOZ in *.
  destruct (OZ_dec (start_status r) g); cbn [List.length]; rewrite IH;
    reflexivity.
Qed.

Lemma abc_NoDup client table : NoDup (abc client table).
Proof. unfold abc. apply NoDup_filter, NoDup_nodup. Qed.

Lemma abc_In client table g :
  In g (abc client table) <-> openCount client table g = 1%nat.
Proof.
  rewrite openCount_groupCount. unfold abc, groupKeys, groupCount.
  rewrite filter_In, nodup_In, (count_occ_In OZ_dec).
  set (c := count_occ OZ_dec _ g).
  destruct (Z.ltb_spec (Z.of_nat c) 2); split; intros H0; lia.
Qed.

Lemma abc_count client table g :
  count_occ OZ_dec (abc client table) g =
  if ((1 <=? openCount client table g)
      && (openCount client table g <? 2))%nat then 1%nat else 0%nat.
Proof.
  pose proof (abc_In client table g) as HIn.
  pose proof (proj1 (NoDup_count_occ OZ_dec _) (abc_NoDup client table) g)
    as Hle.
  rewrite (count_occ_In OZ_dec) in HIn.
  destruct (Nat.leb_spec 1 (openCount client table g));
    destruct (Nat.ltb_spec (openCount client table g) 2); cbn [andb].
  - assert (openCount client table g = 1%nat) as E by lia.
    apply HIn in E. lia.
  - destruct (count_occ OZ_dec (abc client table) g) as [|k] eqn:E;
      [reflexivity|]. assert (openCount client table g = 1%nat) by
        (apply HIn; lia). lia.
  - destruct (count_occ OZ_dec (abc client table) g) as [|k] eqn:E;
      [reflexivity|]. assert (openCount client table g = 1%nat) by
        (apply HIn; lia). lia.
  - lia.
Qed.

Lemma filter_none {A : Type} (f : A -> bool) (xs : list A) :
  (forall x, In x xs -> f x = false) -> filter f xs = [].
Proof.
  induction xs as [|x xs IH]; intros H; [reflexivity|].
  cbn. rewrite (H x (or_introl eq_refl)). apply IH.
  intros y Hy. apply H. now right.
Qed.

(** After the statement has run, no group of the client is left with fewer
    than two rows. *)
Lemma abc_after_fix client n s table :
  abc client (table ++ deadRows client n s (abc client table)) = [].
Proof.
  unfold abc at 1. apply filter_none. intros g Hg.
  unfold groupKeys in Hg. rewrite nodup_In in Hg.
  rewrite filter_app, filter_selected_deadRows in *.
  unfold groupCount. rewrite map_app, deadRows_start_status in *.
  rewrite count_occ_app.
  fold (groupCount (filter (selected client) table) g).
  rewrite <- openCount_groupCount, abc_count.
  assert (Hpos : (1 <= openCount client table g)%nat).
  { rewrite openCount_groupCount. unfold groupCount.
    apply in_app_or in Hg. destruct Hg as [Hg|Hg].
    - apply (count_occ_In OZ_dec) in Hg. lia.
    - apply abc_In in Hg. rewrite openCount_groupCount in Hg.
      unfold groupCount in Hg. lia. }
  destruct (Nat.leb_spec 1 (openCount client table g)); [|lia].
  destruct (Nat.ltb_spec (openCount client table g) 2); cbn [andb];
    apply Z.ltb_ge; lia.
Qed.

Lemma fixStatement_nothing client n w :
  abc client (rows w) = [] ->
  rows (fixStatement client n w) = rows w /\
  run_status_seq (fixStatement client n w) = run_status_seq w.
Proof.
  intros E. unfold fixStatement. rewrite E. cbn.
  rewrite app_nil_r. split; [reflexivity|lia].
Qed.

Lemma fixStatement_idempotent client n n' w :
  rows (fixStatement client n' (fixStatement client n w))
  = rows (fixStatement client n w) /\
  run_status_seq (fixStatement client n' (fixStatement client n w))
  = run_status_seq (fixStatement client n w).
Proof.
  apply fixStatement_nothing.
  unfold fixStatement. cbn [rows]. apply abc_after_fix.
Qed.

(** C4. When its statement executes, FixSchedulerCrash appends to
    [run_status] rows that are all DEAD rows of the current client, exactly
    one for each [start_status] group of that client's rows with a status in
    {STARTED, CHAIN_FAILED, CHAIN_DONE, DEAD} that has fewer than two rows,
    and none for any other value; running it a second time (whether or not
    the second statement executes) leaves [run_status] and its sequence as
    the first run left them. *)
Theorem FixSchedulerCrash_closes_once (ctx : Context) (w : World) :
  execFailure ctx w = None ->
  let w1 := snd (fst (FixSchedulerCrash ctx w)) in
  let w2 := snd (fst (FixSchedulerCrash ctx w1)) in
  (exists new,
      rows w1 = rows w ++ new /\
      Forall (fun r => execution_status r = "DEAD"%string /\
                       client_name r = Some ClientName) new /\
      forall g,
        closingCount new g =
        if ((1 <=? openCount ClientName (rows w) g)
            && (openCount ClientName (rows w) g <? 2))%nat
        then 1%nat else 0%nat) /\
  rows w2 = rows w1 /\ run_status_seq w2 = run_status_seq w1.
Proof.
  intros Hok w1 w2.
  assert (E1 : w1 = fixStatement ClientName (now w) w).
  { subst w1. unfold FixSchedulerCrash, bind, call. rewrite Hok.
    reflexivity. }
  split.
  - exists (deadRows ClientName (now w) (run_status_seq w)
                     (abc ClientName (rows w))).
    rewrite E1. split; [reflexivity|]. split.
    + eapply Forall_impl; [|apply deadRows_shape].
      intros r (H1 & H2 & _). split; assumption.
    + intros g. rewrite closingCount_count_occ, deadRows_start_status.
      apply abc_count.
  - subst w2. unfold FixSchedulerCrash, bind, call.
    destruct (execFailure ctx w1) as [e|].
    + cbn. split; reflexivity.
    + cbn. rewrite E1. apply fixStatement_idempotent.
Qed.

(** *** TryLockClientName *)

Lemma LogToDB_run level args w :
  LogToDB level args w =
  (tt, mkWorld (rows w) (run_status_seq w) (logged w ++ [(level, args)]),
   [EvLogToDB level args]).
Proof. reflexivity. Qed.

(** One iteration of the loop, as a relation between what the server
    answered and what the loop did next. *)
Lemma tryLockLoop_step fuel ctx a wt w r w' tr :
  tryLockLoop (S fuel) ctx a wt false w = (r, w', tr) ->
  exists scanned err logs done wb,
    let res := match scanned with Some b => b | None => false end in
    Forall (fun e => isLogToDB e = true) logs /\
    (done = true ->
     r = Some false /\
     tr = EvLogToDB "DEBUG"
            [AStr "Trying to get advisory lock for"; AStr ClientName;
             AStr "with hash"; AInt a]
          :: EvTryAdvisoryLock ctx AppID a (scanned, err)
          :: logs
          ++ [EvSelect ctx (seconds wt) true;
              EvLogToDB "ERROR" [AStr ("request cancelled" ++ newline)]]) /\
    (done = false ->
     exists tr',
       tryLockLoop fuel ctx a (nextWait wt) res wb = (r, w', tr') /\
       tr = EvLogToDB "DEBUG"
              [AStr "Trying to get advisory lock for"; AStr ClientName;
               AStr "with hash"; AInt a]
            :: EvTryAdvisoryLock ctx AppID a (scanned, err)
            :: logs ++ EvSelect ctx (seconds wt) false :: tr').
Proof.
  cbn [tryLockLoop]. unfold bind at 1. rewrite LogToDB_run.
  unfold bind at 1. unfold call at 1.
  destruct (tryAdvisoryLock ctx AppID a _) as [[scanned err] w1].
  set (res := match scanned with Some b => b | None => false end).
  unfold bind at 1.
  destruct ((match err with
             | Some e =>
               LogToDB "ERROR"
                 [AStr "Error occurred during client name locking: "; AErr e]
             | None => ret tt
             end) w1) as [[u1 w2] l1] eqn:H1.
  unfold bind at 1.
  destruct ((if negb res
             then LogToDB "ERROR"
                    [AStr "Another client is already connected to server with name: ";
                     AStr ClientName]
             else ret tt) w2) as [[u2 w3] l2] eqn:H2.
  unfold bind at 1. unfold call at 1.
  destruct (selectDone ctx (seconds wt) w3) as [done w4].
  intros H.
  exists scanned, err, (l1 ++ l2), done, w4.
  assert (Hlogs : Forall (fun e => isLogToDB e = true) (l1 ++ l2)).
  { apply Forall_app. split.
    - destruct err; inversion H1; subst; repeat constructor.
    - destruct (negb res); inversion H2; subst; repeat constructor. }
  split; [exact Hlogs|]. split.
  - intros ->. unfold bind in H. rewrite LogToDB_run in H.
    inversion H; subst. split; [reflexivity|]. listnorm. reflexivity.
  - intros ->.
    destruct (tryLockLoop fuel ctx a (nextWait wt) res w4)
      as [[r5 w5] t5] eqn:H5.
    exists t5. inversion H; subst. split; [exact H5|].
    listnorm. reflexivity.
Qed.

Lemma tryLockLoop_exit fuel ctx a wt w :
  tryLockLoop fuel ctx a wt true w = (Some true, w, []).
Proof. destruct fuel; reflexivity. Qed.

(** [false] is returned only from the [<-ctx.Done()] case. *)
Lemma tryLockLoop_false_only_if_cancelled fuel :
  forall ctx a wt res w w' tr,
    tryLockLoop fuel ctx a wt res w = (Some false, w', tr) ->
    exists tr0 d,
      tr = tr0 ++ [EvSelect ctx d true;
                   EvLogToDB "ERROR" [AStr ("request cancelled" ++ newline)]].
Proof.
  induction fuel as [|fuel IH]; intros ctx a wt res w w' tr H.
  - destruct res; cbn in H; inversion H.
  - destruct res; [rewrite tryLockLoop_exit in H; inversion H|].
    apply tryLockLoop_step in H.
    destruct H as (scanned & err & logs & done & wb & Hlogs & Hd & Hn).
    destruct done.
    + destruct (Hd eq_refl) as [_ ->].
      exists (EvLogToDB "DEBUG"
                [AStr "Trying to get advisory lock for"; AStr ClientName;
                 AStr "with hash"; AInt a]
              :: EvTryAdvisoryLock ctx AppID a (scanned, err) :: logs),
             (seconds wt).
      listnorm. reflexivity.
    + destruct (Hn eq_refl) as (tr' & Hrec & ->).
      apply IH in Hrec. destruct Hrec as (tr0 & d & ->).
      exists (EvLogToDB "DEBUG"
                [AStr "Trying to get advisory lock for"; AStr ClientName;
                 AStr "with hash"; AInt a]
              :: EvTryAdvisoryLock ctx AppID a (scanned, err)
              :: logs ++ EvSelect ctx (seconds wt) false :: tr0), d.
      listnorm. reflexivity.
Qed.

(** [true] is returned only after an attempt that set [res] to true and a
    wait that ended by its timer. *)
Lemma tryLockLoop_true_only_if_acquired fuel :
  forall ctx a wt w w' tr,
    tryLockLoop fuel ctx a wt false w = (Some true, w', tr) ->
    exists tr0 err logs d,
      tr = tr0 ++ EvTryAdvisoryLock ctx AppID a (Some true, err)
                :: logs ++ [EvSelect ctx d false] /\
      Forall (fun e => isLogToDB e = true) logs.
Proof.
  induction fuel as [|fuel IH]; intros ctx a wt w w' tr H.
  - cbn in H. inversion H.
  - apply tryLockLoop_step in H.
    destruct H as (scanned & err & logs & done & wb & Hlogs & Hd & Hn).
    destruct done; [destruct (Hd eq_refl) as [H _]; inversion H|].
    destruct (Hn eq_refl) as (tr' & Hrec & ->).
    destruct scanned as [[|]|]; cbn in Hrec.
    + rewrite tryLockLoop_exit in Hrec. inversion Hrec; subst.
      exists [EvLogToDB "DEBUG"
                [AStr "Trying to get advisory lock for"; AStr ClientName;
                 AStr "with hash"; AInt a]], err, logs, (seconds wt).
      split; [reflexivity|assumption].
    + apply IH in Hrec. destruct Hrec as (tr0 & err' & logs' & d & -> & HL).
      exists (EvLogToDB "DEBUG"
                [AStr "Trying to get advisory lock for"; AStr ClientName;
                 AStr "with hash"; AInt a]
              :: EvTryAdvisoryLock ctx AppID a (Some false, err)
              :: logs ++ EvSelect ctx (seconds wt) false :: tr0),
             err', logs', d.
      split; [listnorm; reflexivity|assumption].
    + apply IH in Hrec. destruct Hrec as (tr0 & err' & logs' & d & -> & HL).
      exists (EvLogToDB "DEBUG"
                [AStr "Trying to get advisory lock for"; AStr ClientName;
                 AStr "with hash"; AInt a]
              :: EvTryAdvisoryLock ctx AppID a (None, err)
              :: logs ++ EvSelect ctx (seconds wt) false :: tr0),
             err', logs', d.
      split; [listnorm; reflexivity|assumption].
Qed.

Lemma waits_logs logs :
  Forall (fun e => isLogToDB e = true) logs -> waits logs = [].
Proof.
  induction 1 as [|e logs He _ IH]; [reflexivity|].
  destruct e; try discriminate. exact IH.
Qed.

Lemma waits_app t1 t2 : waits (t1 ++ t2) = waits t1 ++ waits t2.
Proof. unfold waits. apply flat_map_app. Qed.

Lemma backoffFrom_next wt k :
  backoffFrom (nextWait wt) k = backoffFrom wt (S k).
Proof. unfold backoffFrom. symmetry. apply Nat.iter_succ_r. Qed.

(** The waits start at the initial wait and follow the doubling rule. *)
Lemma tryLockLoop_waits fuel :
  forall ctx a wt res w r w' tr,
    tryLockLoop fuel ctx a wt res w = (r, w', tr) ->
    waits tr =
    map (fun k => seconds (backoffFrom wt k))
        (seq 0 (List.length (waits tr))).
Proof.
  induction fuel as [|fuel IH]; intros ctx a wt res w r w' tr H.
  - destruct res; cbn in H; inversion H; reflexivity.
  - destruct res; [rewrite tryLockLoop_exit in H; inversion H; reflexivity|].
    apply tryLockLoop_step in H.
    destruct H as (scanned & err & logs & done & wb & Hlogs & Hd & Hn).
    destruct done.
    + destruct (Hd eq_refl) as [_ ->].
      change (waits (?a :: ?b :: ?l)) with (waits l).
      rewrite waits_app, (waits_logs Hlogs). reflexivity.
    + destruct (Hn eq_refl) as (tr' & Hrec & ->).
      change (waits (?a :: ?b :: ?l)) with (waits l).
      rewrite waits_app, (waits_logs Hlogs). cbn [app].
      change (waits (EvSelect ctx (seconds wt) false :: tr'))
        with (seconds wt :: waits tr').
      apply IH in Hrec. cbn [List.length seq map].
      f_equal. rewrite <- seq_shift, map_map.
      rewrite Hrec at 1. apply map_ext. intros k.
      rewrite backoffFrom_next. reflexivity.
Qed.

(** With [maxWaitTime = WaitTime * 2^n] (and no overflow) the waits go
    [WaitTime], [2 * WaitTime], ... up to [maxWaitTime] and stay there. *)
Lemma backoff_doubles_up_to_max (n : nat) :
  0 < WaitTime -> maxWaitTime = WaitTime * 2 ^ Z.of_nat n ->
  maxWaitTime < 2 ^ 62 ->
  forall k, backoff k = WaitTime * 2 ^ Z.of_nat (Nat.min k n).
Proof.
  intros Hpos Hmax Hbound. unfold backoff, backoffFrom.
  induction k as [|k IH]; [cbn; lia|].
  rewrite Nat.iter_succ, IH. unfold nextWait.
  assert (Hpow : forall i j, (i <= j)%nat ->
                             2 ^ Z.of_nat i <= 2 ^ Z.of_nat j).
  { intros i j Hij. apply Z.pow_le_mono_r; lia. }
  destruct (Nat.le_gt_cases n k) as [Hk|Hk].
  - rewrite !Nat.min_r by lia. rewrite <- Hmax.
    rewrite Z.ltb_irrefl. reflexivity.
  - rewrite Nat.min_l by lia. rewrite Nat.min_l by lia.
    assert (H2 : 2 ^ Z.of_nat (S k) = 2 * 2 ^ Z.of_nat k).
    { rewrite Nat2Z.inj_succ, Z.pow_succ_r; lia. }
    pose proof (Hpow (S k) n ltac:(lia)) as Hle.
    assert (0 < 2 ^ Z.of_nat k) by (apply Z.pow_pos_nonneg; lia).
    destruct (Z.ltb_spec (WaitTime * 2 ^ Z.of_nat k) maxWaitTime) as [Hlt|Hge].
    + rewrite wrap64_small; [rewrite H2; lia|].
      unfold in_int64. nia.
    + exfalso. rewrite Hmax in Hge. nia.
Qed.

(** C5, where the code departs from it. The loop waits after every attempt,
    also after the one that acquired the lock: when the first attempt
    acquires the lock and the context is cancelled during the wait that
    follows, TryLockClientName returns false although the lock is held. *)
Theorem TryLockClientName_acquired_then_cancelled
  (fuel : nat) (ctx : Context) (w w1 w2 : World) :
  let a := adler32_Checksum ClientName in
  let attempt :=
    EvLogToDB "DEBUG"
      [AStr "Trying to get advisory lock for"; AStr ClientName;
       AStr "with hash"; AInt a] in
  tryAdvisoryLock ctx AppID a (snd (fst (LogToDB "DEBUG"
      [AStr "Trying to get advisory lock for"; AStr ClientName;
       AStr "with hash"; AInt a] w))) = ((Some true, None), w1) ->
  selectDone ctx (seconds WaitTime) w1 = (true, w2) ->
  fst (fst (TryLockClientName (S fuel) ctx w)) = Some false /\
  snd (TryLockClientName (S fuel) ctx w) =
    [attempt;
     EvTryAdvisoryLock ctx AppID a (Some true, None);
     EvSelect ctx (seconds WaitTime) true;
     EvLogToDB "ERROR" [AStr ("request cancelled" ++ newline)]].
Proof.
  intros a attempt Hlock Hsel. subst attempt.
  unfold TryLockClientName, tryLockLoop. fold a.
  unfold LogToDB in Hlock. cbv beta iota zeta delta [fst snd] in Hlock.
  unfold bind, call, ret, LogToDB. cbv beta iota zeta.
  rewrite Hlock. cbv beta iota zeta delta [negb]. rewrite Hsel.
  cbv beta iota zeta. split; reflexivity.
Qed.

(** *** TryLockClientName: results, attempts and waits *)

Lemma attempts_logs logs :
  Forall (fun e => isLogToDB e = true) logs ->
  filter isTryAdvisoryLock logs = [].
Proof.
  induction 1 as [|e logs He _ IH]; [reflexivity|].
  destruct e; try discriminate. exact IH.
Qed.

Lemma tryLockLoop_one_wait_per_attempt fuel :
  forall ctx a wt res w r w' tr,
    tryLockLoop fuel ctx a wt res w = (r, w', tr) ->
    List.length (waits tr) = List.length (filter isTryAdvisoryLock tr).
Proof.
  induction fuel as [|fuel IH]; intros ctx a wt res w r w' tr H.
  - destruct res; cbn in H; inversion H; reflexivity.
  - destruct res; [rewrite tryLockLoop_exit in H; inversion H; reflexivity|].
    apply tryLockLoop_step in H.
    destruct H as (scanned & err & logs & done & wb & Hlogs & Hd & Hn).
    destruct done.
    + destruct (Hd eq_refl) as [_ ->].
      change (waits (?x :: ?y :: ?t)) with (waits t).
      change (filter isTryAdvisoryLock
                (?x :: EvTryAdvisoryLock ctx AppID a (scanned, err) :: ?t))
        with (EvTryAdvisoryLock ctx AppID a (scanned, err)
              :: filter isTryAdvisoryLock t).
      rewrite waits_app, filter_app, (waits_logs Hlogs),
        (attempts_logs Hlogs).
      reflexivity.
    + destruct (Hn eq_refl) as (tr' & Hrec & ->).
      change (waits (?x :: ?y :: ?t)) with (waits t).
      change (filter isTryAdvisoryLock
                (?x :: EvTryAdvisoryLock ctx AppID a (scanned, err) :: ?t))
        with (EvTryAdvisoryLock ctx AppID a (scanned, err)
              :: filter isTryAdvisoryLock t).
      rewrite waits_app, filter_app, (waits_logs Hlogs),
        (attempts_logs Hlogs).
      cbn [app].
      change (waits (EvSelect ctx (seconds wt) false :: tr'))
        with (seconds wt :: waits tr').
      change (filter isTryAdvisoryLock
                (EvSelect ctx (seconds wt) false :: tr'))
        with (filter isTryAdvisoryLock tr').
      cbn [List.length]. f_equal. exact (IH _ _ _ _ _ _ _ _ Hrec).
Qed.

(** X16. TryLockClientName returns false only from the [<-ctx.Done()] case
    of its select, right after logging "request cancelled"; it returns true
    only when its last attempt scanned [true] and the wait after that
    attempt ended by its timer. *)
Theorem TryLockClientName_result
  (fuel : nat) (ctx : Context) (w w' : World) (res : bool)
  (tr : list Event) :
  TryLockClientName fuel ctx w = (Some res, w', tr) ->
  if res then
    exists tr0 err logs d,
      tr = tr0 ++ EvTryAdvisoryLock ctx AppID (adler32_Checksum ClientName)
                    (Some true, err)
                :: logs ++ [EvSelect ctx d false] /\
      Forall (fun e => isLogToDB e = true) logs
  else
    exists tr0 d,
      tr = tr0 ++ [EvSelect ctx d true;
                   EvLogToDB "ERROR" [AStr ("request cancelled" ++ newline)]].
Proof.
  unfold TryLockClientName. intros H. destruct res.
  - exact (tryLockLoop_true_only_if_acquired _ _ _ _ _ H).
  - exact (tryLockLoop_false_only_if_cancelled _ _ _ _ _ _ H).
Qed.

(** X17. TryLockClientName waits once after every attempt to take the
    lock, also after the one that succeeds; the wait after the [k]-th
    attempt (from 0) is [backoff k] seconds, that is WaitTime doubled once
    for each earlier wait that was below maxWaitTime. *)
Theorem TryLockClientName_waits_after_every_attempt
  (fuel : nat) (ctx : Context) (w : World) :
  let tr := snd (TryLockClientName fuel ctx w) in
  waits tr =
  map (fun k => seconds (backoff k))
      (seq 0 (List.length (filter isTryAdvisoryLock tr))).
Proof.
  intros tr. subst tr. unfold TryLockClientName, backoff.
  destruct (tryLockLoop fuel ctx (adler32_Checksum ClientName) WaitTime
                        false w) as [[r w'] tr] eqn:H.
  cbn [snd].
  rewrite <- (tryLockLoop_one_wait_per_attempt _ _ _ _ _ _ H).
  exact (tryLockLoop_waits _ _ _ _ _ _ H).
Qed.

(** X18. The wait never shrinks and is doubled exactly while it is below
    maxWaitTime, so it can overshoot maxWaitTime but stays below twice
    maxWaitTime (or at WaitTime, when WaitTime is not below maxWaitTime). *)
Theorem backoff_bounds (k : nat) :
  0 < WaitTime -> maxWaitTime <= 2 ^ 62 ->
  WaitTime <= backoff k < Z.max (WaitTime + 1) (2 * maxWaitTime) /\
  backoff (S k) =
    (if backoff k <? maxWaitTime then 2 * backoff k else backoff k).
Proof.
  intros Hpos Hmax.
  assert (Hstep : forall j, backoff (S j) = nextWait (backoff j)).
  { intros j. unfold backoff, backoffFrom. apply Nat.iter_succ. }
  assert (Hnext : forall b,
    WaitTime <= b < Z.max (WaitTime + 1) (2 * maxWaitTime) ->
    nextWait b = (if b <? maxWaitTime then 2 * b else b)).
  { intros b Hb. unfold nextWait.
    destruct (Z.ltb_spec b maxWaitTime); [|reflexivity].
    rewrite wrap64_small; [lia|]. unfold in_int64. lia. }
  assert (Hinv : forall j,
    WaitTime <= backoff j < Z.max (WaitTime + 1) (2 * maxWaitTime)).
  { induction j as [|j IH].
    - change (backoff 0) with WaitTime. lia.
    - rewrite Hstep, (Hnext _ IH).
      destruct (Z.ltb_spec (backoff j) maxWaitTime); lia. }
  split; [apply Hinv|]. rewrite Hstep. apply Hnext, Hinv.
Qed.

End Gateway.

(** *** DeleteChainConfig *)

(** The configuration database with the table
    [timetable.chain_execution_config], of which the DELETE statement reads
    the column [chain_execution_config] only: the table is kept as the list
    of that column's values, one per row. *)
Record Database : Type := mkDatabase {
  chain_execution_config_rows : list Z;
  base : World
}.

(** [DELETE FROM timetable.chain_execution_config WHERE
    chain_execution_config = $1], with the number of rows it affects. *)
Definition deleteStatement (chainConfigID : Z) (d : Database)
  : Z * Database :=
  (Z.of_nat (List.length (filter (Z.eqb chainConfigID)
                                 (chain_execution_config_rows d))),
   mkDatabase (filter (fun k => negb (chainConfigID =? k))
                      (chain_execution_config_rows d))
              (base d)).

Definition onBase {A : Type} (m : M World A) : M Database A :=
  fun d =>
    let '(a, w, tr) := m (base d) in
    (a, mkDatabase (chain_execution_config_rows d) w, tr).

Section Configs.

(** Whether the statement fails, and whether [res.RowsAffected()] does. *)
Variable deleteFailure : Context -> Z -> Database -> option error.
Variable rowsAffectedFailure : Database -> option error.

(** access.go, lines 54-63. A statement that fails changes nothing. *)
Definition DeleteChainConfig (ctx : Context) (chainConfigID : Z)
  : M Database bool :=
  (onBase (LogToDB "LOG"
             [AStr "Deleting self destructive chain configuration ID: ";
              AInt chainConfigID]);;
   '(res, err) <-
     (fun d =>
        match deleteFailure ctx chainConfigID d with
        | Some e => ((0, Some e), d, [])
        | None =>
          let '(n, d') := deleteStatement chainConfigID d in
          ((n, None), d', [])
        end);;
   match err with
   | Some e =>
     onBase (LogToDB "ERROR"
               [AStr "Error occurred during deleting self destructive chains: ";
                AErr e]);;
     ret false
   | None =>
     fun d =>
       let '(rowsDeleted, err) :=
         match rowsAffectedFailure d with
         | Some e => (0, Some e)
         | None => (res, None)
         end in
       (match err with None => true | Some _ => false end
        && (rowsDeleted =? 1), d, [])
   end)%go.

Lemma count_occ_filter_length (id : Z) (l : list Z) :
  List.length (filter (Z.eqb id) l) = count_occ Z.eq_dec l id.
Proof.
  induction l as [|k l IH]; [reflexivity|].
  cbn [filter count_occ].
  destruct (Z.eqb_spec id k) as [E|E]; destruct (Z.eq_dec k id) as [E'|E'];
    try congruence; cbn [List.length]; rewrite IH; reflexivity.
Qed.

Lemma count_occ_filter_other (id k : Z) (l : list Z) :
  k <> id ->
  count_occ Z.eq_dec (filter (fun k => negb (id =? k)) l) k =
  count_occ Z.eq_dec l k.
Proof.
  intros Hk. induction l as [|x l IH]; [reflexivity|].
  cbn [filter count_occ].
  destruct (Z.eqb_spec id x) as [E|E]; cbn [negb count_occ];
    destruct (Z.eq_dec x k) as [E'|E']; try congruence; rewrite IH;
    reflexivity.
Qed.

Lemma filter_other_not_In (id : Z) (l : list Z) :
  ~ In id (filter (fun k => negb (id =? k)) l).
Proof.
  rewrite filter_In. intros [_ H]. rewrite Z.eqb_refl in H. discriminate.
Qed.

(** The database when the statement is sent: the announcement has been
    logged. *)
Definition announced (chainConfigID : Z) (d : Database) : Database :=
  snd (fst (onBase (LogToDB "LOG"
                      [AStr "Deleting self destructive chain configuration ID: ";
                       AInt chainConfigID]) d)).

Lemma DeleteChainConfig_run ctx id d :
  deleteFailure ctx id (announced id d) = None ->
  let d' := snd (deleteStatement id (announced id d)) in
  DeleteChainConfig ctx id d =
  (match rowsAffectedFailure d' with
   | Some _ => false
   | None => Z.of_nat (count_occ Z.eq_dec
                         (chain_execution_config_rows d) id) =? 1
   end, d',
   [EvLogToDB "LOG"
      [AStr "Deleting self destructive chain configuration ID: ";
       AInt id]]).
Proof.
  intros H d'. subst d'. unfold DeleteChainConfig, bind.
  unfold announced in *. unfold onBase in *. rewrite LogToDB_run in *.
  cbn [fst snd] in *. rewrite H. unfold deleteStatement.
  cbn [chain_execution_config_rows base snd].
  rewrite count_occ_filter_length.
  destruct (rowsAffectedFailure _); reflexivity.
Qed.

Lemma DeleteChainConfig_failed ctx id d e :
  deleteFailure ctx id (announced id d) = Some e ->
  fst (fst (DeleteChainConfig ctx id d)) = false /\
  chain_execution_config_rows (snd (fst (DeleteChainConfig ctx id d))) =
  chain_execution_config_rows d.
Proof.
  intros H. unfold DeleteChainConfig, bind.
  unfold announced in *. unfold onBase in *. rewrite LogToDB_run in *.
  cbn [fst snd] in *. rewrite H. rewrite LogToDB_run. split; reflexivity.
Qed.

Lemma DeleteChainConfig_true_one_row ctx id d :
  fst (fst (DeleteChainConfig ctx id d)) = true ->
  count_occ Z.eq_dec (chain_execution_config_rows d) id = 1%nat.
Proof.
  destruct (deleteFailure ctx id (announced id d)) as [e|] eqn:H.
  - destruct (DeleteChainConfig_failed H) as [-> _]. discriminate.
  - rewrite (DeleteChainConfig_run H). cbn [fst snd].
    destruct (rowsAffectedFailure _); [discriminate|].
    rewrite Z.eqb_eq. lia.
Qed.

(** X19. DeleteChainConfig returns true exactly when the DELETE statement
    executed, RowsAffected gave no error and exactly one row had the given
    key: for a key that no row has, and for a key that several rows have, it
    returns false. *)
Theorem DeleteChainConfig_true_iff_one_row
  (ctx : Context) (chainConfigID : Z) (d : Database) :
  let r := DeleteChainConfig ctx chainConfigID d in
  fst (fst r) = true <->
  deleteFailure ctx chainConfigID (announced chainConfigID d) = None /\
  rowsAffectedFailure (snd (fst r)) = None /\
  count_occ Z.eq_dec (chain_execution_config_rows d) chainConfigID = 1%nat.
Proof.
  intros r. subst r.
  destruct (deleteFailure ctx chainConfigID (announced chainConfigID d))
    as [e|] eqn:H.
  - destruct (DeleteChainConfig_failed H) as [-> _].
    split; [discriminate|]. intros [H' _]. discriminate.
  - rewrite (DeleteChainConfig_run H). cbn [fst snd].
    destruct (rowsAffectedFailure _).
    + split; [discriminate|]. intros (_ & H' & _). discriminate.
    + rewrite Z.eqb_eq. split.
      * intros Hc. repeat split. lia.
      * intros (_ & _ & Hc). lia.
Qed.

(** X20. After a call of DeleteChainConfig whose statement executed, no row
    of chain_execution_config has the given key, the rows with other keys
    are all kept and run_status is untouched; calling it again for the same
    key returns false. *)
Theorem DeleteChainConfig_then_gone
  (ctx : Context) (chainConfigID : Z) (d : Database) :
  deleteFailure ctx chainConfigID (announced chainConfigID d) = None ->
  let d1 := snd (fst (DeleteChainConfig ctx chainConfigID d)) in
  ~ In chainConfigID (chain_execution_config_rows d1) /\
  (forall k, k <> chainConfigID ->
             count_occ Z.eq_dec (chain_execution_config_rows d1) k =
             count_occ Z.eq_dec (chain_execution_config_rows d) k) /\
  rows (base d1) = rows (base d) /\
  forall ctx', fst (fst (DeleteChainConfig ctx' chainConfigID d1)) = false.
Proof.
  intros H d1. subst d1. rewrite (DeleteChainConfig_run H).
  cbn [fst snd]. unfold deleteStatement, announced, onBase.
  rewrite LogToDB_run. cbn [fst snd chain_execution_config_rows base rows].
  split; [apply filter_other_not_In|].
  split; [intros k Hk; apply count_occ_filter_other; exact Hk|].
  split; [reflexivity|].
  intros ctx'.
  set (d1 := mkDatabase _ _).
  destruct (fst (fst (DeleteChainConfig ctx' chainConfigID d1))) eqn:E;
    [|reflexivity].
  apply DeleteChainConfig_true_one_row in E. rename E into Hc. exfalso.
  assert (Hin : In chainConfigID (chain_execution_config_rows d1)).
  { apply (count_occ_In Z.eq_dec). lia. }
  exact (filter_other_not_In _ _ Hin).
Qed.

End Configs.

End Access.

(** ** Package main: main.go *)

Module Main.

Declare Scope main_scope.

(** The exit codes (lines 38-43). *)
Definition ExitCodeOK : Z := 0.
Definition ExitCodeConfigError : Z := 1.
Definition ExitCodeDBEngineError : Z := 2.
Definition ExitCodeUpgradeError : Z := 3.

(** The options that main reads; [config.CmdOptions] is not among the
    sources. *)
Record HTTPOpts : Type := mkHTTPOpts { Port : Z }.

Record StartOpts : Type := mkStartOpts { Upgrade : bool; Init : bool }.

Record CmdOptions : Type := mkCmdOptions {
  HTTP : HTTPOpts;
  Start : StartOpts
}.

(** What main does, in order; an event carries the result of the call. *)
Inductive MEvent : Type :=
| EvSetupCloseHandler (cancel : CancelFunc)
| EvNewConfig (r : CmdOptions * option error)
| EvPrintln (args : list LogArg)
| EvLogInit (cmdOpts : CmdOptions)
| EvStartHTTP (logger : Logger) (port : Z)
| EvNew (ctx : Context) (cmdOpts : CmdOptions) (logger : Logger)
    (r : option error)
| EvFinalize
| EvMigrateDb (ctx : Context) (r : option error)
| EvCheckNeedMigrateDb (ctx : Context) (r : bool * option error)
| EvLogger (logger : Logger) (lvl : Level) (args : list LogArg)
| EvSchedulerNew (logger : Logger)
| EvSetHttpStatusRunning
| EvRun (ctx : Context) (status : Z)
| EvReconnectAndFixLeftovers (ctx : Context)
| EvCancelCall (f : CancelFunc)
| EvExit (code : Z).

Definition isRunOrReconnect (e : MEvent) : bool :=
  match e with
  | EvRun _ _ | EvReconnectAndFixLeftovers _ => true
  | _ => false
  end.

Definition isCleanup (e : MEvent) : bool :=
  match e with
  | EvFinalize | EvCancelCall _ | EvExit _ => true
  | _ => false
  end.

Definition isEngineCreated (e : MEvent) : bool :=
  match e with
  | EvNew _ _ _ None => true
  | _ => false
  end.

Section Program.

Variable W : Type.

Definition MM (A : Type) : Type := W -> A * W * list MEvent.

Definition retM {A : Type} (a : A) : MM A := fun w => (a, w, []).

Definition bindM {A B : Type} (m : MM A) (k : A -> MM B) : MM B :=
  fun w =>
    let '(a, w1, t1) := m w in
    let '(b, w2, t2) := k a w1 in
    (b, w2, t1 ++ t2).

Definition callM {A : Type} (f : W -> A * W) (ev : A -> MEvent) : MM A :=
  fun w => let '(a, w1) := f w in (a, w1, [ev a]).

Definition callM_ (f : W -> W) (ev : MEvent) : MM unit :=
  fun w => (tt, f w, [ev]).

Definition emitM (ev : MEvent) : MM unit := fun w => (tt, w, [ev]).

Notation "x <- c1 ;; c2" := (bindM c1 (fun x => c2))
  (at level 61, c1 at next level, right associativity) : main_scope.
Notation "' pat <- c1 ;; c2" :=
  (bindM c1 (fun x => match x with pat => c2 end))
  (at level 61, pat pattern, c1 at next level, right associativity)
  : main_scope.
Notation "c1 ;; c2" := (bindM c1 (fun _ => c2))
  (at level 61, right associativity) : main_scope.

Local Open Scope main_scope.

(** The packages that main calls; none of them is among the sources. The
    engine [pge] and the scheduler [sch] live in the world. *)
Variable config_NewConfig : W -> (CmdOptions * option error) * W.
Variable log_Init : CmdOptions -> Logger.
Variable pgengine_New :
  Context -> CmdOptions -> Logger -> W -> option error * W.
Variable Finalize : W -> W.
Variable MigrateDb : Context -> W -> option error * W.
Variable CheckNeedMigrateDb : Context -> W -> (bool * option error) * W.
Variable Run : Context -> W -> Z * W.
Variable ReconnectAndFixLeftovers : Context -> W -> W.
Variable ConnectionDropppedStatus : Z.

(** Lines 90-92, iterated at most [fuel] times; [None] when the fuel runs
    out before the loop ends. *)
Fixpoint runLoop (fuel : nat) (ctx : Context) : MM (option unit) :=
  match fuel with
  | O => retM None
  | S fuel' =>
    status <- callM (Run ctx) (EvRun ctx);;
    if status =? ConnectionDropppedStatus then
      callM_ (ReconnectAndFixLeftovers ctx)
             (EvReconnectAndFixLeftovers ctx);;
      runLoop fuel' ctx
    else retM (Some tt)
  end.

(** Lines 83-92. The result is the exit code and whether [pge.Finalize] has
    been deferred. *)
Definition startScheduler (fuel : nat) (ctx : Context)
  (cmdOpts : CmdOptions) (logger : Logger) : MM (option (Z * bool)) :=
  if Init (Start cmdOpts) then retM (Some (ExitCodeOK, true))
  else
    emitM (EvSchedulerNew logger);;
    emitM EvSetHttpStatusRunning;;
    r <- runLoop fuel ctx;;
    retM (match r with
          | Some _ => Some (ExitCodeOK, true)
          | None => None
          end).

(** Lines 52-92: the body of main up to its return. *)
Definition mainBody (fuel : nat) (ctx : Context)
  : MM (option (Z * bool)) :=
  '(cmdOpts, err) <- callM config_NewConfig EvNewConfig;;
  match err with
  | Some e =>
    emitM (EvPrintln [AStr "Configuration error: "; AErr e]);;
    retM (Some (ExitCodeConfigError, false))
  | None =>
    emitM (EvLogInit cmdOpts);;
    let logger := log_Init cmdOpts in
    (if negb (Port (HTTP cmdOpts) =? 0)
     then emitM (EvStartHTTP logger (Port (HTTP cmdOpts)))
     else retM tt);;
    err <- callM (pgengine_New ctx cmdOpts logger)
                 (EvNew ctx cmdOpts logger);;
    match err with
    | Some _ => retM (Some (ExitCodeDBEngineError, false))
    | None =>
      if Upgrade (Start cmdOpts) then
        err <- callM (MigrateDb ctx) (EvMigrateDb ctx);;
        match err with
        | Some e =>
          emitM (EvLogger (WithError logger e) LError
                          [AStr "Upgrade failed"]);;
          retM (Some (3, true))
        | None => startScheduler fuel ctx cmdOpts logger
        end
      else
        '(upgrade, err) <-
          callM (CheckNeedMigrateDb ctx) (EvCheckNeedMigrateDb ctx);;
        if upgrade || match err with Some _ => true | None => false end
        then
          (if upgrade : bool then
             emitM (EvLogger logger LError
                      [AStr "You need to upgrade your database before proceeding, use --upgrade option"])
           else retM tt);;
          match err with
          | Some e =>
            emitM (EvLogger (WithError logger e) LError
                            [AStr "Migration check failed"])
          | None => retM tt
          end;;
          retM (Some (ExitCodeUpgradeError, true))
        else startScheduler fuel ctx cmdOpts logger
    end
  end.

(** main (lines 45-93) with its deferred calls, which run last in, first
    out: [pge.Finalize()] when it was deferred, [cancel()], and
    [os.Exit(exitCode)]. *)
Definition main (fuel : nat) : MM (option Z) :=
  let ctx := WithCancel Background in
  let cancel := cancelOf ctx in
  emitM (EvSetupCloseHandler cancel);;
  r <- mainBody fuel ctx;;
  match r with
  | None => retM None
  | Some (exitCode, finalize) =>
    (if finalize : bool then callM_ Finalize EvFinalize else retM tt);;
    emitM (EvCancelCall cancel);;
    emitM (EvExit exitCode);;
    retM (Some exitCode)
  end.

(** The shape of the [Run]/[ReconnectAndFixLeftovers] events of a loop that
    saw [n] dropped connections. *)
Definition drops (ctx : Context) (n : nat) : list MEvent :=
  List.concat (repeat [EvRun ctx ConnectionDropppedStatus;
                       EvReconnectAndFixLeftovers ctx] n).

(** What main does before it asks for the engine, once the configuration
    is read. *)
Definition prelude (ctx : Context) (cmdOpts : CmdOptions) : list MEvent :=
  [EvSetupCloseHandler (cancelOf ctx); EvNewConfig (cmdOpts, None);
   EvLogInit cmdOpts]
  ++ (if negb (Port (HTTP cmdOpts) =? 0)
      then [EvStartHTTP (log_Init cmdOpts) (Port (HTTP cmdOpts))]
      else []).

(** The deferred calls. *)
Definition epilogue (ctx : Context) (finalize : bool) (exitCode : Z)
  : list MEvent :=
  (if finalize then [EvFinalize] else [])
  ++ [EvCancelCall (cancelOf ctx); EvExit exitCode].

(** The event that lets main go on to the scheduler. *)
Definition databaseReady (ctx : Context) (cmdOpts : CmdOptions) : MEvent :=
  if Upgrade (Start cmdOpts) then EvMigrateDb ctx None
  else EvCheckNeedMigrateDb ctx (false, None).

Definition isConfigError (e : MEvent) : bool :=
  match e with
  | EvNewConfig (_, Some _) => true
  | _ => false
  end.

Definition isEngineError (e : MEvent) : bool :=
  match e with
  | EvNew _ _ _ (Some _) => true
  | _ => false
  end.

Definition isUpgradeError (e : MEvent) : bool :=
  match e with
  | EvMigrateDb _ (Some _) => true
  | EvCheckNeedMigrateDb _ (true, _) => true
  | EvCheckNeedMigrateDb _ (false, Some _) => true
  | _ => false
  end.

Definition isLogger (e : MEvent) : bool :=
  match e with
  | EvLogger _ _ _ => true
  | _ => false
  end.

Definition isSchedulerNew (e : MEvent) : bool :=
  match e with
  | EvSchedulerNew _ => true
  | _ => false
  end.

(** *** main *)

Lemma drops_succ ctx n :
  drops ctx (S n) =
  EvRun ctx ConnectionDropppedStatus
  :: EvReconnectAndFixLeftovers ctx :: drops ctx n.
Proof. reflexivity. Qed.

Lemma runLoop_shape fuel ctx :
  forall w,
    let r := runLoop fuel ctx w in
    match fst (fst r) with
    | Some _ =>
      exists n st, st <> ConnectionDropppedStatus /\
                   snd r = drops ctx n ++ [EvRun ctx st]
    | None => snd r = drops ctx fuel
    end.
Proof.
  induction fuel as [|fuel IH]; intros w; [reflexivity|].
  cbv zeta. cbn [runLoop]. unfold bindM, callM, callM_, retM.
  destruct (Run ctx w) as [status w1].
  destruct (Z.eqb_spec status ConnectionDropppedStatus) as [E|E].
  - subst status. specialize (IH (ReconnectAndFixLeftovers ctx w1)).
    cbv zeta in IH.
    destruct (runLoop fuel ctx (ReconnectAndFixLeftovers ctx w1))
      as [[r w2] t2].
    cbn [fst snd] in IH |- *. destruct r.
    + destruct IH as (n & st & Hst & ->).
      exists (S n), st. split; [exact Hst|]. reflexivity.
    + rewrite IH. reflexivity.
  - cbn. exists O, status. split; [exact E|reflexivity].
Qed.

Lemma startScheduler_cases fuel ctx cmdOpts logger w :
  let r := startScheduler fuel ctx cmdOpts logger w in
  (Init (Start cmdOpts) = true /\ fst (fst r) = Some (ExitCodeOK, true) /\
   snd r = []) \/
  (Init (Start cmdOpts) = false /\
   ((fst (fst r) = None /\
     snd r = EvSchedulerNew logger :: EvSetHttpStatusRunning
             :: drops ctx fuel) \/
    (exists n st,
        st <> ConnectionDropppedStatus /\
        fst (fst r) = Some (ExitCodeOK, true) /\
        snd r = EvSchedulerNew logger :: EvSetHttpStatusRunning
                :: drops ctx n ++ [EvRun ctx st]))).
Proof.
  cbv zeta. unfold startScheduler.
  destruct (Init (Start cmdOpts)); [left; auto|right].
  split; [reflexivity|]. unfold bindM, emitM, retM.
  pose proof (runLoop_shape fuel ctx w) as H. cbv zeta in H.
  destruct (runLoop fuel ctx w) as [[r w1] t1]. cbn [fst snd] in H |- *.
  destruct r.
  - right. destruct H as (n & st & Hst & ->). exists n, st.
    rewrite app_nil_r. auto.
  - left. rewrite H, app_nil_r. auto.
Qed.

(** Every run of main, by the step at which it stops. *)
Lemma main_cases fuel w :
  let ctx := WithCancel Background in
  let r := main fuel w in
  (exists cmdOpts e,
      fst (fst r) = Some ExitCodeConfigError /\
      snd r = [EvSetupCloseHandler (cancelOf ctx);
               EvNewConfig (cmdOpts, Some e);
               EvPrintln [AStr "Configuration error: "; AErr e]]
              ++ epilogue ctx false ExitCodeConfigError) \/
  (exists cmdOpts e,
      fst (fst r) = Some ExitCodeDBEngineError /\
      snd r = prelude ctx cmdOpts
              ++ [EvNew ctx cmdOpts (log_Init cmdOpts) (Some e)]
              ++ epilogue ctx false ExitCodeDBEngineError) \/
  (exists cmdOpts check logs,
      fst (fst r) = Some ExitCodeUpgradeError /\
      isUpgradeError check = true /\
      Forall (fun e => isLogger e = true) logs /\
      snd r = prelude ctx cmdOpts
              ++ [EvNew ctx cmdOpts (log_Init cmdOpts) None; check]
              ++ logs ++ epilogue ctx true ExitCodeUpgradeError) \/
  (exists cmdOpts,
      Init (Start cmdOpts) = true /\
      fst (fst r) = Some ExitCodeOK /\
      snd r = prelude ctx cmdOpts
              ++ [EvNew ctx cmdOpts (log_Init cmdOpts) None;
                  databaseReady ctx cmdOpts]
              ++ epilogue ctx true ExitCodeOK) \/
  (exists cmdOpts,
      Init (Start cmdOpts) = false /\
      fst (fst r) = None /\
      snd r = prelude ctx cmdOpts
              ++ [EvNew ctx cmdOpts (log_Init cmdOpts) None;
                  databaseReady ctx cmdOpts;
                  EvSchedulerNew (log_Init cmdOpts); EvSetHttpStatusRunning]
              ++ drops ctx fuel) \/
  (exists cmdOpts n st,
      Init (Start cmdOpts) = false /\
      st <> ConnectionDropppedStatus /\
      fst (fst r) = Some ExitCodeOK /\
      snd r = prelude ctx cmdOpts
              ++ [EvNew ctx cmdOpts (log_Init cmdOpts) None;
                  databaseReady ctx cmdOpts;
                  EvSchedulerNew (log_Init cmdOpts); EvSetHttpStatusRunning]
              ++ drops ctx n ++ [EvRun ctx st]
              ++ epilogue ctx true ExitCodeOK).
Proof.
  cbv zeta. unfold main, mainBody, bindM, callM, callM_, emitM, retM.
  destruct (config_NewConfig w) as [[cmdOpts [e|]] w1].
  { left. exists cmdOpts, e. split; reflexivity. }
  right. unfold prelude, databaseReady.
  assert (Hsched : forall w2,
    let r := startScheduler fuel (WithCancel Background) cmdOpts
                            (log_Init cmdOpts) w2 in
    (Init (Start cmdOpts) = true /\ fst (fst r) = Some (ExitCodeOK, true) /\
     snd r = []) \/
    (Init (Start cmdOpts) = false /\
     ((fst (fst r) = None /\
       snd r = EvSchedulerNew (log_Init cmdOpts) :: EvSetHttpStatusRunning
               :: drops (WithCancel Background) fuel) \/
      (exists n st,
          st <> ConnectionDropppedStatus /\
          fst (fst r) = Some (ExitCodeOK, true) /\
          snd r = EvSchedulerNew (log_Init cmdOpts)
                  :: EvSetHttpStatusRunning
                  :: drops (WithCancel Background) n
                  ++ [EvRun (WithCancel Background) st])))).
  { intros w2. apply startScheduler_cases. }
  destruct (negb (Port (HTTP cmdOpts) =? 0)) eqn:Hp;
    cbv beta iota zeta;
    (destruct (pgengine_New (WithCancel Background) cmdOpts
                            (log_Init cmdOpts) w1) as [[e|] w2];
     [left; exists cmdOpts, e; rewrite Hp; split; reflexivity|right]);
    (destruct (Upgrade (Start cmdOpts)) eqn:Hu;
     [destruct (MigrateDb (WithCancel Background) w2) as [[e|] w3];
      [left;
       exists cmdOpts, (EvMigrateDb (WithCancel Background) (Some e)),
         [EvLogger (WithError (log_Init cmdOpts) e) LError
                   [AStr "Upgrade failed"]];
       rewrite Hp;
       split; [reflexivity|]; split; [reflexivity|];
       split; [repeat constructor|reflexivity]
      |right; specialize (Hsched w3); cbv zeta in Hsched;
       destruct (startScheduler fuel (WithCancel Background) cmdOpts
                                (log_Init cmdOpts) w3) as [[r w4] t4];
       cbn [fst snd] in Hsched;
       destruct Hsched as [(Hi & -> & ->)
                          |(Hi & [(-> & ->)|(n & st & Hst & -> & ->)])];
       [left; exists cmdOpts; rewrite Hp, Hu; split; [exact Hi|]; split; reflexivity
       |right; left; exists cmdOpts; rewrite Hp, Hu; split; [exact Hi|];
        split; [reflexivity|]; cbn; rewrite ?app_nil_r; reflexivity
       |right; right; exists cmdOpts, n, st; rewrite Hp, Hu; split; [exact Hi|];
        split; [exact Hst|]; split; [reflexivity|];
        cbn; listnorm; reflexivity]]
     |destruct (CheckNeedMigrateDb (WithCancel Background) w2)
        as [[[|] [e|]] w3]; cbv beta iota zeta delta [orb];
      [left;
       exists cmdOpts,
         (EvCheckNeedMigrateDb (WithCancel Background) (true, Some e)),
         [EvLogger (log_Init cmdOpts) LError
            [AStr "You need to upgrade your database before proceeding, use --upgrade option"];
          EvLogger (WithError (log_Init cmdOpts) e) LError
                   [AStr "Migration check failed"]];
       rewrite Hp;
       split; [reflexivity|]; split; [reflexivity|];
       split; [repeat constructor|reflexivity]
      |left;
       exists cmdOpts,
         (EvCheckNeedMigrateDb (WithCancel Background) (true, None)),
         [EvLogger (log_Init cmdOpts) LError
            [AStr "You need to upgrade your database before proceeding, use --upgrade option"]];
       rewrite Hp;
       split; [reflexivity|]; split; [reflexivity|];
       split; [repeat constructor|reflexivity]
      |left;
       exists cmdOpts,
         (EvCheckNeedMigrateDb (WithCancel Background) (false, Some e)),
         [EvLogger (WithError (log_Init cmdOpts) e) LError
                   [AStr "Migration check failed"]];
       rewrite Hp;
       split; [reflexivity|]; split; [reflexivity|];
       split; [repeat constructor|reflexivity]
      |right; specialize (Hsched w3); cbv zeta in Hsched;
       destruct (startScheduler fuel (WithCancel Background) cmdOpts
                                (log_Init cmdOpts) w3) as [[r w4] t4];
       cbn [fst snd] in Hsched;
       destruct Hsched as [(Hi & -> & ->)
                          |(Hi & [(-> & ->)|(n & st & Hst & -> & ->)])];
       [left; exists cmdOpts; rewrite Hp, Hu; split; [exact Hi|]; split; reflexivity
       |right; left; exists cmdOpts; rewrite Hp, Hu; split; [exact Hi|];
        split; [reflexivity|]; cbn; rewrite ?app_nil_r; reflexivity
       |right; right; exists cmdOpts, n, st; rewrite Hp, Hu; split; [exact Hi|];
        split; [exact Hst|]; split; [reflexivity|];
        cbn; listnorm; reflexivity]]]).
Qed.


Lemma existsb_prelude (f : MEvent -> bool) ctx cmdOpts :
  f (EvSetupCloseHandler (cancelOf ctx)) = false ->
  f (EvNewConfig (cmdOpts, None)) = false ->
  f (EvLogInit cmdOpts) = false ->
  f (EvStartHTTP (log_Init cmdOpts) (Port (HTTP cmdOpts))) = false ->
  existsb f (prelude ctx cmdOpts) = false.
Proof.
  intros H1 H2 H3 H4. unfold prelude.
  destruct (negb _); cbn; rewrite H1, H2, H3, ?H4; reflexivity.
Qed.

Lemma existsb_drops (f : MEvent -> bool) ctx n :
  f (EvRun ctx ConnectionDropppedStatus) = false ->
  f (EvReconnectAndFixLeftovers ctx) = false ->
  existsb f (drops ctx n) = false.
Proof.
  intros H1 H2. induction n as [|n IH]; [reflexivity|].
  rewrite drops_succ. cbn [existsb]. rewrite H1, H2, IH. reflexivity.
Qed.

Lemma existsb_logs (f : MEvent -> bool) logs :
  Forall (fun e => isLogger e = true) logs ->
  (forall lg lvl args, f (EvLogger lg lvl args) = false) ->
  existsb f logs = false.
Proof.
  intros H Hf. induction H as [|e logs He _ IH]; [reflexivity|].
  destruct e; try discriminate. cbn [existsb]. rewrite Hf, IH. reflexivity.
Qed.

Lemma filter_false (f : MEvent -> bool) l :
  existsb f l = false -> filter f l = [].
Proof.
  induction l as [|e l IH]; [reflexivity|]. cbn [existsb filter].
  destruct (f e); [discriminate|]. exact IH.
Qed.

Lemma filter_drops ctx n :
  filter isRunOrReconnect (drops ctx n) = drops ctx n.
Proof.
  induction n as [|n IH]; [reflexivity|].
  rewrite drops_succ. cbn [filter isRunOrReconnect]. rewrite IH.
  reflexivity.
Qed.

Lemma isUpgradeError_only check :
  isUpgradeError check = true ->
  isConfigError check = false /\ isEngineError check = false /\
  isCleanup check = false /\ isRunOrReconnect check = false /\
  isEngineCreated check = false /\ isSchedulerNew check = false.
Proof. destruct check; try discriminate; intros _; repeat split. Qed.

Lemma databaseReady_plain ctx cmdOpts :
  isConfigError (databaseReady ctx cmdOpts) = false /\
  isEngineError (databaseReady ctx cmdOpts) = false /\
  isUpgradeError (databaseReady ctx cmdOpts) = false /\
  isCleanup (databaseReady ctx cmdOpts) = false /\
  isRunOrReconnect (databaseReady ctx cmdOpts) = false /\
  isEngineCreated (databaseReady ctx cmdOpts) = false /\
  isSchedulerNew (databaseReady ctx cmdOpts) = false.
Proof.
  unfold databaseReady. destruct (Upgrade (Start cmdOpts)); repeat split.
Qed.

Ltac trace_simpl :=
  unfold epilogue;
  repeat (rewrite ?existsb_app;
          rewrite ?existsb_prelude by reflexivity;
          rewrite ?existsb_drops by reflexivity;
          cbn [existsb app orb isConfigError isEngineError isUpgradeError
               isCleanup isRunOrReconnect isEngineCreated isSchedulerNew
               isLogger]).

(** X21. When main returns, its deferred calls run in this order and
    nothing follows them: pge.Finalize() if and only if the engine had been
    created, then cancel() of main's context, then os.Exit with the exit
    code; none of the three happens earlier. *)
Theorem main_exits_after_cleanup
  (fuel : nat) (w w' : W) (code : Z) (tr : list MEvent) :
  main fuel w = (Some code, w', tr) ->
  exists body,
    tr = body
         ++ (if existsb isEngineCreated body then [EvFinalize] else [])
         ++ [EvCancelCall (cancelOf (WithCancel Background)); EvExit code] /\
    filter isCleanup body = [].
Proof.
  intros H. pose proof (main_cases fuel w) as Hc. cbv zeta in Hc.
  rewrite H in Hc. cbn [fst snd] in Hc.
  destruct Hc as [(o & e & Hr & ->)
                 |[(o & e & Hr & ->)
                  |[(o & check & logs & Hr & Hck & Hlogs & ->)
                   |[(o & Hi & Hr & ->)
                    |[(o & Hi & Hr & ->)
                     |(o & n & st & Hi & Hst & Hr & ->)]]]]];
    try discriminate; injection Hr as <-.
  - exists [EvSetupCloseHandler (cancelOf (WithCancel Background));
            EvNewConfig (o, Some e);
            EvPrintln [AStr "Configuration error: "; AErr e]].
    split; reflexivity.
  - exists (prelude (WithCancel Background) o
            ++ [EvNew (WithCancel Background) o (log_Init o) (Some e)]).
    split.
    + trace_simpl. listnorm. reflexivity.
    + apply filter_false. trace_simpl. reflexivity.
  - destruct (isUpgradeError_only _ Hck) as (_ & _ & Hcl & _ & Hec & _).
    exists (prelude (WithCancel Background) o
            ++ [EvNew (WithCancel Background) o (log_Init o) None; check]
            ++ logs).
    split.
    + trace_simpl. rewrite ?Bool.orb_true_r. listnorm. reflexivity.
    + apply filter_false. trace_simpl. rewrite Hcl.
      rewrite (existsb_logs _ Hlogs) by reflexivity. reflexivity.
  - destruct (databaseReady_plain (WithCancel Background) o)
      as (_ & _ & _ & Hcl & _ & Hec & _).
    exists (prelude (WithCancel Background) o
            ++ [EvNew (WithCancel Background) o (log_Init o) None;
                databaseReady (WithCancel Background) o]).
    split.
    + trace_simpl. listnorm. reflexivity.
    + apply filter_false. trace_simpl. rewrite Hcl. reflexivity.
  - destruct (databaseReady_plain (WithCancel Background) o)
      as (_ & _ & _ & Hcl & _ & Hec & _).
    exists (prelude (WithCancel Background) o
            ++ [EvNew (WithCancel Background) o (log_Init o) None;
                databaseReady (WithCancel Background) o;
                EvSchedulerNew (log_Init o); EvSetHttpStatusRunning]
            ++ drops (WithCancel Background) n
            ++ [EvRun (WithCancel Background) st]).
    split.
    + trace_simpl. listnorm. reflexivity.
    + apply filter_false. trace_simpl. rewrite Hcl. reflexivity.
Qed.

(** X22. The exit code of main names the step that failed: 1 when the
    configuration could not be read, 2 when the engine could not be
    created, 3 when the upgrade failed or, without --upgrade, when the
    database needs an upgrade or the check failed, and 0 otherwise. *)
Theorem main_exit_code_names_failed_step
  (fuel : nat) (w w' : W) (code : Z) (tr : list MEvent) :
  main fuel w = (Some code, w', tr) ->
  code = (if existsb isConfigError tr then ExitCodeConfigError
          else if existsb isEngineError tr then ExitCodeDBEngineError
          else if existsb isUpgradeError tr then ExitCodeUpgradeError
          else ExitCodeOK).
Proof.
  intros H. pose proof (main_cases fuel w) as Hc. cbv zeta in Hc.
  rewrite H in Hc. cbn [fst snd] in Hc.
  destruct Hc as [(o & e & Hr & ->)
                 |[(o & e & Hr & ->)
                  |[(o & check & logs & Hr & Hck & Hlogs & ->)
                   |[(o & Hi & Hr & ->)
                    |[(o & Hi & Hr & ->)
                     |(o & n & st & Hi & Hst & Hr & ->)]]]]];
    try discriminate; injection Hr as <-.
  - reflexivity.
  - trace_simpl. reflexivity.
  - destruct (isUpgradeError_only _ Hck) as (Hce & Hee & _).
    trace_simpl. rewrite Hce, Hee, Hck.
    rewrite !(existsb_logs _ Hlogs) by reflexivity. reflexivity.
  - destruct (databaseReady_plain (WithCancel Background) o)
      as (Hce & Hee & Hue & _).
    trace_simpl. rewrite Hce, Hee, Hue. reflexivity.
  - destruct (databaseReady_plain (WithCancel Background) o)
      as (Hce & Hee & Hue & _).
    trace_simpl. rewrite Hce, Hee, Hue. reflexivity.
Qed.

(** X23. The scheduler is run only on a ready database: whenever sch.Run
    is called, the configuration was read without --init, the engine was
    created, and either the upgrade succeeded (with --upgrade) or the check
    said that no upgrade is needed (without); all of this happened before
    the scheduler was created, and Run is not called before that either. *)
Theorem main_runs_scheduler_only_when_ready
  (fuel : nat) (w : W) (ctx : Context) (st : Z) :
  In (EvRun ctx st) (snd (main fuel w)) ->
  exists cmdOpts pre post,
    snd (main fuel w) =
      pre ++ EvSchedulerNew (log_Init cmdOpts) :: EvSetHttpStatusRunning
          :: post /\
    Init (Start cmdOpts) = false /\
    In (EvNewConfig (cmdOpts, None)) pre /\
    In (EvNew (WithCancel Background) cmdOpts (log_Init cmdOpts) None) pre /\
    In (databaseReady (WithCancel Background) cmdOpts) pre /\
    filter isRunOrReconnect pre = [].
Proof.
  intros HIn.
  assert (Hex : existsb isRunOrReconnect (snd (main fuel w)) = true).
  { apply existsb_exists. exists (EvRun ctx st). split; [exact HIn|].
    reflexivity. }
  clear HIn. pose proof (main_cases fuel w) as Hc. cbv zeta in Hc.
  assert (Hpre : forall o,
    In (EvNewConfig (o, None))
       (prelude (WithCancel Background) o
        ++ [EvNew (WithCancel Background) o (log_Init o) None;
            databaseReady (WithCancel Background) o]) /\
    In (EvNew (WithCancel Background) o (log_Init o) None)
       (prelude (WithCancel Background) o
        ++ [EvNew (WithCancel Background) o (log_Init o) None;
            databaseReady (WithCancel Background) o]) /\
    In (databaseReady (WithCancel Background) o)
       (prelude (WithCancel Background) o
        ++ [EvNew (WithCancel Background) o (log_Init o) None;
            databaseReady (WithCancel Background) o]) /\
    filter isRunOrReconnect
       (prelude (WithCancel Background) o
        ++ [EvNew (WithCancel Background) o (log_Init o) None;
            databaseReady (WithCancel Background) o]) = []).
  { intros o.
    destruct (databaseReady_plain (WithCancel Background) o)
      as (_ & _ & _ & _ & Hrr & _).
    split; [|split; [|split]].
    - apply in_or_app. left. unfold prelude. cbn. auto.
    - apply in_or_app. right. cbn. auto.
    - apply in_or_app. right. cbn. auto.
    - apply filter_false. trace_simpl. rewrite Hrr. reflexivity. }
  destruct Hc as [(o & e & Hr & Ht)
                 |[(o & e & Hr & Ht)
                  |[(o & check & logs & Hr & Hck & Hlogs & Ht)
                   |[(o & Hi & Hr & Ht)
                    |[(o & Hi & Hr & Ht)
                     |(o & n & st' & Hi & Hst & Hr & Ht)]]]]];
    rewrite Ht in Hex |- *.
  - discriminate.
  - revert Hex. trace_simpl. discriminate.
  - destruct (isUpgradeError_only _ Hck) as (_ & _ & _ & Hrr & _).
    revert Hex. trace_simpl. rewrite Hrr.
    rewrite (existsb_logs _ Hlogs) by reflexivity. discriminate.
  - destruct (databaseReady_plain (WithCancel Background) o)
      as (_ & _ & _ & _ & Hrr & _).
    revert Hex. trace_simpl. rewrite Hrr. discriminate.
  - destruct (Hpre o) as (H1 & H2 & H3 & H4).
    exists o, (prelude (WithCancel Background) o
               ++ [EvNew (WithCancel Background) o (log_Init o) None;
                   databaseReady (WithCancel Background) o]),
           (drops (WithCancel Background) fuel).
    split; [listnorm; reflexivity|]. auto.
  - destruct (Hpre o) as (H1 & H2 & H3 & H4).
    exists o, (prelude (WithCancel Background) o
               ++ [EvNew (WithCancel Background) o (log_Init o) None;
                   databaseReady (WithCancel Background) o]),
           (drops (WithCancel Background) n
            ++ [EvRun (WithCancel Background) st']
            ++ epilogue (WithCancel Background) true ExitCodeOK).
    split; [listnorm; reflexivity|]. auto.
Qed.

(** X24. Once the scheduler is created, main returns only after a call of
    sch.Run that returns a status other than ConnectionDropppedStatus, and
    then with exit code 0; every earlier call of Run returned
    ConnectionDropppedStatus and was followed by exactly one call of
    ReconnectAndFixLeftovers before Run was called again. *)
Theorem main_reconnects_after_every_drop
  (fuel : nat) (w w' : W) (code : Z) (tr : list MEvent) (logger : Logger) :
  main fuel w = (Some code, w', tr) ->
  In (EvSchedulerNew logger) tr ->
  code = ExitCodeOK /\
  exists n st,
    st <> ConnectionDropppedStatus /\
    filter isRunOrReconnect tr =
      drops (WithCancel Background) n ++ [EvRun (WithCancel Background) st].
Proof.
  intros H HIn.
  assert (Hex : existsb isSchedulerNew tr = true).
  { apply existsb_exists. exists (EvSchedulerNew logger).
    split; [exact HIn|]. reflexivity. }
  clear HIn. pose proof (main_cases fuel w) as Hc. cbv zeta in Hc.
  rewrite H in Hc. cbn [fst snd] in Hc.
  destruct Hc as [(o & e & Hr & ->)
                 |[(o & e & Hr & ->)
                  |[(o & check & logs & Hr & Hck & Hlogs & ->)
                   |[(o & Hi & Hr & ->)
                    |[(o & Hi & Hr & ->)
                     |(o & n & st & Hi & Hst & Hr & ->)]]]]];
    try discriminate; injection Hr as <-.
  - revert Hex. trace_simpl. discriminate.
  - destruct (isUpgradeError_only _ Hck) as (_ & _ & _ & _ & _ & Hsn).
    revert Hex. trace_simpl. rewrite Hsn.
    rewrite (existsb_logs _ Hlogs) by reflexivity. discriminate.
  - destruct (databaseReady_plain (WithCancel Background) o)
      as (_ & _ & _ & _ & _ & _ & Hsn).
    revert Hex. trace_simpl. rewrite Hsn. discriminate.
  - split; [reflexivity|]. exists n, st. split; [exact Hst|].
    destruct (databaseReady_plain (WithCancel Background) o)
      as (_ & _ & _ & _ & Hrr & _).
    rewrite filter_app.
    rewrite (filter_false isRunOrReconnect
               (prelude (WithCancel Background) o))
      by (apply existsb_prelude; reflexivity).
    cbn [app filter isRunOrReconnect]. rewrite Hrr.
    rewrite filter_app, filter_drops. reflexivity.
Qed.

End Program.

End Main.

(** ** Concrete library functions and collaborators

    The theorems above hold for every [strings.TrimSpace], [json.Unmarshal],
    gateway and commander. The instances below are used to run the functions
    on concrete inputs. *)

Module Concrete.

Definition quote : string := String "034"%char EmptyString.

(** White space as [strings.TrimSpace] sees it in an ASCII string. *)
Definition isSpace (c : ascii) : bool :=
  let n := nat_of_ascii c in
  ((9 <=? n) && (n <=? 13) || (n =? 32))%nat.

Fixpoint trimLeft (s : string) : string :=
  match s with
  | String c rest => if isSpace c then trimLeft rest else s
  | EmptyString => EmptyString
  end.

Fixpoint trimRight (s : string) : string :=
  match s with
  | String c rest =>
    match trimRight rest with
    | EmptyString => if isSpace c then EmptyString else String c EmptyString
    | rest' => String c rest'
    end
  | EmptyString => EmptyString
  end.

Definition TrimSpace (s : string) : string := trimRight (trimLeft s).

(** A decoder for JSON arrays of strings without [\u] escapes, answering as
    [json.Unmarshal] does on that fragment: [null] and [[]] decode to no
    arguments, a [null] element to the empty string, and anything else that
    is not an array of strings (the empty input included) is an error. *)
Definition isJsonSpace (c : ascii) : bool :=
  let n := nat_of_ascii c in
  ((n =? 32) || (n =? 9) || (n =? 10) || (n =? 13))%nat.

Fixpoint skipSpace (s : string) : string :=
  match s with
  | String c rest => if isJsonSpace c then skipSpace rest else s
  | EmptyString => EmptyString
  end.

Definition unescape (c : ascii) : option ascii :=
  match nat_of_ascii c with
  | 34 => Some "034"%char   (* quote *)
  | 92 => Some "092"%char   (* backslash *)
  | 47 => Some "047"%char   (* slash *)
  | 98 => Some "008"%char   (* b *)
  | 102 => Some "012"%char  (* f *)
  | 110 => Some "010"%char  (* n *)
  | 114 => Some "013"%char  (* r *)
  | 116 => Some "009"%char  (* t *)
  | _ => None
  end%nat.

(** The characters of a string literal after its opening quote, and what
    follows the closing quote. *)
Fixpoint stringBody (s : string) : option (string * string) :=
  match s with
  | EmptyString => None
  | String c rest =>
    if (nat_of_ascii c =? 34)%nat then Some (EmptyString, rest)
    else if (nat_of_ascii c =? 92)%nat then
      match rest with
      | String e rest' =>
        match unescape e, stringBody rest' with
        | Some ch, Some (body, after) => Some (String ch body, after)
        | _, _ => None
        end
      | EmptyString => None
      end
    else if (nat_of_ascii c <? 32)%nat then None
    else
      match stringBody rest with
      | Some (body, after) => Some (String c body, after)
      | None => None
      end
  end.

Definition element (s : string) : option (string * string) :=
  match s with
  | String "034" rest => stringBody rest
  | String "n" (String "u" (String "l" (String "l" rest))) =>
    Some (EmptyString, rest)
  | _ => None
  end.

(** The elements of an array after its opening bracket. *)
Fixpoint elements (fuel : nat) (s : string) : option (list string * string) :=
  match fuel with
  | O => None
  | S fuel' =>
    match element (skipSpace s) with
    | Some (v, after) =>
      match skipSpace after with
      | String "," rest =>
        match elements fuel' rest with
        | Some (vs, after') => Some (v :: vs, after')
        | None => None
        end
      | String "]" rest => Some ([v], rest)
      | _ => None
      end
    | None => None
    end
  end.

Definition jsonError : error := otherError "invalid JSON for []string".

Definition Unmarshal (s : string) : error + list string :=
  match skipSpace s with
  | String "n" (String "u" (String "l" (String "l" rest))) =>
    match skipSpace rest with
    | EmptyString => inr []
    | _ => inl jsonError
    end
  | String "[" rest =>
    match skipSpace rest with
    | String "]" after =>
      match skipSpace after with
      | EmptyString => inr []
      | _ => inl jsonError
      end
    | _ =>
      match elements (String.length rest) rest with
      | Some (vs, after) =>
        match skipSpace after with
        | EmptyString => inr vs
        | _ => inl jsonError
        end
      | None => inl jsonError
      end
    end
  | _ => inl jsonError
  end.

(** [log.GetLogger]: the logger attached last, the empty entry otherwise. *)
Fixpoint GetLogger (ctx : Context) : Logger :=
  match ctx with
  | Background => []
  | WithCancel p => GetLogger p
  | WithTimeout p _ => GetLogger p
  | WithLogger _ lg => lg
  end.

(** A JSON array literal for the given strings (no character needs an
    escape in the examples). *)
Definition jsonArray (xs : list string) : string :=
  ("[" ++ String.concat "," (map (fun x => quote ++ x ++ quote) xs) ++ "]")
    %string.

End Concrete.

(** ** Runs on concrete inputs *)

Module Runs.

Import Concrete.

Import Access.

Local Open Scope string_scope.

(** The world is a nanosecond clock; every call to the gateway or to the
    commander takes one millisecond. *)
Definition tick (w : Z) : Z := w + 1000000.

Definition clock (w : Z) : Z := w.

(** T1 runs [/bin/false], T2 is an SQL statement (scenario S2 of the
    specification; S3 is the same with [ignore_error] set on T1). *)
Definition T1 (ignoreError : bool) : ChainTask.t :=
  ChainTask.mk 0 1 "/bin/false" "PROGRAM" ignoreError 0 0 0 0.

Definition T2 : ChainTask.t :=
  ChainTask.mk 0 2 "INSERT INTO t VALUES(2)" "SQL" false 0 0 0 0.

Definition chain2 : Chain.t := Chain.mk 2 1 0 false false.

(** A gateway that answers every call; the flags make program tasks
    disabled, the parameter fetch fail, the transaction start fail, and set
    [ignore_error] on T1. An SQL task whose script is [SELECT 1/0] fails. *)
Definition engine (noPrograms fetchFails startFails ignoreT1 : bool)
  : PgEngine Z :=
  mkPgEngine noPrograms
    (fun _ _ w =>
       ((txHandle 1, 42,
         if startFails then Some (otherError "connection refused") else None),
        tick w))
    (fun _ _ _ w => (([T1 ignoreT1; T2], None), tick w))
    (fun _ _ _ w =>
       (([],
         if fetchFails then Some (otherError "current transaction is aborted")
         else None),
        tick w))
    (fun _ _ task _ w =>
       (if ChainTask.Script task =? "SELECT 1/0"
        then ("", Some (otherError "division by zero"))
        else ("", None),
        tick w))
    (fun _ _ _ _ w => tick w)
    (fun _ _ w => tick w)
    (fun _ _ w => tick w)
    (fun _ _ w => tick w)
    (fun _ _ w => tick w).

(** A commander that does not look at the chain and task identifiers:
    [/bin/false] exits with status 1, any other program prints its
    arguments, one per line. *)
Definition runProgram (command : string) (args : list string) (w : Z)
  : (string * option error) * Z :=
  (if command =? "/bin/false"
   then ("", Some (ExitError 1 "exit status 1"))
   else (String.concat newline args ++ newline, None),
   tick w).

Definition Cmd : commander Z :=
  mkCommander
    (fun _ command args w => runProgram command args w)
    (fun _ o w => runProgram (co_Command o) (co_Args o) w).

Definition scheduler (e : PgEngine Z) : Scheduler Z :=
  mkScheduler [] e (mkResourceOpts 16 0 0)
    (fun _ _ _ w => (("", None), tick w)).

Definition sch0 : Scheduler Z := scheduler (engine false false false false).

Definition ctx0 : Context := WithCancel Background.

Definition twoEntries : ExecuteProgramOptions :=
  mkExecuteProgramOptions 2 1 " echo "
    [jsonArray ["a"; "b"]; jsonArray ["c"]].

Definition emptyEntry : ExecuteProgramOptions :=
  mkExecuteProgramOptions 2 1 "echo" [""].

Definition blankCommand : ExecuteProgramOptions :=
  mkExecuteProgramOptions 2 1 "   " [jsonArray ["a"]].

Definition badSQL : ChainTask.t :=
  ChainTask.mk 2 3 "SELECT 1/0" "SQL" false 0 42 0 0.

Definition tx1 : Tx := txHandle 1.

Definition T1' : ChainTask.t := stampTask chain2 42 (T1 false).

Definition client : string := "worker001".

Definition row (id : Z) (status : string) (start : Z) (name : string)
  : RunStatus :=
  mkRunStatus id (Some 7) status None (Some 10) None (Some start) (Some 1)
              (Some name).

(** Scenario S7: chain run 1 of [worker001] was opened and never closed;
    run 2 completed; run 4 belongs to another client. *)
Definition crashed : World :=
  mkWorld [row 1 "STARTED" 1 client;
           row 2 "STARTED" 2 client;
           row 3 "CHAIN_DONE" 2 client;
           row 4 "STARTED" 4 "worker002"]
          4 [].

Definition statementRuns (_ : Context) (_ : World) : option error := None.

Definition at1000 (_ : World) : Z := 1000.

(** A server that grants the lock at once, and a [select] that takes the
    [<-ctx.Done()] case. *)
Definition lockGranted (_ : Context) (_ _ : Z) (w : World)
  : (option bool * option error) * World :=
  ((Some true, None), w).

Definition cancelledDuringWait (_ : Context) (_ : Duration) (w : World)
  : bool * World :=
  (true, w).

Definition timerFires (_ : Context) (_ : Duration) (w : World)
  : bool * World :=
  (false, w).

(** *** getTimeoutContext on values *)

Example getTimeoutContext_none :
  getTimeoutContext ctx0 0 0 = (ctx0, None).
Proof. reflexivity. Qed.

Example getTimeoutContext_max :
  getTimeoutContext ctx0 100 250 =
  (WithTimeout ctx0 250000000,
   Some (cancelOf (WithTimeout ctx0 250000000))).
Proof. reflexivity. Qed.

(** Beyond 9223372036854 ms the nanosecond count wraps: for a timeout of
    2^62 ms (on a 64-bit target) the derived context has a timeout of 0 ns,
    not of 2^62 ms. *)
Lemma getTimeoutContext_wraps :
  0 < Z.max (2 ^ 62) 0 /\
  getTimeoutContext ctx0 (2 ^ 62) 0 =
  (WithTimeout ctx0 0, Some (cancelOf (WithTimeout ctx0 0))) /\
  getTimeoutContext ctx0 (2 ^ 62) 0 <>
  (WithTimeout ctx0 (time_Millisecond * 2 ^ 62),
   Some (cancelOf (WithTimeout ctx0 (time_Millisecond * 2 ^ 62)))).
Proof.
  split; [reflexivity|]. split; [reflexivity|].
  vm_compute. discriminate.
Qed.

(** *** shell.go *)

(** Property 9 of the specification: two entries, two calls. *)
Example two_entries_calls :
  ExecuteProgramCommandWithOptions Cmd TrimSpace Unmarshal sch0 ctx0
    twoEntries 0
  = ((0, "c", None), 2000000,
     [EvCombinedOutputWithOptions ctx0
        (mkCommanderOptions 2 1 "echo" ["a"; "b"])
        ("a" ++ newline ++ "b" ++ newline, None);
      EvLog [("command", FStr "echo [a b]: ");
             ("output", FStr ("a" ++ newline ++ "b" ++ newline));
             ("retcode", FInt 0)] LDebug [AStr "Program run"];
      EvCombinedOutputWithOptions ctx0
        (mkCommanderOptions 2 1 "echo" ["c"]) ("c" ++ newline, None);
      EvLog [("command", FStr "echo [c]: ");
             ("output", FStr ("c" ++ newline));
             ("retcode", FInt 0)] LDebug [AStr "Program run"]]).
Proof. reflexivity. Qed.

Example empty_list_one_call :
  commanderCalls
    (snd (ExecuteProgramCommandWithOptions Cmd TrimSpace Unmarshal sch0 ctx0
            (mkExecuteProgramOptions 2 1 "echo" []) 0))
  = [EvCombinedOutputWithOptions ctx0 (mkCommanderOptions 2 1 "echo" [])
       (newline, None)].
Proof. reflexivity. Qed.

Lemma contract_two_entries :
  programContract TrimSpace (argvOfEntry Unmarshal) ctx0 twoEntries
    "echo" ""
    [Some (jsonArray ["a"; "b"]); Some (jsonArray ["c"])]
    (0, "c", None)
    (commanderCalls
       (snd (ExecuteProgramCommandWithOptions Cmd TrimSpace Unmarshal sch0
               ctx0 twoEntries 0))).
Proof.
  refine (@ExecuteProgramCommandWithOptions_contract Z Cmd TrimSpace
            Unmarshal sch0 ctx0 twoEntries 0 _ (0, "c", None) 2000000 _ _).
  - vm_compute. discriminate.
  - reflexivity.
Defined.

(** The contract with every entry decoded, as the claim words it, fails on
    two inputs. On the parameter list [[""]] the empty string is not valid
    JSON, so no call should be made and -1 returned: the code calls the
    program once, without arguments, and returns 0. On a command of blanks
    (a non-empty string) with one entry, one call should be made: the code
    makes none. *)
Lemma empty_entry_is_run :
  (Unmarshal "" = inl jsonError /\
   ExecuteProgramCommandWithOptions Cmd TrimSpace Unmarshal sch0 ctx0
     emptyEntry 0
   = ((0, "", None), 1000000,
      [EvCombinedOutputWithOptions ctx0 (mkCommanderOptions 2 1 "echo" [])
         (newline, None);
       EvLog [("command", FStr "echo []: "); ("output", FStr newline);
              ("retcode", FInt 0)] LDebug [AStr "Program run"]]) /\
   ~ programContract TrimSpace (argvAsStated Unmarshal) ctx0 emptyEntry
       "echo" "" (entriesOf (ParamValue emptyEntry))
       (fst (fst (ExecuteProgramCommandWithOptions Cmd TrimSpace Unmarshal
                    sch0 ctx0 emptyEntry 0)))
       (commanderCalls
          (snd (ExecuteProgramCommandWithOptions Cmd TrimSpace Unmarshal sch0
                  ctx0 emptyEntry 0)))) /\
  (Command blankCommand <> "" /\
   ~ programContract TrimSpace (argvAsStated Unmarshal) ctx0 blankCommand
       (Command blankCommand) "" (entriesOf (ParamValue blankCommand))
       (fst (fst (ExecuteProgramCommandWithOptions Cmd TrimSpace Unmarshal
                    sch0 ctx0 blankCommand 0)))
       (commanderCalls
          (snd (ExecuteProgramCommandWithOptions Cmd TrimSpace Unmarshal sch0
                  ctx0 blankCommand 0)))).
Proof.
  split.
  - split; [reflexivity|]. split; [reflexivity|].
    intros [[HF _] | [(pre & e & post & err & He & HF & _)
                    | (pre & e & post & calls0 & ps & out & er & He & _ & _
                       & Ha & _)]].
    + inversion HF as [|x y xs ys (ps & out & Ha & _) _]; subst.
      vm_compute in Ha. discriminate.
    + destruct pre as [|x pre].
      * inversion HF.
      * inversion He as [[Hx Hp]]. destruct pre; discriminate.
    + destruct pre as [|x pre].
      * inversion He; subst. vm_compute in Ha. discriminate.
      * inversion He as [[Hx Hp]]. destruct pre; discriminate.
  - split; [discriminate|].
    intros [[HF _] | [(pre & e & post & err & He & _ & Ha & _)
                    | (pre & e & post & calls0 & ps & out & er & _ & Hc
                       & _)]].
    + inversion HF.
    + destruct pre as [|x pre].
      * inversion He; subst. vm_compute in Ha. discriminate.
      * inversion He as [[Hx Hp]]. destruct pre; discriminate.
    + vm_compute in Hc. destruct calls0; discriminate.
Qed.

Lemma blank_command_run :
  ExecuteProgramCommandWithOptions Cmd TrimSpace Unmarshal sch0 ctx0
    blankCommand 0
  = ((-1, "", Some (errorString "Program command cannot be empty")), 0, [])
  /\ commanderCalls
       (snd (ExecuteProgramCommandWithOptions Cmd TrimSpace Unmarshal sch0
               ctx0 blankCommand 0)) = [].
Proof.
  apply (ExecuteProgramCommandWithOptions_empty_command Cmd TrimSpace
           Unmarshal sch0 ctx0 blankCommand 0).
  reflexivity.
Defined.

Lemma equivalent_on_two_entries :
  fst (fst (ExecuteProgramCommand Cmd TrimSpace Unmarshal sch0 ctx0
              (Command twoEntries) (ParamValue twoEntries) 0))
  = fst (fst (ExecuteProgramCommandWithOptions Cmd TrimSpace Unmarshal sch0
                ctx0 twoEntries 0))
  /\ snd (fst (ExecuteProgramCommand Cmd TrimSpace Unmarshal sch0 ctx0
                 (Command twoEntries) (ParamValue twoEntries) 0))
     = snd (fst (ExecuteProgramCommandWithOptions Cmd TrimSpace Unmarshal
                   sch0 ctx0 twoEntries 0))
  /\ snd (ExecuteProgramCommand Cmd TrimSpace Unmarshal sch0 ctx0
            (Command twoEntries) (ParamValue twoEntries) 0)
     = map plainEvent
         (snd (ExecuteProgramCommandWithOptions Cmd TrimSpace Unmarshal sch0
                 ctx0 twoEntries 0)).
Proof.
  refine (@ExecuteProgramCommand_equiv_WithOptions Z Cmd TrimSpace Unmarshal
            sch0 ctx0 twoEntries (@eq Z) 0 0 _ _).
  - intros c cmd args chain task u1 u2 ->. split; reflexivity.
  - reflexivity.
Defined.

(** *** chain.go: executeСhainElement *)

Lemma failing_program_is_logged_once :
  exists retCode w' tr task' out,
    executeChainElement Cmd TrimSpace Unmarshal GetLogger clock sch0 ctx0 tx1
                        T1' 0 = (retCode, w', tr) /\
    logCalls tr = [EvLogChainElementExecution Background task' retCode out] /\
    cancellable Background = false.
Proof.
  refine (@executeChainElement_logs_once Z Cmd TrimSpace Unmarshal GetLogger
            clock sch0 ctx0 tx1 T1' 0 [] (tick 0) _ _).
  - reflexivity.
  - intros _. reflexivity.
Defined.

(** The two early returns on concrete inputs: a parameter fetch that fails,
    and a PROGRAM task while program tasks are disabled. On both the
    function returns without calling LogChainElementExecution. *)
Lemma early_returns_are_not_logged :
  (let run :=
     executeChainElement Cmd TrimSpace Unmarshal GetLogger clock
       (scheduler (engine false true false false)) ctx0 tx1 T1' 0 in
   fst (fst run) = -1 /\ logCalls (snd run) = [] /\
   List.length (logCalls (snd run)) <> 1%nat) /\
  (let run :=
     executeChainElement Cmd TrimSpace Unmarshal GetLogger clock
       (scheduler (engine true false false false)) ctx0 tx1 T1' 0 in
   fst (fst run) = -2 /\ logCalls (snd run) = [] /\
   List.length (logCalls (snd run)) <> 1%nat).
Proof.
  split; cbv zeta; (split; [reflexivity|]); (split; [reflexivity|]);
    vm_compute; discriminate.
Qed.

Lemma sql_error_is_normalized :
  exists w' tr task',
    executeChainElement Cmd TrimSpace Unmarshal GetLogger clock sch0 ctx0 tx1
                        badSQL 0 = (-1, w', tr) /\
    logCalls tr =
      [EvLogChainElementExecution Background task' (-1)
         ("" ++ newline ++ "division by zero")].
Proof.
  refine (@executeChainElement_normalizes_error Z Cmd TrimSpace Unmarshal
            GetLogger clock sch0 ctx0 tx1 badSQL 0 [] (tick 0) ""
            (otherError "division by zero") (tick (tick 0))
            [EvExecuteSQLTask ctx0 tx1
               (ChainTask.set_StartedAt badSQL (tick 0)) []
               ("", Some (otherError "division by zero"))] _ _).
  - reflexivity.
  - reflexivity.
Defined.

(** *** chain.go: executeChain *)

Lemma start_failure_run :
  executeChain Cmd TrimSpace Unmarshal GetLogger clock
    (scheduler (engine false false true false)) ctx0 chain2 0
  = (tt, tick 0,
     [EvStartTransaction ctx0 2
        (tx1, 42, Some (otherError "connection refused"));
      EvLog [("chain", FInt 2);
             ("error", FErr (otherError "connection refused"))]
            LError [AStr "Cannot start transaction"]])
  /\ filter isTaskEvent
       (snd (executeChain Cmd TrimSpace Unmarshal GetLogger clock
               (scheduler (engine false false true false)) ctx0 chain2 0))
     = []
  /\ filter isRemoveChainRunStatus
       (snd (executeChain Cmd TrimSpace Unmarshal GetLogger clock
               (scheduler (engine false false true false)) ctx0 chain2 0))
     = []
  /\ filter isRollbackTransaction
       (snd (executeChain Cmd TrimSpace Unmarshal GetLogger clock
               (scheduler (engine false false true false)) ctx0 chain2 0))
     = [].
Proof.
  refine (@executeChain_StartTransaction_failed Z Cmd TrimSpace Unmarshal
            GetLogger clock (scheduler (engine false false true false))
            ctx0 chain2 0 tx1 42 (otherError "connection refused") (tick 0)
            _).
  reflexivity.
Defined.

(** Scenario S2: T1 fails and is not to be ignored; T2 never runs. *)
Lemma S2_chain_failed :
  exists w' tr,
    executeChain Cmd TrimSpace Unmarshal GetLogger clock sch0 ctx0 chain2 0
      = (tt, w', tr) /\
    map ChainTask.TaskID
        (flat_map (fun e => match e with
                            | EvGetChainParamValues _ _ task _ => [task]
                            | _ => []
                            end) tr) = [1] /\
    filter (fun e => isRemoveChainRunStatus e || isRollbackTransaction e) tr
    = [EvRemoveChainRunStatus
         (WithLogger Background
            [("chain", FInt 2); ("txid", FInt 42); ("task", FInt 1)]) 2;
       EvRollbackTransaction
         (WithLogger Background
            [("chain", FInt 2); ("txid", FInt 42); ("task", FInt 1)]) tx1].
Proof.
  destruct (@executeChain_task_failure Z Cmd TrimSpace Unmarshal GetLogger
              clock sch0 ctx0 chain2 0 tx1 42 (tick 0) [] (T1 false) [T2]
              (tick (tick 0)) (tick (tick 0)) [] 1 _ _
              eq_refl eq_refl eq_refl eq_refl ltac:(discriminate))
    as [Hstop _].
  destruct (Hstop eq_refl) as [_ Hrun].
  do 2 eexists. split; [exact Hrun|]. split; reflexivity.
Defined.

(** Scenario S3: the same chain with [ignore_error] on T1; T2 runs next and
    the chain commits. *)
Example S3_ignore_error :
  let tr := snd (executeChain Cmd TrimSpace Unmarshal GetLogger clock
                   (scheduler (engine false false false true)) ctx0 chain2
                   0) in
  map ChainTask.TaskID
      (flat_map (fun e => match e with
                          | EvGetChainParamValues _ _ task _ => [task]
                          | _ => []
                          end) tr) = [1; 2] /\
  filter isRollbackTransaction tr = [] /\
  In (EvCommitTransaction
        (WithLogger Background [("chain", FInt 2); ("txid", FInt 42)]) tx1)
     tr.
Proof.
  cbv zeta. split; [reflexivity|]. split; [reflexivity|].
  vm_compute. tauto.
Qed.

(** *** access.go *)

Example S7_dead_row :
  rows (snd (fst (FixSchedulerCrash client statementRuns at1000 ctx0
                    crashed)))
  = (rows crashed
     ++ [mkRunStatus 5 None "DEAD" None (Some 1000) (Some 1000) (Some 1)
           (Some 0) (Some client)])%list.
Proof. reflexivity. Qed.

Lemma S7_crash_recovery :
  (exists new,
      rows (snd (fst (FixSchedulerCrash client statementRuns at1000 ctx0
                        crashed)))
      = (rows crashed ++ new)%list /\
      Forall (fun r => execution_status r = "DEAD" /\
                       client_name r = Some client) new /\
      forall g,
        closingCount new g =
        if ((1 <=? openCount client (rows crashed) g)
            && (openCount client (rows crashed) g <? 2))%nat
        then 1%nat else 0%nat) /\
  rows (snd (fst (FixSchedulerCrash client statementRuns at1000 ctx0
                    (snd (fst (FixSchedulerCrash client statementRuns at1000
                                 ctx0 crashed))))))
  = rows (snd (fst (FixSchedulerCrash client statementRuns at1000 ctx0
                      crashed))) /\
  run_status_seq
    (snd (fst (FixSchedulerCrash client statementRuns at1000 ctx0
                 (snd (fst (FixSchedulerCrash client statementRuns at1000
                              ctx0 crashed))))))
  = run_status_seq
      (snd (fst (FixSchedulerCrash client statementRuns at1000 ctx0
                   crashed))).
Proof.
  refine (@FixSchedulerCrash_closes_once client statementRuns at1000 ctx0
            crashed _).
  reflexivity.
Defined.

Example AppID_is_adler32 : adler32_Checksum "pg_timetable" = AppID.
Proof. reflexivity. Qed.

Lemma lock_acquired_then_cancelled :
  fst (fst (TryLockClientName client 5 80 lockGranted cancelledDuringWait 1
              ctx0 crashed)) = Some false /\
  snd (TryLockClientName client 5 80 lockGranted cancelledDuringWait 1 ctx0
         crashed) =
    [EvLogToDB "DEBUG"
       [AStr "Trying to get advisory lock for"; AStr client;
        AStr "with hash"; AInt (adler32_Checksum client)];
     EvTryAdvisoryLock ctx0 AppID (adler32_Checksum client)
       (Some true, None);
     EvSelect ctx0 5000000000 true;
     EvLogToDB "ERROR" [AStr ("request cancelled" ++ newline)]].
Proof.
  refine (@TryLockClientName_acquired_then_cancelled client 5 80 lockGranted
            cancelledDuringWait 0 ctx0 crashed _ _ _ _).
  - reflexivity.
  - reflexivity.
Defined.

(** Without cancellation the same server makes the function return true,
    after the five-second wait. *)
Example lock_acquired :
  fst (fst (TryLockClientName client 5 80 lockGranted timerFires 2 ctx0
              crashed)) = Some true /\
  waits (snd (TryLockClientName client 5 80 lockGranted timerFires 2 ctx0
                crashed)) = [5000000000].
Proof. split; reflexivity. Qed.

End Runs.

(** ** Further runs: the intake, the worker, the remaining gateway
    functions and main *)

Module Scenarios.

Import Concrete.

Import Access.

Import Runs.

Local Open Scope string_scope.

(** A gateway like [engine] whose GetChainElements fails. *)
Definition failingFetch : PgEngine Z :=
  let e := engine false false false false in
  mkPgEngine (NoProgramTasks e) (StartTransaction e)
    (fun _ _ _ w => (([], Some (otherError "relation does not exist")),
                     tick w))
    (GetChainParamValues e) (ExecuteSQLTask e) (LogChainElementExecution e)
    (RemoveChainRunStatus e) (RollbackTransaction e) (CommitTransaction e)
    (fun _ _ w => tick w).

(** A task of a kind that the switch of executeСhainElement does not
    know. *)
Definition shellTask : ChainTask.t :=
  ChainTask.mk 2 4 "ls" "SHELL" false 0 42 0 0.

Definition run0 : unit * Z * list Event :=
  executeChain Cmd TrimSpace Unmarshal GetLogger clock sch0 ctx0 chain2 0.

Definition run1 : unit * Z * list Event :=
  executeChain Cmd TrimSpace Unmarshal GetLogger clock
               (scheduler failingFetch) ctx0 chain2 0.

(** An exclusive chain with no instance allowed, and the intake's gateway:
    the scheduled chains are [chain2] and [chain3], chains are admitted
    while [MaxInstances] is positive. *)
Definition chain3 : Chain.t := Chain.mk 3 0 0 true false.

Definition gateway : Intake.IntakeGateway Z :=
  Intake.mkIntakeGateway
    (fun _ w => (([chain2; chain3], None), tick w))
    (fun _ w => (([], Some (otherError "connection refused")), tick w))
    (fun _ id w => ((Chain.mk id 1 0 false false, None), tick w))
    (fun _ w => (ChainSignal.mk 0 "", tick w))
    (fun _ _ maxInstances w => ((0 <? maxInstances)%Z, tick w)).

Definition channelTakes (_ : Chain.t) (w : Z) : bool * Z := (true, w).

(** A scheduler configured with no cron worker: every fetch is spread. *)
Definition noWorkers : Scheduler Z :=
  mkScheduler [] (engine false false false false) (mkResourceOpts 0 0 0)
    (fun _ _ _ w => (("", None), tick w)).

Definition sleeping (d : Duration) (w : Z) : Z := w + d.

Definition idle : Intake.RT Z := Intake.mkRT 0 (fun _ => None).

(** The table of configurations: the key 7 twice, the key 9 once. *)
Definition configured : Database := mkDatabase [7; 9; 7] crashed.

Definition deleteRuns (_ : Context) (_ : Z) (_ : Database) : option error :=
  None.

Definition rowsCounted (_ : Database) : option error := None.

(** main: the world is the list of the statuses that sch.Run will return;
    1 stands for [ConnectionDropppedStatus]. *)
Definition plainOptions : Main.CmdOptions :=
  Main.mkCmdOptions (Main.mkHTTPOpts 0) (Main.mkStartOpts false false).

Definition nextStatus (_ : Context) (w : list Z) : Z * list Z :=
  match w with
  | [] => (0, [])
  | st :: rest => (st, rest)
  end.

Definition readOptions (w : list Z)
  : (Main.CmdOptions * option error) * list Z :=
  ((plainOptions, None), w).

Definition initLogger (_ : Main.CmdOptions) : Logger := [].

Definition newEngine (engineFails : bool) (_ : Context)
  (_ : Main.CmdOptions) (_ : Logger) (w : list Z)
  : option error * list Z :=
  (if engineFails then Some (otherError "connection refused") else None, w).

Definition finalized (w : list Z) : list Z := w.

Definition migrated (_ : Context) (w : list Z) : option error * list Z :=
  (None, w).

Definition upToDate (_ : Context) (w : list Z)
  : (bool * option error) * list Z :=
  ((false, None), w).

Definition reconnected (_ : Context) (w : list Z) : list Z := w.

Definition program (engineFails : bool) (fuel : nat)
  : Main.MM (list Z) (option Z) :=
  Main.main readOptions initLogger (newEngine engineFails) finalized
            migrated upToDate nextStatus reconnected 1 fuel.

(** *** chain.go: executeChain and executeСhainElement *)

Lemma S2_runs_first_task_only :
  exists n,
    (n <= 2)%nat /\
    taskRuns (snd run0)
    = firstn n (map (stampTask chain2 42) [T1 false; T2]).
Proof.
  exact (@executeChain_runs_prefix_in_order Z Cmd TrimSpace Unmarshal
           GetLogger clock sch0 ctx0 chain2 0 tx1 42 (tick 0)
           [T1 false; T2] (tick (tick 0)) eq_refl eq_refl).
Defined.

Lemma S2_ends_transaction_once :
  (exists c,
      filter isTxEnd (snd run0) = [EvCommitTransaction c tx1] \/
      filter isTxEnd (snd run0) = [EvRollbackTransaction c tx1]) /\
  (List.length (filter isRemoveChainRunStatus (snd run0)) <= 1)%nat.
Proof.
  exact (@executeChain_ends_transaction_once Z Cmd TrimSpace Unmarshal
           GetLogger clock sch0 ctx0 chain2 0 tx1 42 (tick 0) eq_refl).
Defined.

Lemma S2_commits_or_rolls_back :
  (taskRuns (snd run0) = map (stampTask chain2 42) [T1 false; T2] /\
   filter isTxEnd (snd run0)
   = [EvCommitTransaction
        (WithLogger Background [("chain", FInt 2); ("txid", FInt 42)]) tx1]
   /\
   filter isDeleteChainConfig (snd run0) = [])
  \/
  (exists c, cancellable c = false /\
             filter isTxEnd (snd run0) = [EvRollbackTransaction c tx1] /\
             filter isDeleteChainConfig (snd run0) = []).
Proof.
  exact (@executeChain_commits_or_rolls_back Z Cmd TrimSpace Unmarshal
           GetLogger clock sch0 ctx0 chain2 0 tx1 42 (tick 0)
           [T1 false; T2] (tick (tick 0)) eq_refl eq_refl).
Defined.

Lemma fetch_failure_run :
  filter isTxEnd (snd run1) = [EvRollbackTransaction ctx0 tx1] /\
  filter isRemoveChainRunStatus (snd run1) = [] /\
  taskRuns (snd run1) = [] /\
  snd (fst run1) = tick (tick (tick 0)).
Proof.
  exact (@executeChain_GetChainElements_failed Z Cmd TrimSpace Unmarshal
           GetLogger clock (scheduler failingFetch) ctx0 chain2 0 tx1 42
           (tick 0) [] (otherError "relation does not exist")
           (tick (tick 0)) eq_refl eq_refl).
Defined.

Lemma unknown_kind_succeeds :
  executeChainElement Cmd TrimSpace Unmarshal GetLogger clock sch0 ctx0 tx1
                      shellTask 0
  = (0, tick (tick 0),
     [EvGetChainParamValues ctx0 tx1 shellTask ([], None);
      EvLog (GetLogger ctx0) LInfo [AStr "Task executed successfully"];
      EvLogChainElementExecution Background
        (ChainTask.set_Duration
           (ChainTask.set_StartedAt shellTask (tick 0)) 0) 0 ""]).
Proof.
  refine (@executeChainElement_unknown_kind Z Cmd TrimSpace Unmarshal
            GetLogger clock sch0 ctx0 tx1 shellTask 0 [] (tick 0) _ _ _
            eq_refl); discriminate.
Defined.

Lemma unknown_kind_code :
  fst (fst (executeChainElement Cmd TrimSpace Unmarshal GetLogger clock sch0
                                ctx0 tx1 shellTask 0)) = 0 \/
  fst (fst (executeChainElement Cmd TrimSpace Unmarshal GetLogger clock sch0
                                ctx0 tx1 shellTask 0)) = -1.
Proof.
  refine (@executeChainElement_code_of_non_program Z Cmd TrimSpace Unmarshal
            GetLogger clock sch0 ctx0 tx1 shellTask 0 _).
  discriminate.
Defined.

(** *** shell.go *)

Lemma blanks_around_echo_are_ignored :
  ExecuteProgramCommandWithOptions Cmd TrimSpace Unmarshal sch0 ctx0
    (mkExecuteProgramOptions 2 1 "echo"
       [jsonArray ["a"; "b"]; jsonArray ["c"]]) 0
  = ExecuteProgramCommandWithOptions Cmd TrimSpace Unmarshal sch0 ctx0
      twoEntries 0.
Proof.
  exact (@ExecuteProgramCommandWithOptions_ignores_blanks Z Cmd TrimSpace
           Unmarshal sch0 ctx0 twoEntries 0 eq_refl).
Defined.

(** *** chain.go: the intake and the worker *)

Lemma scheduled_chains_are_offered :
  filter Intake.isQuery
    (snd (Intake.retrieveChainsAndRun gateway channelTakes sleeping 30 sch0
            ctx0 false idle))
  = [Intake.EvSelectChains ctx0 ([chain2; chain3], None)] /\
  Intake.offered
    (snd (Intake.retrieveChainsAndRun gateway channelTakes sleeping 30 sch0
            ctx0 false idle))
  = [chain2; chain3] /\
  Intake.activeChains
    (snd (fst (Intake.retrieveChainsAndRun gateway channelTakes sleeping 30
                 sch0 ctx0 false idle)))
  = Intake.activeChains idle.
Proof.
  exact (@Intake.retrieveChainsAndRun_offers_fetched Z gateway channelTakes
           sleeping 30 sch0 ctx0 false idle [chain2; chain3] None (tick 0)
           eq_refl).
Defined.

(** With a refetch timeout of 30 s and no cron worker, the two chains are
    sent 15 s apart: 30 s of pauses in all. *)
Lemma two_chains_are_spread :
  Intake.sleeps
    (snd (Intake.retrieveChainsAndRun gateway channelTakes sleeping 30
            noWorkers ctx0 false idle))
  = [15000000000; 15000000000] /\
  0 <= Intake.total
         (Intake.sleeps
            (snd (Intake.retrieveChainsAndRun gateway channelTakes sleeping
                    30 noWorkers ctx0 false idle)))
    <= 30 * time_Second.
Proof.
  refine (@Intake.retrieveChainsAndRun_spreads_within_refetch Z gateway
            channelTakes sleeping 30 noWorkers ctx0 false idle
            [chain2; chain3] (tick 0) _ eq_refl).
  lia.
Defined.

Lemma full_chain_is_refused :
  Intake.workOnChain gateway Cmd TrimSpace Unmarshal GetLogger clock sch0
                     ctx0 chain3 idle
  = (tt, Intake.mkRT (tick 0) (Intake.activeChains idle),
     [Intake.EvInsertChainRunStatus ctx0 3 0 false;
      Intake.Core (EvLog [("chain", FInt 3)] LInfo
                         [AStr "Cannot proceed. Sleeping"])]).
Proof.
  exact (@Intake.workOnChain_refused Z gateway Cmd TrimSpace Unmarshal
           GetLogger clock sch0 ctx0 chain3 idle (tick 0) eq_refl).
Defined.

Lemma admitted_chain_is_run_and_unregistered :
  Intake.world
    (snd (fst (Intake.workOnChain gateway Cmd TrimSpace Unmarshal GetLogger
                                  clock sch0 ctx0 chain2 idle)))
  = snd (fst (executeChain Cmd TrimSpace Unmarshal GetLogger clock sch0
                (WithCancel (WithLogger ctx0 [("chain", FInt 2)])) chain2
                (tick 0))) /\
  snd (Intake.workOnChain gateway Cmd TrimSpace Unmarshal GetLogger clock
                          sch0 ctx0 chain2 idle)
  = ([Intake.EvInsertChainRunStatus ctx0 2 1 true;
      Intake.Core (EvLog [("chain", FInt 2)] LInfo [AStr "Starting chain"]);
      Intake.EvMutexRLock]
     ++ map Intake.Core
          (snd (executeChain Cmd TrimSpace Unmarshal GetLogger clock sch0
                  (WithCancel (WithLogger ctx0 [("chain", FInt 2)])) chain2
                  (tick 0)))
     ++ [Intake.Core
           (EvCancel
              (cancelOf (WithCancel (WithLogger ctx0 [("chain", FInt 2)]))));
         Intake.EvMutexRUnlock])%list /\
  Intake.activeChains
    (snd (fst (Intake.workOnChain gateway Cmd TrimSpace Unmarshal GetLogger
                                  clock sch0 ctx0 chain2 idle))) 2
  = None /\
  forall id,
    id <> 2 ->
    Intake.activeChains
      (snd (fst (Intake.workOnChain gateway Cmd TrimSpace Unmarshal
                                    GetLogger clock sch0 ctx0 chain2 idle)))
      id
    = Intake.activeChains idle id.
Proof.
  exact (@Intake.workOnChain_admitted Z gateway Cmd TrimSpace Unmarshal
           GetLogger clock sch0 ctx0 chain2 idle (tick 0) eq_refl).
Defined.

(** *** access.go *)

Lemma lock_granted_then_timer :
  exists tr0 err logs d,
    snd (TryLockClientName client 5 80 lockGranted timerFires 1 ctx0
                           crashed)
    = (tr0 ++ EvTryAdvisoryLock ctx0 AppID (adler32_Checksum client)
                (Some true, err)
           :: logs ++ [EvSelect ctx0 d false])%list /\
    Forall (fun e => isLogToDB e = true) logs.
Proof.
  exact (@TryLockClientName_result client 5 80 lockGranted timerFires 1 ctx0
           crashed
           (snd (fst (TryLockClientName client 5 80 lockGranted timerFires 1
                        ctx0 crashed)))
           true
           (snd (TryLockClientName client 5 80 lockGranted timerFires 1 ctx0
                   crashed))
           eq_refl).
Defined.

(** With WaitTime 5 and maxWaitTime 12 the third wait is 20 seconds: above
    maxWaitTime, below twice maxWaitTime. *)
Lemma backoff_5_12 :
  (5 <= backoff 5 12 2 < Z.max (5 + 1) (2 * 12)) /\
  backoff 5 12 3 = (if (backoff 5 12 2 <? 12)%Z then 2 * backoff 5 12 2
                    else backoff 5 12 2).
Proof.
  refine (@backoff_bounds 5 12 2 _ _); lia.
Defined.

Lemma duplicate_key_is_deleted_but_not_reported :
  ~ In 7 (chain_execution_config_rows
            (snd (fst (Access.DeleteChainConfig deleteRuns rowsCounted ctx0 7
                         configured)))) /\
  (forall k,
      k <> 7 ->
      count_occ Z.eq_dec
        (chain_execution_config_rows
           (snd (fst (Access.DeleteChainConfig deleteRuns rowsCounted ctx0 7
                        configured)))) k
      = count_occ Z.eq_dec (chain_execution_config_rows configured) k) /\
  rows (base (snd (fst (Access.DeleteChainConfig deleteRuns rowsCounted ctx0
                          7 configured))))
  = rows (base configured) /\
  forall ctx',
    fst (fst (Access.DeleteChainConfig deleteRuns rowsCounted ctx' 7
                (snd (fst (Access.DeleteChainConfig deleteRuns rowsCounted
                             ctx0 7 configured)))))
    = false.
Proof.
  exact (@DeleteChainConfig_then_gone deleteRuns rowsCounted ctx0 7
           configured eq_refl).
Defined.

(** *** main.go *)

Lemma two_drops_then_exit_0 :
  exists body,
    snd (program false 5 [1; 1; 0])
    = (body
       ++ (if existsb Main.isEngineCreated body
           then [Main.EvFinalize] else [])
       ++ [Main.EvCancelCall (cancelOf (WithCancel Background));
           Main.EvExit 0])%list /\
    filter Main.isCleanup body = [].
Proof.
  refine (@Main.main_exits_after_cleanup _ readOptions initLogger
            (newEngine false) finalized migrated upToDate nextStatus
            reconnected 1 5 [1; 1; 0]
            (snd (fst (program false 5 [1; 1; 0]))) 0
            (snd (program false 5 [1; 1; 0])) _).
  reflexivity.
Defined.

Lemma engine_failure_exits_2 :
  2 = (if existsb Main.isConfigError (snd (program true 5 [0]))
       then Main.ExitCodeConfigError
       else if existsb Main.isEngineError (snd (program true 5 [0]))
            then Main.ExitCodeDBEngineError
            else if existsb Main.isUpgradeError (snd (program true 5 [0]))
                 then Main.ExitCodeUpgradeError
                 else Main.ExitCodeOK).
Proof.
  refine (@Main.main_exit_code_names_failed_step _ readOptions initLogger
            (newEngine true) finalized migrated upToDate nextStatus
            reconnected 1 5 [0]
            (snd (fst (program true 5 [0]))) 2 (snd (program true 5 [0]))
            _).
  reflexivity.
Defined.

Lemma scheduler_ran_on_ready_database :
  exists cmdOpts pre post,
    snd (program false 5 [1; 1; 0])
    = (pre ++ Main.EvSchedulerNew [] :: Main.EvSetHttpStatusRunning
           :: post)%list /\
    Main.Init (Main.Start cmdOpts) = false /\
    In (Main.EvNewConfig (cmdOpts, None)) pre /\
    In (Main.EvNew (WithCancel Background) cmdOpts [] None) pre /\
    In (Main.databaseReady (WithCancel Background) cmdOpts) pre /\
    filter Main.isRunOrReconnect pre = [].
Proof.
  refine (@Main.main_runs_scheduler_only_when_ready _ readOptions
            initLogger (newEngine false) finalized migrated upToDate
            nextStatus reconnected 1 5 [1; 1; 0] (WithCancel Background) 0 _).
  cbn. auto 20.
Defined.

Lemma two_drops_two_reconnects :
  0 = Main.ExitCodeOK /\
  exists n st,
    st <> 1 /\
    filter Main.isRunOrReconnect (snd (program false 5 [1; 1; 0]))
    = (Main.drops 1 (WithCancel Background) n
       ++ [Main.EvRun (WithCancel Background) st])%list.
Proof.
  refine (@Main.main_reconnects_after_every_drop _ readOptions
            initLogger (newEngine false) finalized migrated upToDate
            nextStatus reconnected 1 5 [1; 1; 0] (snd (fst (program false 5 [1; 1; 0]))) 0
            (snd (program false 5 [1; 1; 0])) [] _ _).
  - reflexivity.
  - cbn. auto 20.
Defined.

End Scenarios.
